(** * Story Forge: a shallow embedding of the generation pipeline

    The Django application under [src/generator] turns a text or audio
    prompt into a story, two visual descriptions, two images and a composed
    scene.  This development embeds the request handler
    ([views.py]), the record type ([models.py]), the language-model wrapper
    ([ollama_story_generator.py]), the image generator
    ([gpu_image_generator.py]) and the audio validator
    ([audio_processor.py]) as Rocq functions and proves properties of them.

    Modelling conventions.

    - A Python [str] is kept as its UTF-8 encoding, a [string] of bytes;
      lengths, slices, blanks and letter case are those of its code
      points.  The blanks are the code points of [str.isspace]; [lower]
      follows the case mappings of Unicode 14.0 (CPython 3.11), with the
      final sigma and the two code points of the lowercase of U+0130.
      Bytes that encode no code point are kept as they are.
    - A Python [float] is a primitive binary64 [float]; [int(x)] truncates
      towards zero.
    - The services the code wraps (the Ollama HTTP server, the diffusion
      pipeline, the speech recognisers), the clock, [uuid4] and the font
      files are not part of the program.  Their answers are read from an
      environment record [Env]; every theorem quantifies over it.
    - Statements that Python runs for their effect are functions of a state
      [St] into an outcome (a value or a raised exception) and a new state;
      the [story] object is part of the state because the code mutates it
      in place, so that assignments made before an exception survive it.
    - In [Views] the ORM ([objects.create], [Model.save]), the messages
      framework and drawing on in-memory images succeed; [logger] calls
      are left out, and memory is not bounded.  Framework code that runs
      inside the [try] block of the pipeline without a handler of its own
      (the imports, the three writes to the storage, the release of GPU
      memory) raises when the environment says so ([gen_fault]).  In
      [ViewsDb] the two calls of [story.save()] of
      [_generate_enhanced_story_content] can be refused by the database as
      well.
    - Three library behaviours that the code relies on are written out:
      [field.save(name, content)] on a file field stores the content under
      the name that the [upload_to] function of the field makes of [name]
      (the storage neither cleans nor shortens that name, and a second
      file under the same name takes the place of the first), Pillow's
      [resize] raises [ValueError] for a target size with a side below 1,
      and an image needs a width and a height that are not negative to be
      made and positive to be saved as PNG. *)

From Stdlib Require Import ZArith NArith Ascii String List Bool Lia.
From Stdlib Require Import PrimFloat FloatOps SpecFloat Uint63.
From stdpp Require Import base option gmap strings pretty list.

Set Warnings "-inexact-float".
Local Open Scope Z_scope.

(** ** Python strings

    A [str] is kept as its UTF-8 encoding, a [string] of bytes.  What
    Python does code point by code point ([len], slicing, [split],
    [strip], [lower]) is done on the list [chars s] of the code points of
    [s], each with its bytes; what it does on substrings ([in],
    [startswith], [split('.')] with an ASCII separator) is the same on
    the bytes, because no encoding of a code point starts inside another
    one. *)

Module Py.

(** [bool(s)]: a string is true when it is not empty. *)
Definition truthy (s : string) : bool :=
  match s with
  | EmptyString => false
  | String _ _ => true
  end.

(** A continuation byte of UTF-8: [10xxxxxx]. *)
Definition is_cont (c : ascii) : bool :=
  let n := N_of_ascii c in
  ((128 <=? n) && (n <? 192))%N.

(** The number of continuation bytes that a first byte announces. *)
Definition trail (c : ascii) : nat :=
  let n := N_of_ascii c in
  if (n <? 192)%N then 0%nat
  else if (n <? 224)%N then 1%nat
  else if (n <? 240)%N then 2%nat
  else 3%nat.

(** [scan need s]: the bytes of [s] that belong to the code point being
    read, which takes [need] more continuation bytes at most, and the code
    points after it. *)
Fixpoint scan (need : nat) (s : string) : string * list string :=
  match s with
  | EmptyString => (EmptyString, [])
  | String c s' =>
      match need with
      | S n =>
          if is_cont c
          then (let (t, l) := scan n s' in (String c t, l))
          else (let (t, l) := scan (trail c) s' in (EmptyString, String c t :: l))
      | O => let (t, l) := scan (trail c) s' in (EmptyString, String c t :: l)
      end
  end.

(** The code points of [s], in order. *)
Definition chars (s : string) : list string := snd (scan 0 s).

(** [''.join(parts)] *)
Definition concat (parts : list string) : string :=
  fold_right String.append EmptyString parts.

(** [chr(n)], encoded *)
Definition chr (n : N) : string :=
  let byte k := String (ascii_of_N k) EmptyString in
  (if n <? 128 then byte n
   else if n <? 2048 then byte (192 + n / 64) +:+ byte (128 + n mod 64)
   else if n <? 65536
   then byte (224 + n / 4096) +:+ byte (128 + (n / 64) mod 64)
        +:+ byte (128 + n mod 64)
   else byte (240 + n / 262144) +:+ byte (128 + (n / 4096) mod 64)
        +:+ byte (128 + (n / 64) mod 64) +:+ byte (128 + n mod 64))%N.

(** [ord(ch)] for the bytes of one code point; [None] for bytes that are
    not the encoding of a code point. *)
Definition ord (ch : string) : option N :=
  let b c := N_of_ascii c in
  let n :=
    (match ch with
     | String c0 EmptyString => b c0
     | String c0 (String c1 EmptyString) => (b c0 - 192) * 64 + (b c1 - 128)
     | String c0 (String c1 (String c2 EmptyString)) =>
         (b c0 - 224) * 4096 + (b c1 - 128) * 64 + (b c2 - 128)
     | String c0 (String c1 (String c2 (String c3 EmptyString))) =>
         (b c0 - 240) * 262144 + (b c1 - 128) * 4096 + (b c2 - 128) * 64
         + (b c3 - 128)
     | _ => 0
     end)%N in
  if String.eqb (chr n) ch then Some n else None.

(** [Py_UNICODE_ISSPACE]: the code points that [split] and [strip] take
    for blanks. *)
Definition is_whitespace (n : N) : bool :=
  ((9 <=? n) && (n <=? 13) || (28 <=? n) && (n <=? 32)
   || (n =? 133) || (n =? 160) || (n =? 5760)
   || (8192 <=? n) && (n <=? 8202)
   || (n =? 8232) || (n =? 8233) || (n =? 8239) || (n =? 8287)
   || (n =? 12288))%N.

(** [ch.isspace()] for one code point *)
Definition isspace (ch : string) : bool :=
  match ord ch with
  | Some n => is_whitespace n
  | None => false
  end.

(** [s.split()] on the code points, with the word being read in [w]. *)
Fixpoint split_acc (w : string) (l : list string) : list string :=
  match l with
  | [] => if truthy w then [w] else []
  | ch :: l' =>
      if isspace ch
      then (if truthy w then w :: split_acc EmptyString l'
            else split_acc EmptyString l')
      else split_acc (w +:+ ch) l'
  end.

(** [s.split()] *)
Definition split (s : string) : list string := split_acc EmptyString (chars s).

(** [len(s.split())] *)
Definition word_count (s : string) : Z := Z.of_nat (length (split s)).

(** [s.lstrip()], [s.rstrip()], [s.strip()], on the code points *)
Fixpoint lstrip_chars (l : list string) : list string :=
  match l with
  | [] => []
  | ch :: l' => if isspace ch then lstrip_chars l' else l
  end.

Fixpoint rstrip_chars (l : list string) : list string :=
  match l with
  | [] => []
  | ch :: l' =>
      match rstrip_chars l' with
      | [] => if isspace ch then [] else [ch]
      | r => ch :: r
      end
  end.

Definition lstrip (s : string) : string := concat (lstrip_chars (chars s)).

Definition rstrip (s : string) : string := concat (rstrip_chars (chars s)).

Definition strip (s : string) : string :=
  concat (rstrip_chars (lstrip_chars (chars s))).

(** [len(s)] *)
Definition len (s : string) : Z := Z.of_nat (length (chars s)).

(** [s[:n]] for [n >= 0] *)
Definition take (n : nat) (s : string) : string := concat (firstn n (chars s)).

(** The simple lowercase mappings of the Unicode character database
    (version 14.0, the one of CPython 3.11): [(first, last, step, target)]
    stands for [first + k * step |-> target + k * step] up to [last]. *)
Definition lower_ranges : list (N * N * N * N) :=
  [(65, 90, 1, 97); (192, 214, 1, 224); (216, 222, 1, 248);
   (256, 302, 2, 257); (306, 310, 2, 307); (313, 327, 2, 314);
   (330, 374, 2, 331); (376, 376, 1, 255); (377, 381, 2, 378);
   (385, 385, 1, 595); (386, 388, 2, 387); (390, 390, 1, 596);
   (391, 391, 1, 392); (393, 394, 1, 598); (395, 395, 1, 396);
   (398, 398, 1, 477); (399, 399, 1, 601); (400, 400, 1, 603);
   (401, 401, 1, 402); (403, 403, 1, 608); (404, 404, 1, 611);
   (406, 406, 1, 617); (407, 407, 1, 616); (408, 408, 1, 409);
   (412, 412, 1, 623); (413, 413, 1, 626); (415, 415, 1, 629);
   (416, 420, 2, 417); (422, 422, 1, 640); (423, 423, 1, 424);
   (425, 425, 1, 643); (428, 428, 1, 429); (430, 430, 1, 648);
   (431, 431, 1, 432); (433, 434, 1, 650); (435, 437, 2, 436);
   (439, 439, 1, 658); (440, 440, 1, 441); (444, 444, 1, 445);
   (452, 452, 1, 454); (453, 453, 1, 454); (455, 455, 1, 457);
   (456, 456, 1, 457); (458, 458, 1, 460); (459, 475, 2, 460);
   (478, 494, 2, 479); (497, 497, 1, 499); (498, 500, 2, 499);
   (502, 502, 1, 405); (503, 503, 1, 447); (504, 542, 2, 505);
   (544, 544, 1, 414); (546, 562, 2, 547); (570, 570, 1, 11365);
   (571, 571, 1, 572); (573, 573, 1, 410); (574, 574, 1, 11366);
   (577, 577, 1, 578); (579, 579, 1, 384); (580, 580, 1, 649);
   (581, 581, 1, 652); (582, 590, 2, 583); (880, 882, 2, 881);
   (886, 886, 1, 887); (895, 895, 1, 1011); (902, 902, 1, 940);
   (904, 906, 1, 941); (908, 908, 1, 972); (910, 911, 1, 973);
   (913, 929, 1, 945); (931, 939, 1, 963); (975, 975, 1, 983);
   (984, 1006, 2, 985); (1012, 1012, 1, 952); (1015, 1015, 1, 1016);
   (1017, 1017, 1, 1010); (1018, 1018, 1, 1019); (1021, 1023, 1, 891);
   (1024, 1039, 1, 1104); (1040, 1071, 1, 1072); (1120, 1152, 2, 1121);
   (1162, 1214, 2, 1163); (1216, 1216, 1, 1231); (1217, 1229, 2, 1218);
   (1232, 1326, 2, 1233); (1329, 1366, 1, 1377); (4256, 4293, 1, 11520);
   (4295, 4295, 1, 11559); (4301, 4301, 1, 11565); (5024, 5103, 1, 43888);
   (5104, 5109, 1, 5112); (7312, 7354, 1, 4304); (7357, 7359, 1, 4349);
   (7680, 7828, 2, 7681); (7838, 7838, 1, 223); (7840, 7934, 2, 7841);
   (7944, 7951, 1, 7936); (7960, 7965, 1, 7952); (7976, 7983, 1, 7968);
   (7992, 7999, 1, 7984); (8008, 8013, 1, 8000); (8025, 8031, 2, 8017);
   (8040, 8047, 1, 8032); (8072, 8079, 1, 8064); (8088, 8095, 1, 8080);
   (8104, 8111, 1, 8096); (8120, 8121, 1, 8112); (8122, 8123, 1, 8048);
   (8124, 8124, 1, 8115); (8136, 8139, 1, 8050); (8140, 8140, 1, 8131);
   (8152, 8153, 1, 8144); (8154, 8155, 1, 8054); (8168, 8169, 1, 8160);
   (8170, 8171, 1, 8058); (8172, 8172, 1, 8165); (8184, 8185, 1, 8056);
   (8186, 8187, 1, 8060); (8188, 8188, 1, 8179); (8486, 8486, 1, 969);
   (8490, 8490, 1, 107); (8491, 8491, 1, 229); (8498, 8498, 1, 8526);
   (8544, 8559, 1, 8560); (8579, 8579, 1, 8580); (9398, 9423, 1, 9424);
   (11264, 11311, 1, 11312); (11360, 11360, 1, 11361); (11362, 11362, 1, 619);
   (11363, 11363, 1, 7549); (11364, 11364, 1, 637); (11367, 11371, 2, 11368);
   (11373, 11373, 1, 593); (11374, 11374, 1, 625); (11375, 11375, 1, 592);
   (11376, 11376, 1, 594); (11378, 11378, 1, 11379); (11381, 11381, 1, 11382);
   (11390, 11391, 1, 575); (11392, 11490, 2, 11393); (11499, 11501, 2, 11500);
   (11506, 11506, 1, 11507); (42560, 42604, 2, 42561); (42624, 42650, 2, 42625);
   (42786, 42798, 2, 42787); (42802, 42862, 2, 42803); (42873, 42875, 2, 42874);
   (42877, 42877, 1, 7545); (42878, 42886, 2, 42879); (42891, 42891, 1, 42892);
   (42893, 42893, 1, 613); (42896, 42898, 2, 42897); (42902, 42920, 2, 42903);
   (42922, 42922, 1, 614); (42923, 42923, 1, 604); (42924, 42924, 1, 609);
   (42925, 42925, 1, 620); (42926, 42926, 1, 618); (42928, 42928, 1, 670);
   (42929, 42929, 1, 647); (42930, 42930, 1, 669); (42931, 42931, 1, 43859);
   (42932, 42946, 2, 42933); (42948, 42948, 1, 42900); (42949, 42949, 1, 642);
   (42950, 42950, 1, 7566); (42951, 42953, 2, 42952); (42960, 42960, 1, 42961);
   (42966, 42968, 2, 42967); (42997, 42997, 1, 42998); (65313, 65338, 1, 65345);
   (66560, 66599, 1, 66600); (66736, 66771, 1, 66776); (66928, 66938, 1, 66967);
   (66940, 66954, 1, 66979); (66956, 66962, 1, 66995); (66964, 66965, 1, 67003);
   (68736, 68786, 1, 68800); (71840, 71871, 1, 71872); (93760, 93791, 1, 93792);
   (125184, 125217, 1, 125218)]%N.

(** The code points with the property [Case_Ignorable], as ranges. *)
Definition case_ignorable_ranges : list (N * N) :=
  [(39, 39); (46, 46); (58, 58); (94, 94); (96, 96);
   (168, 168); (173, 173); (175, 175); (180, 180); (183, 184);
   (688, 879); (884, 885); (890, 890); (900, 901); (903, 903);
   (1155, 1161); (1369, 1369); (1375, 1375); (1425, 1469); (1471, 1471);
   (1473, 1474); (1476, 1477); (1479, 1479); (1524, 1524); (1536, 1541);
   (1552, 1562); (1564, 1564); (1600, 1600); (1611, 1631); (1648, 1648);
   (1750, 1757); (1759, 1768); (1770, 1773); (1807, 1807); (1809, 1809);
   (1840, 1866); (1958, 1968); (2027, 2037); (2042, 2042); (2045, 2045);
   (2070, 2093); (2137, 2139); (2184, 2184); (2192, 2193); (2200, 2207);
   (2249, 2306); (2362, 2362); (2364, 2364); (2369, 2376); (2381, 2381);
   (2385, 2391); (2402, 2403); (2417, 2417); (2433, 2433); (2492, 2492);
   (2497, 2500); (2509, 2509); (2530, 2531); (2558, 2558); (2561, 2562);
   (2620, 2620); (2625, 2626); (2631, 2632); (2635, 2637); (2641, 2641);
   (2672, 2673); (2677, 2677); (2689, 2690); (2748, 2748); (2753, 2757);
   (2759, 2760); (2765, 2765); (2786, 2787); (2810, 2815); (2817, 2817);
   (2876, 2876); (2879, 2879); (2881, 2884); (2893, 2893); (2901, 2902);
   (2914, 2915); (2946, 2946); (3008, 3008); (3021, 3021); (3072, 3072);
   (3076, 3076); (3132, 3132); (3134, 3136); (3142, 3144); (3146, 3149);
   (3157, 3158); (3170, 3171); (3201, 3201); (3260, 3260); (3263, 3263);
   (3270, 3270); (3276, 3277); (3298, 3299); (3328, 3329); (3387, 3388);
   (3393, 3396); (3405, 3405); (3426, 3427); (3457, 3457); (3530, 3530);
   (3538, 3540); (3542, 3542); (3633, 3633); (3636, 3642); (3654, 3662);
   (3761, 3761); (3764, 3772); (3782, 3782); (3784, 3789); (3864, 3865);
   (3893, 3893); (3895, 3895); (3897, 3897); (3953, 3966); (3968, 3972);
   (3974, 3975); (3981, 3991); (3993, 4028); (4038, 4038); (4141, 4144);
   (4146, 4151); (4153, 4154); (4157, 4158); (4184, 4185); (4190, 4192);
   (4209, 4212); (4226, 4226); (4229, 4230); (4237, 4237); (4253, 4253);
   (4348, 4348); (4957, 4959); (5906, 5908); (5938, 5939); (5970, 5971);
   (6002, 6003); (6068, 6069); (6071, 6077); (6086, 6086); (6089, 6099);
   (6103, 6103); (6109, 6109); (6155, 6159); (6211, 6211); (6277, 6278);
   (6313, 6313); (6432, 6434); (6439, 6440); (6450, 6450); (6457, 6459);
   (6679, 6680); (6683, 6683); (6742, 6742); (6744, 6750); (6752, 6752);
   (6754, 6754); (6757, 6764); (6771, 6780); (6783, 6783); (6823, 6823);
   (6832, 6862); (6912, 6915); (6964, 6964); (6966, 6970); (6972, 6972);
   (6978, 6978); (7019, 7027); (7040, 7041); (7074, 7077); (7080, 7081);
   (7083, 7085); (7142, 7142); (7144, 7145); (7149, 7149); (7151, 7153);
   (7212, 7219); (7222, 7223); (7288, 7293); (7376, 7378); (7380, 7392);
   (7394, 7400); (7405, 7405); (7412, 7412); (7416, 7417); (7468, 7530);
   (7544, 7544); (7579, 7679); (8125, 8125); (8127, 8129); (8141, 8143);
   (8157, 8159); (8173, 8175); (8189, 8190); (8203, 8207); (8216, 8217);
   (8228, 8228); (8231, 8231); (8234, 8238); (8288, 8292); (8294, 8303);
   (8305, 8305); (8319, 8319); (8336, 8348); (8400, 8432); (11388, 11389);
   (11503, 11505); (11631, 11631); (11647, 11647); (11744, 11775); (11823, 11823);
   (12293, 12293); (12330, 12333); (12337, 12341); (12347, 12347); (12441, 12446);
   (12540, 12542); (40981, 40981); (42232, 42237); (42508, 42508); (42607, 42610);
   (42612, 42621); (42623, 42623); (42652, 42655); (42736, 42737); (42752, 42785);
   (42864, 42864); (42888, 42890); (42994, 42996); (43000, 43001); (43010, 43010);
   (43014, 43014); (43019, 43019); (43045, 43046); (43052, 43052); (43204, 43205);
   (43232, 43249); (43263, 43263); (43302, 43309); (43335, 43345); (43392, 43394);
   (43443, 43443); (43446, 43449); (43452, 43453); (43471, 43471); (43493, 43494);
   (43561, 43566); (43569, 43570); (43573, 43574); (43587, 43587); (43596, 43596);
   (43632, 43632); (43644, 43644); (43696, 43696); (43698, 43700); (43703, 43704);
   (43710, 43711); (43713, 43713); (43741, 43741); (43756, 43757); (43763, 43764);
   (43766, 43766); (43867, 43871); (43881, 43883); (44005, 44005); (44008, 44008);
   (44013, 44013); (64286, 64286); (64434, 64450); (65024, 65039); (65043, 65043);
   (65056, 65071); (65106, 65106); (65109, 65109); (65279, 65279); (65287, 65287);
   (65294, 65294); (65306, 65306); (65342, 65342); (65344, 65344); (65392, 65392);
   (65438, 65439); (65507, 65507); (65529, 65531); (66045, 66045); (66272, 66272);
   (66422, 66426); (67456, 67461); (67463, 67504); (67506, 67514); (68097, 68099);
   (68101, 68102); (68108, 68111); (68152, 68154); (68159, 68159); (68325, 68326);
   (68900, 68903); (69291, 69292); (69446, 69456); (69506, 69509); (69633, 69633);
   (69688, 69702); (69744, 69744); (69747, 69748); (69759, 69761); (69811, 69814);
   (69817, 69818); (69821, 69821); (69826, 69826); (69837, 69837); (69888, 69890);
   (69927, 69931); (69933, 69940); (70003, 70003); (70016, 70017); (70070, 70078);
   (70089, 70092); (70095, 70095); (70191, 70193); (70196, 70196); (70198, 70199);
   (70206, 70206); (70367, 70367); (70371, 70378); (70400, 70401); (70459, 70460);
   (70464, 70464); (70502, 70508); (70512, 70516); (70712, 70719); (70722, 70724);
   (70726, 70726); (70750, 70750); (70835, 70840); (70842, 70842); (70847, 70848);
   (70850, 70851); (71090, 71093); (71100, 71101); (71103, 71104); (71132, 71133);
   (71219, 71226); (71229, 71229); (71231, 71232); (71339, 71339); (71341, 71341);
   (71344, 71349); (71351, 71351); (71453, 71455); (71458, 71461); (71463, 71467);
   (71727, 71735); (71737, 71738); (71995, 71996); (71998, 71998); (72003, 72003);
   (72148, 72151); (72154, 72155); (72160, 72160); (72193, 72202); (72243, 72248);
   (72251, 72254); (72263, 72263); (72273, 72278); (72281, 72283); (72330, 72342);
   (72344, 72345); (72752, 72758); (72760, 72765); (72767, 72767); (72850, 72871);
   (72874, 72880); (72882, 72883); (72885, 72886); (73009, 73014); (73018, 73018);
   (73020, 73021); (73023, 73029); (73031, 73031); (73104, 73105); (73109, 73109);
   (73111, 73111); (73459, 73460); (78896, 78904); (92912, 92916); (92976, 92982);
   (92992, 92995); (94031, 94031); (94095, 94111); (94176, 94177); (94179, 94180);
   (110576, 110579); (110581, 110587); (110589, 110590); (113821, 113822); (113824, 113827);
   (118528, 118573); (118576, 118598); (119143, 119145); (119155, 119170); (119173, 119179);
   (119210, 119213); (119362, 119364); (121344, 121398); (121403, 121452); (121461, 121461);
   (121476, 121476); (121499, 121503); (121505, 121519); (122880, 122886); (122888, 122904);
   (122907, 122913); (122915, 122916); (122918, 122922); (123184, 123197); (123566, 123566);
   (123628, 123631); (125136, 125142); (125252, 125259); (127995, 127999); (917505, 917505);
   (917536, 917631); (917760, 917999)]%N.

(** The code points with the property [Cased] that are not
    [Case_Ignorable], as ranges. *)
Definition cased_ranges : list (N * N) :=
  [(65, 90); (97, 122); (170, 170); (181, 181); (186, 186);
   (192, 214); (216, 246); (248, 442); (444, 447); (452, 659);
   (661, 687); (880, 883); (886, 887); (891, 893); (895, 895);
   (902, 902); (904, 906); (908, 908); (910, 929); (931, 1013);
   (1015, 1153); (1162, 1327); (1329, 1366); (1376, 1416); (4256, 4293);
   (4295, 4295); (4301, 4301); (4304, 4346); (4349, 4351); (5024, 5109);
   (5112, 5117); (7296, 7304); (7312, 7354); (7357, 7359); (7424, 7467);
   (7531, 7543); (7545, 7578); (7680, 7957); (7960, 7965); (7968, 8005);
   (8008, 8013); (8016, 8023); (8025, 8025); (8027, 8027); (8029, 8029);
   (8031, 8061); (8064, 8116); (8118, 8124); (8126, 8126); (8130, 8132);
   (8134, 8140); (8144, 8147); (8150, 8155); (8160, 8172); (8178, 8180);
   (8182, 8188); (8450, 8450); (8455, 8455); (8458, 8467); (8469, 8469);
   (8473, 8477); (8484, 8484); (8486, 8486); (8488, 8488); (8490, 8493);
   (8495, 8500); (8505, 8505); (8508, 8511); (8517, 8521); (8526, 8526);
   (8544, 8575); (8579, 8580); (9398, 9449); (11264, 11387); (11390, 11492);
   (11499, 11502); (11506, 11507); (11520, 11557); (11559, 11559); (11565, 11565);
   (42560, 42605); (42624, 42651); (42786, 42863); (42865, 42887); (42891, 42894);
   (42896, 42954); (42960, 42961); (42963, 42963); (42965, 42969); (42997, 42998);
   (43002, 43002); (43824, 43866); (43872, 43880); (43888, 43967); (64256, 64262);
   (64275, 64279); (65313, 65338); (65345, 65370); (66560, 66639); (66736, 66771);
   (66776, 66811); (66928, 66938); (66940, 66954); (66956, 66962); (66964, 66965);
   (66967, 66977); (66979, 66993); (66995, 67001); (67003, 67004); (68736, 68786);
   (68800, 68850); (71840, 71903); (93760, 93823); (119808, 119892); (119894, 119964);
   (119966, 119967); (119970, 119970); (119973, 119974); (119977, 119980); (119982, 119993);
   (119995, 119995); (119997, 120003); (120005, 120069); (120071, 120074); (120077, 120084);
   (120086, 120092); (120094, 120121); (120123, 120126); (120128, 120132); (120134, 120134);
   (120138, 120144); (120146, 120485); (120488, 120512); (120514, 120538); (120540, 120570);
   (120572, 120596); (120598, 120628); (120630, 120654); (120656, 120686); (120688, 120712);
   (120714, 120744); (120746, 120770); (120772, 120779); (122624, 122633); (122635, 122654);
   (125184, 125251); (127280, 127305); (127312, 127337); (127344, 127369)]%N.

Definition in_ranges (n : N) (ranges : list (N * N)) : bool :=
  existsb (fun '(first, last) => (first <=? n) && (n <=? last))%N ranges.

Definition case_ignorable (n : N) : bool := in_ranges n case_ignorable_ranges.

Definition cased (n : N) : bool := in_ranges n cased_ranges.

(** [_PyUnicode_ToLowerFull] for the code points with one lowercase code
    point. *)
Fixpoint lower_in (n : N) (ranges : list (N * N * N * N)) : N :=
  match ranges with
  | [] => n
  | (first, last, step, target) :: ranges' =>
      if ((first <=? n) && (n <=? last) && ((n - first) mod step =? 0))%N
      then (target + (n - first))%N
      else lower_in n ranges'
  end.

Definition to_lower (n : N) : N := lower_in n lower_ranges.

(** The second half of the condition [Final_Sigma]: what follows, after
    the case-ignorable code points, is not a cased letter. *)
Fixpoint followed_by_cased (l : list string) : bool :=
  match l with
  | [] => false
  | ch :: l' =>
      match ord ch with
      | Some n => if case_ignorable n then followed_by_cased l' else cased n
      | None => false
      end
  end.

(** [s.lower()] on the code points; [after_cased] tells whether the last
    code point before, case-ignorable ones apart, is a cased letter.
    U+03A3 becomes U+03C2 in the context [Final_Sigma] and U+03C3
    elsewhere; U+0130 is the one code point with two lowercase code
    points. *)
Fixpoint lower_chars (after_cased : bool) (l : list string) : list string :=
  match l with
  | [] => []
  | ch :: l' =>
      match ord ch with
      | Some n =>
          (if (n =? 931)%N
           then (if after_cased && negb (followed_by_cased l')
                 then chr 962 else chr 963)
           else if (n =? 304)%N then chr 105 +:+ chr 775
           else chr (to_lower n))
          :: lower_chars (if case_ignorable n then after_cased else cased n) l'
      | None => ch :: lower_chars false l'
      end
  end.

(** [s.lower()] *)
Definition lower (s : string) : string := concat (lower_chars false (chars s)).

(** [s.startswith(p)] *)
Fixpoint startswith (p s : string) : bool :=
  match p, s with
  | EmptyString, _ => true
  | String _ _, EmptyString => false
  | String a p', String b s' => Ascii.eqb a b && startswith p' s'
  end.

(** [sub in s] *)
Fixpoint contains (sub s : string) : bool :=
  startswith sub s ||
  match s with
  | EmptyString => false
  | String _ s' => contains sub s'
  end.

(** [any(word in s for word in words)] *)
Definition any_in (words : list string) (s : string) : bool :=
  existsb (fun w => contains w s) words.

Fixpoint has_char (sep : ascii) (s : string) : bool :=
  match s with
  | EmptyString => false
  | String c s' => Ascii.eqb c sep || has_char sep s'
  end.

(** [s.split(sep)[-1]] for a one-character ASCII separator: what follows
    the last [sep], or all of [s] when there is none. *)
Fixpoint split_last (sep : ascii) (s : string) : string :=
  match s with
  | EmptyString => EmptyString
  | String c s' =>
      if has_char sep s' then split_last sep s'
      else if Ascii.eqb c sep then s' else s
  end.

(** The characters that a Rocq literal cannot hold conveniently. *)
Definition nl : string := String "010"%char EmptyString.
Definition dq : string := String "034"%char EmptyString.

(** [sep.join(parts)] *)
Fixpoint join (sep : string) (parts : list string) : string :=
  match parts with
  | [] => EmptyString
  | [p] => p
  | p :: rest => p +:+ sep +:+ join sep rest
  end.

(** ** Python floats *)

(** [float(z)] for [0 <= z < 2^63]; image sizes and loop counters only. *)
Definition float_of_int (z : Z) : float := PrimFloat.of_uint63 (Uint63.of_Z z).

(** [int(f)]: truncation towards zero; [None] stands for the
    [OverflowError]/[ValueError] of an infinity or a NaN. *)
Definition int_of_float (f : float) : option Z :=
  match Prim2SF f with
  | S754_zero _ => Some 0
  | S754_finite s m e =>
      let mag := match e with
                 | Z0 => Zpos m
                 | Zpos p => Zpos m * 2 ^ Zpos p
                 | Zneg p => Zpos m / 2 ^ Zpos p
                 end in
      Some (if s then - mag else mag)
  | S754_infinity _ => None
  | S754_nan => None
  end.

(** [int(f)] where the program applies it: to products and quotients of
    image sizes and loop counters, which are finite. *)
Definition int (f : float) : Z :=
  match int_of_float f with
  | Some z => z
  | None => 0
  end.

End Py.

(** ** Images

    Pillow images are kept symbolically: how an image was built, and from
    that its size.  [Pixels] is a raster that comes from outside the
    program (a file on disk, the output of the diffusion pipeline). *)

Module PIL.

Definition RGB : Type := Z * Z * Z.

Inductive Font :=
| TrueType (file : string) (size : Z)
| DefaultFont.

Inductive DrawOp :=
| DrawLine (x0 y0 x1 y1 : Z) (fill : RGB)
| DrawEllipse (x0 y0 x1 y1 : Z) (fill : RGB)
| DrawRectangle (x0 y0 x1 y1 : Z) (fill : RGB)
| DrawPolygon (points : list (Z * Z)) (fill : RGB)
| DrawText (x y : Z) (text : string) (font : Font) (fill : RGB).

Inductive Image :=
| Pixels (tag : string) (width height : Z)
| New (mode : string) (width height : Z) (color : RGB)
| Draw (op : DrawOp) (im : Image)
| Convert (mode : string) (im : Image)
| Resize (width height : Z) (resample : string) (im : Image)
| Paste (fg : Image) (x y : Z) (mask : Image) (bg : Image)
| Enhance (what : string) (factor : float) (im : Image).

(** [im.size] *)
Fixpoint size (im : Image) : Z * Z :=
  match im with
  | Pixels _ w h => (w, h)
  | New _ w h _ => (w, h)
  | Draw _ im' => size im'
  | Convert _ im' => size im'
  | Resize w h _ _ => (w, h)
  | Paste _ _ _ _ bg => size bg
  | Enhance _ _ im' => size im'
  end.

(** What a file or a [bytes] value holds: [PngOf im] is the PNG encoding
    of [im] ([im.save(buffer, format='PNG')] followed by
    [buffer.getvalue()]); anything else is [Raw]. *)
Inductive Blob :=
| PngOf (im : Image)
| Raw (data : string).

End PIL.

(** ** The record type of [models.py] *)

Module Models.

(** An upload as Django hands it to the view. *)
Record UploadedFile := {
  uf_name : string;
  uf_size : Z;
  uf_data : string
}.

(** The value of a [FileField]: nothing, an upload that [Model.save] has
    still to write to storage, or the name of a stored file. *)
Inductive FileValue :=
| NoFile
| Uploaded (f : UploadedFile)
| Stored (name : string).

(** [StoryGeneration]; an [ImageField] is the stored name, [None] when
    empty.  The time stamps [created_at] and [updated_at] are left out. *)
Record StoryGeneration := {
  id : string;
  user : option string;
  prompt : string;
  audio_file : FileValue;
  transcribed_text : string;
  input_method : string;
  story_text : string;
  character_description : string;
  background_description : string;
  character_image : option string;
  background_image : option string;
  composed_image : option string;
  story_word_count : Z;
  ai_model_used : string;
  image_model_used : string;
  generation_time : option float;
  status : string;
  error_message : string;
  is_favorite : bool;
  shared_count : Z
}.

(** Attribute assignment [story.f = v], one function per assigned field. *)
Definition set_audio_file (v : FileValue) (r : StoryGeneration) : StoryGeneration :=
  {| id := id r; user := user r; prompt := prompt r; audio_file := v;
     transcribed_text := transcribed_text r; input_method := input_method r;
     story_text := story_text r;
     character_description := character_description r;
     background_description := background_description r;
     character_image := character_image r;
     background_image := background_image r;
     composed_image := composed_image r;
     story_word_count := story_word_count r;
     ai_model_used := ai_model_used r;
     image_model_used := image_model_used r;
     generation_time := generation_time r; status := status r;
     error_message := error_message r; is_favorite := is_favorite r;
     shared_count := shared_count r |}.

Definition set_transcribed_text (v : string) (r : StoryGeneration) : StoryGeneration :=
  {| id := id r; user := user r; prompt := prompt r;
     audio_file := audio_file r; transcribed_text := v;
     input_method := input_method r; story_text := story_text r;
     character_description := character_description r;
     background_description := background_description r;
     character_image := character_image r;
     background_image := background_image r;
     composed_image := composed_image r;
     story_word_count := story_word_count r;
     ai_model_used := ai_model_used r;
     image_model_used := image_model_used r;
     generation_time := generation_time r; status := status r;
     error_message := error_message r; is_favorite := is_favorite r;
     shared_count := shared_count r |}.

Definition set_story_text (v : string) (r : StoryGeneration) : StoryGeneration :=
  {| id := id r; user := user r; prompt := prompt r;
     audio_file := audio_file r; transcribed_text := transcribed_text r;
     input_method := input_method r; story_text := v;
     character_description := character_description r;
     background_description := background_description r;
     character_image := character_image r;
     background_image := background_image r;
     composed_image := composed_image r;
     story_word_count := story_word_count r;
     ai_model_used := ai_model_used r;
     image_model_used := image_model_used r;
     generation_time := generation_time r; status := status r;
     error_message := error_message r; is_favorite := is_favorite r;
     shared_count := shared_count r |}.

Definition set_character_description (v : string) (r : StoryGeneration) : StoryGeneration :=
  {| id := id r; user := user r; prompt := prompt r;
     audio_file := audio_file r; transcribed_text := transcribed_text r;
     input_method := input_method r; story_text := story_text r;
     character_description := v;
     background_description := background_description r;
     character_image := character_image r;
     background_image := background_image r;
     composed_image := composed_image r;
     story_word_count := story_word_count r;
     ai_model_used := ai_model_used r;
     image_model_used := image_model_used r;
     generation_time := generation_time r; status := status r;
     error_message := error_message r; is_favorite := is_favorite r;
     shared_count := shared_count r |}.

Definition set_background_description (v : string) (r : StoryGeneration) : StoryGeneration :=
  {| id := id r; user := user r; prompt := prompt r;
     audio_file := audio_file r; transcribed_text := transcribed_text r;
     input_method := input_method r; story_text := story_text r;
     character_description := character_description r;
     background_description := v; character_image := character_image r;
     background_image := background_image r;
     composed_image := composed_image r;
     story_word_count := story_word_count r;
     ai_model_used := ai_model_used r;
     image_model_used := image_model_used r;
     generation_time := generation_time r; status := status r;
     error_message := error_message r; is_favorite := is_favorite r;
     shared_count := shared_count r |}.

Definition set_character_image (v : option string) (r : StoryGeneration) : StoryGeneration :=
  {| id := id r; user := user r; prompt := prompt r;
     audio_file := audio_file r; transcribed_text := transcribed_text r;
     input_method := input_method r; story_text := story_text r;
     character_description := character_description r;
     background_description := background_description r;
     character_image := v; background_image := background_image r;
     composed_image := composed_image r;
     story_word_count := story_word_count r;
     ai_model_used := ai_model_used r;
     image_model_used := image_model_used r;
     generation_time := generation_time r; status := status r;
     error_message := error_message r; is_favorite := is_favorite r;
     shared_count := shared_count r |}.

Definition set_background_image (v : option string) (r : StoryGeneration) : StoryGeneration :=
  {| id := id r; user := user r; prompt := prompt r;
     audio_file := audio_file r; transcribed_text := transcribed_text r;
     input_method := input_method r; story_text := story_text r;
     character_description := character_description r;
     background_description := background_description r;
     character_image := character_image r; background_image := v;
     composed_image := composed_image r;
     story_word_count := story_word_count r;
     ai_model_used := ai_model_used r;
     image_model_used := image_model_used r;
     generation_time := generation_time r; status := status r;
     error_message := error_message r; is_favorite := is_favorite r;
     shared_count := shared_count r |}.

Definition set_composed_image (v : option string) (r : StoryGeneration) : StoryGeneration :=
  {| id := id r; user := user r; prompt := prompt r;
     audio_file := audio_file r; transcribed_text := transcribed_text r;
     input_method := input_method r; story_text := story_text r;
     character_description := character_description r;
     background_description := background_description r;
     character_image := character_image r;
     background_image := background_image r; composed_image := v;
     story_word_count := story_word_count r;
     ai_model_used := ai_model_used r;
     image_model_used := image_model_used r;
     generation_time := generation_time r; status := status r;
     error_message := error_message r; is_favorite := is_favorite r;
     shared_count := shared_count r |}.

Definition set_story_word_count (v : Z) (r : StoryGeneration) : StoryGeneration :=
  {| id := id r; user := user r; prompt := prompt r;
     audio_file := audio_file r; transcribed_text := transcribed_text r;
     input_method := input_method r; story_text := story_text r;
     character_description := character_description r;
     background_description := background_description r;
     character_image := character_image r;
     background_image := background_image r;
     composed_image := composed_image r; story_word_count := v;
     ai_model_used := ai_model_used r;
     image_model_used := image_model_used r;
     generation_time := generation_time r; status := status r;
     error_message := error_message r; is_favorite := is_favorite r;
     shared_count := shared_count r |}.

Definition set_ai_model_used (v : string) (r : StoryGeneration) : StoryGeneration :=
  {| id := id r; user := user r; prompt := prompt r;
     audio_file := audio_file r; transcribed_text := transcribed_text r;
     input_method := input_method r; story_text := story_text r;
     character_description := character_description r;
     background_description := background_description r;
     character_image := character_image r;
     background_image := background_image r;
     composed_image := composed_image r;
     story_word_count := story_word_count r; ai_model_used := v;
     image_model_used := image_model_used r;
     generation_time := generation_time r; status := status r;
     error_message := error_message r; is_favorite := is_favorite r;
     shared_count := shared_count r |}.

Definition set_image_model_used (v : string) (r : StoryGeneration) : StoryGeneration :=
  {| id := id r; user := user r; prompt := prompt r;
     audio_file := audio_file r; transcribed_text := transcribed_text r;
     input_method := input_method r; story_text := story_text r;
     character_description := character_description r;
     background_description := background_description r;
     character_image := character_image r;
     background_image := background_image r;
     composed_image := composed_image r;
     story_word_count := story_word_count r;
     ai_model_used := ai_model_used r; image_model_used := v;
     generation_time := generation_time r; status := status r;
     error_message := error_message r; is_favorite := is_favorite r;
     shared_count := shared_count r |}.

Definition set_generation_time (v : option float) (r : StoryGeneration) : StoryGeneration :=
  {| id := id r; user := user r; prompt := prompt r;
     audio_file := audio_file r; transcribed_text := transcribed_text r;
     input_method := input_method r; story_text := story_text r;
     character_description := character_description r;
     background_description := background_description r;
     character_image := character_image r;
     background_image := background_image r;
     composed_image := composed_image r;
     story_word_count := story_word_count r;
     ai_model_used := ai_model_used r;
     image_model_used := image_model_used r; generation_time := v;
     status := status r; error_message := error_message r;
     is_favorite := is_favorite r; shared_count := shared_count r |}.

Definition set_status (v : string) (r : StoryGeneration) : StoryGeneration :=
  {| id := id r; user := user r; prompt := prompt r;
     audio_file := audio_file r; transcribed_text := transcribed_text r;
     input_method := input_method r; story_text := story_text r;
     character_description := character_description r;
     background_description := background_description r;
     character_image := character_image r;
     background_image := background_image r;
     composed_image := composed_image r;
     story_word_count := story_word_count r;
     ai_model_used := ai_model_used r;
     image_model_used := image_model_used r;
     generation_time := generation_time r; status := v;
     error_message := error_message r; is_favorite := is_favorite r;
     shared_count := shared_count r |}.

Definition set_error_message (v : string) (r : StoryGeneration) : StoryGeneration :=
  {| id := id r; user := user r; prompt := prompt r;
     audio_file := audio_file r; transcribed_text := transcribed_text r;
     input_method := input_method r; story_text := story_text r;
     character_description := character_description r;
     background_description := background_description r;
     character_image := character_image r;
     background_image := background_image r;
     composed_image := composed_image r;
     story_word_count := story_word_count r;
     ai_model_used := ai_model_used r;
     image_model_used := image_model_used r;
     generation_time := generation_time r; status := status r;
     error_message := v; is_favorite := is_favorite r;
     shared_count := shared_count r |}.

(** [os.path.join] on a POSIX system, for relative parts. *)
Definition path_join (parts : list string) : string := Py.join "/" parts.

(** [story_image_path(instance, filename)], with the value [u] of
    [uuid.uuid4()]: only the extension of [filename] survives. *)
Definition story_image_path (instance : StoryGeneration) (u : string)
    (filename : string) : string :=
  let ext := Py.split_last "."%char filename in
  let filename := u +:+ "." +:+ ext in
  path_join ["generated"; "stories"; id instance; filename].

(** [audio_upload_path(instance, filename)] *)
Definition audio_upload_path (instance : StoryGeneration) (u : string)
    (filename : string) : string :=
  let ext := Py.split_last "."%char filename in
  let filename := "audio_" +:+ u +:+ "." +:+ ext in
  path_join ["audio"; "uploads"; filename].

(** [StoryGeneration.get_input_text] *)
Definition get_input_text (self : StoryGeneration) : string :=
  if String.eqb (input_method self) "audio" then transcribed_text self
  else if String.eqb (input_method self) "both"
  then Py.strip (prompt self +:+ " " +:+ transcribed_text self)
  else prompt self.

(** The first two lines of [StoryGeneration.save]: the word count is
    refreshed only when [story_text] is not empty. *)
Definition update_word_count (self : StoryGeneration) : StoryGeneration :=
  if Py.truthy (story_text self)
  then set_story_word_count (Py.word_count (story_text self)) self
  else self.

(** [bool(field_file)] is [bool(field_file.name)]. *)
Definition field_truthy (f : option string) : bool :=
  match f with
  | Some name => Py.truthy name
  | None => false
  end.

(** [bool(request.FILES.get(...))]: [File.__bool__] looks at the name. *)
Definition upload_truthy (f : option UploadedFile) : bool :=
  match f with
  | Some u => Py.truthy (uf_name u)
  | None => false
  end.

End Models.

(** ** The world outside the program *)

(** The JSON body of a chat request ([payload] in [_call_ollama]). *)
Record ChatPayload := {
  model : string;
  system_content : string;
  user_content : string;
  stream : bool;
  temperature : float
}.

(** The keyword arguments of one call of the diffusion pipeline. *)
Record DiffusionCall := {
  dc_prompt : string;
  dc_negative_prompt : string;
  dc_num_inference_steps : Z;
  dc_guidance_scale : float;
  dc_width : Z;
  dc_height : Z;
  dc_seed : Z
}.

(** What the program did to the outside world, oldest first. *)
Inductive Event :=
| EvHttpGet (url : string)
| EvHttpPost (url : string) (payload : ChatPayload)
| EvLoadModel (model_id : string)
| EvDiffusion (call : DiffusionCall)
| EvTranscribe (engine : string) (file_name : string)
| EvUuid (value : string)
| EvMessage (level : string) (text : string).

(** An answer to [requests.post(.../api/chat)].  [HttpError] is an
    exception of [requests] (refused connection, timeout).  In a response,
    [content] is [Some c] when [response.json()] is an object in which
    [.get('message', {}).get('content', '')] is the string [c], and [None]
    when decoding or one of the look-ups raises. *)
Inductive HttpOutcome :=
| HttpError (e : string)
| HttpResponse (status_code : Z) (content : option string).

(** An answer to [requests.get(.../api/tags)]: [names] are the values of
    [model['name']] over [response.json().get('models', [])], [None] when
    that raises. *)
Inductive TagsOutcome :=
| TagsError (e : string)
| TagsResponse (status_code : Z) (names : option (list string)).

(** What loading the diffusion model does: [from_pretrained] raises, or
    the pipeline is stored and configuring its scheduler raises, or all of
    it succeeds. *)
Inductive LoadOutcome :=
| LoadFails
| ConfigFails
| LoadOk.

(** The places of the generation pipeline where framework code runs
    outside any handler of the generators. *)
Inductive GenStep :=
| StepImport
| StepSaveCharacter
| StepSaveBackground
| StepSaveComposed
| StepCleanup.

(** The answers of the outside world.  The ones that can change from call
    to call take the events so far. *)
Record Env := {
  table_exists : bool;
  MEDIA_ROOT : string;
  check_audio_support : bool;
  whisper_transcribe : Models.UploadedFile -> option string;
  google_transcribe : Models.UploadedFile -> string + string;
  http_get_tags : list Event -> TagsOutcome;
  http_post : list Event -> ChatPayload -> HttpOutcome;
  GPU_AVAILABLE : bool;
  from_pretrained : list Event -> LoadOutcome;
  diffuse : list Event -> DiffusionCall -> option PIL.Image;
  arial_ttf : bool;
  textbbox : string -> option (Z * Z * Z * Z);
  uuid4 : list Event -> string;
  time_at_start : float;
  time_at_end : float;
  gen_fault : GenStep -> option string
}.

(** The database rows by primary key, the files of the media storage by
    name, and the events so far. *)
Record World := {
  db : gmap string Models.StoryGeneration;
  files : gmap string PIL.Blob;
  trace : list Event
}.

(** The state of one request: the [story] object and the world. *)
Record St := {
  story : Models.StoryGeneration;
  world : World
}.

(** ** Statements *)

Inductive Outcome (A : Type) :=
| Return (a : A)
| Raise (e : string).

Arguments Return {A} a.
Arguments Raise {A} e.

Definition M (A : Type) : Type := St -> Outcome A * St.

Definition ret {A} (a : A) : M A := fun st => (Return a, st).

Definition raise {A} (e : string) : M A := fun st => (Raise e, st).

Definition bind {A B} (m : M A) (k : A -> M B) : M B :=
  fun st =>
    match m st with
    | (Return a, st') => k a st'
    | (Raise e, st') => (Raise e, st')
    end.

(** [try: m  except Exception as e: h e] *)
Definition try_except {A} (m : M A) (h : string -> M A) : M A :=
  fun st =>
    match m st with
    | (Return a, st') => (Return a, st')
    | (Raise e, st') => h e st'
    end.

Notation "x <- m ; k" := (bind m (fun x => k))
  (at level 20, m at level 100, k at level 200, only parsing).
Notation "m ;;; k" := (bind m (fun _ => k))
  (at level 100, k at level 200, only parsing, right associativity).

Definition get_story : M Models.StoryGeneration :=
  fun st => (Return (story st), st).

Definition get_world : M World :=
  fun st => (Return (world st), st).

(** [story.f = v] through one of the [set_f v] *)
Definition assign (f : Models.StoryGeneration -> Models.StoryGeneration) : M unit :=
  fun st => (Return tt, {| story := f (story st); world := world st |}).

Definition log_event (w : World) (ev : Event) : World :=
  {| db := db w; files := files w; trace := trace w ++ [ev] |}.

Definition emit (ev : Event) : M unit :=
  fun st => (Return tt, {| story := story st; world := log_event (world st) ev |}).

Definition write_file (name : string) (content : PIL.Blob) : M unit :=
  fun st =>
    let w := world st in
    (Return tt,
     {| story := story st;
        world := {| db := db w; files := <[name := content]> (files w);
                    trace := trace w |} |}).

(** [messages.error(request, text)], [messages.success(request, text)] *)
Definition message (level text : string) : M unit := emit (EvMessage level text).

(** [uuid.uuid4()] as a string *)
Definition new_uuid (env : Env) : M string :=
  w <- get_world ;
  let u := uuid4 env (trace w) in
  emit (EvUuid u) ;;; ret u.

(** ** [ollama_story_generator.py] *)

Module Ollama.

Record OllamaStoryGenerator := {
  ollama_host : string;
  story_model : string;
  available : bool
}.

Definition DEFAULT_HOST : string := "http://localhost:11434".
Definition DEFAULT_MODEL : string := "llama3.1:8b".

(** [_get_word_target] *)
Definition _get_word_target (length : string) : string :=
  if String.eqb length "short" then "300-500"
  else if String.eqb length "medium" then "500-1000"
  else if String.eqb length "long" then "1000-1500"
  else "500-1000".

(** The three pieces of the template of [_generate_fallback_story],
    around the two places where [prompt.lower()] is inserted. *)
Definition fallback_head : string :=
  "In a world of endless possibilities, the adventure began with ".

Definition fallback_middle : string :=
  ". What started as an ordinary moment quickly transformed into something extraordinary that would change everything."
  +:+ Py.nl +:+ Py.nl +:+
  "Our protagonist discovered that reality was far more complex and wonderful than they had ever imagined. Each step forward revealed new mysteries, each challenge overcome led to greater revelations, and each friend made along the way added depth to a journey of self-discovery."
  +:+ Py.nl +:+ Py.nl +:+
  "The path was neither straight nor easy. Obstacles that seemed insurmountable became stepping stones to growth. Enemies revealed unexpected depths. Allies emerged from unlikely places, and wisdom came from sources both ancient and new."
  +:+ Py.nl +:+ Py.nl +:+
  "As the journey progressed, our hero learned that true strength comes not from individual prowess, but from connections forged with others. The greatest magic was not in supernatural powers, but in the human ability to hope, persevere, and find light in darkness."
  +:+ Py.nl +:+ Py.nl +:+
  "The resolution was both surprising and inevitable. What began with ".

Definition fallback_tail : string :=
  " became a transformation not just of circumstances, but of character. The adventure's end marked a beginning—the start of a life lived with purpose and courage."
  +:+ Py.nl +:+ Py.nl +:+
  "And so our story concludes, but the ripples would continue to spread, inspiring others to find their own courage and embark on their own journeys of discovery.".

(** [_generate_fallback_story] *)
Definition _generate_fallback_story (prompt : string) : string :=
  fallback_head +:+ Py.lower prompt +:+ fallback_middle +:+ Py.lower prompt
  +:+ fallback_tail.

Definition knight_description : string :=
  "A determined knight in polished steel armor with a noble bearing, strong jawline, and piercing blue eyes. Wears a deep red cloak and carries an ornate sword.".
Definition wizard_description : string :=
  "An ancient wizard with flowing silver robes, long white beard, deep violet eyes, and a tall staff crowned with a glowing crystal orb.".
Definition explorer_description : string :=
  "A confident space explorer in a sleek uniform with integrated technology, sharp features, and advanced equipment.".
Definition adventurer_description : string :=
  "A brave adventurer with an athletic build, practical traveling clothes, and the confident bearing of someone ready for any challenge.".

(** [_fallback_character_description] *)
Definition _fallback_character_description (story : string) : string :=
  let story_lower := Py.lower story in
  if Py.contains "knight" story_lower || Py.contains "sword" story_lower
  then knight_description
  else if Py.contains "wizard" story_lower || Py.contains "magic" story_lower
  then wizard_description
  else if Py.contains "space" story_lower || Py.contains "star" story_lower
  then explorer_description
  else adventurer_description.

Definition forest_scene : string :=
  "An ancient enchanted forest with towering oak trees, golden sunlight streaming through emerald canopy, and crystal streams.".
Definition castle_scene : string :=
  "A majestic medieval castle perched on a cliff, with grey stone towers, colorful banners, and warm light from arched windows.".
Definition space_scene : string :=
  "The infinite vastness of space with countless stars, spectacular nebulae in brilliant colors, and distant spiral galaxies.".
Definition landscape_scene : string :=
  "A breathtaking landscape under a dramatic sunset sky with rolling hills, ancient ruins, and a winding path toward adventure.".

(** [_fallback_scene_description] *)
Definition _fallback_scene_description (story : string) : string :=
  let story_lower := Py.lower story in
  if Py.contains "forest" story_lower || Py.contains "tree" story_lower
  then forest_scene
  else if Py.contains "castle" story_lower || Py.contains "tower" story_lower
  then castle_scene
  else if Py.contains "space" story_lower || Py.contains "star" story_lower
  then space_scene
  else landscape_scene.

Definition story_system_prompt (length : string) : string :=
  "You are a master storyteller. Create an original, engaging story that:"
  +:+ Py.nl +:+ "- Is completely unique and different from typical stories"
  +:+ Py.nl +:+ "- Has unexpected plot twists and creative elements"
  +:+ Py.nl +:+ "- Includes rich character development and dialogue"
  +:+ Py.nl +:+ "- Is approximately " +:+ _get_word_target length +:+ " words"
  +:+ Py.nl +:+ "Be creative and avoid clichés.".

Definition story_full_prompt (user_prompt : string) : string :=
  "Based on this idea: " +:+ Py.dq +:+ user_prompt +:+ Py.dq +:+ Py.nl +:+ Py.nl
  +:+ "Create an original story that is memorable and distinctive.".

Definition character_system_prompt : string :=
  "Create a detailed visual description of the main character for AI image generation. Include physical appearance, clothing, and mood.".

Definition character_user_prompt (story : string) : string :=
  "Story: " +:+ Py.take 1000 story +:+ "..." +:+ Py.nl +:+ Py.nl
  +:+ "Describe the main character visually in under 100 words.".

Definition scene_system_prompt : string :=
  "Create a detailed scene description for AI image generation. Focus on environment, lighting, and atmosphere.".

Definition scene_user_prompt (story : string) : string :=
  "Story: " +:+ Py.take 1000 story +:+ "..." +:+ Py.nl +:+ Py.nl
  +:+ "Describe the main setting visually in under 100 words.".

Section WithEnv.

Variable env : Env.

(** [requests.get(url, timeout=5)] followed by the reading of the model
    names; raises what [requests] or the decoding raises. *)
Definition requests_get_tags (url : string) : M (Z * option (list string)) :=
  w <- get_world ;
  emit (EvHttpGet url) ;;;
  match http_get_tags env (trace w) with
  | TagsResponse status_code names => ret (status_code, names)
  | TagsError e => raise e
  end.

(** Reading a decoded part of a response: raises when decoding did. *)
Definition decoded {A} (what : string) (x : option A) : M A :=
  match x with
  | Some a => ret a
  | None => raise what
  end.

(** [_check_ollama_availability] *)
Definition _check_ollama_availability (host model_name : string) : M bool :=
  try_except
    (response <- requests_get_tags (host +:+ "/api/tags") ;
     if fst response =? 200
     then
       model_names <- decoded "invalid tags response" (snd response) ;
       ret (existsb (fun name => Py.contains model_name name) model_names)
     else ret false)
    (fun _ => ret false).

(** [OllamaStoryGenerator()] *)
Definition __init__ : M OllamaStoryGenerator :=
  a <- _check_ollama_availability DEFAULT_HOST DEFAULT_MODEL ;
  ret {| ollama_host := DEFAULT_HOST; story_model := DEFAULT_MODEL;
         available := a |}.

(** [requests.post(url, json=payload, timeout=60)] *)
Definition requests_post (url : string) (payload : ChatPayload)
    : M (Z * option string) :=
  w <- get_world ;
  emit (EvHttpPost url payload) ;;;
  match http_post env (trace w) payload with
  | HttpResponse status_code content => ret (status_code, content)
  | HttpError e => raise e
  end.

(** [_call_ollama] *)
Definition _call_ollama (self : OllamaStoryGenerator)
    (system_prompt user_prompt : string) : M string :=
  try_except
    (let payload := {| model := story_model self;
                       system_content := system_prompt;
                       user_content := user_prompt;
                       stream := false;
                       temperature := 0.8%float |} in
     response <- requests_post (ollama_host self +:+ "/api/chat") payload ;
     if fst response =? 200
     then
       content <- decoded "invalid chat response" (snd response) ;
       ret (Py.strip content)
     else ret EmptyString)
    (fun _ => ret EmptyString).

(** [generate_story] *)
Definition generate_story (self : OllamaStoryGenerator)
    (user_prompt length : string) : M string :=
  if negb (available self) then ret (_generate_fallback_story user_prompt)
  else
    try_except
      (let system_prompt := story_system_prompt length in
       let full_prompt := story_full_prompt user_prompt in
       story <- _call_ollama self system_prompt full_prompt ;
       if Py.truthy story && (100 <? Py.word_count story)
       then ret story
       else ret (_generate_fallback_story user_prompt))
      (fun _ => ret (_generate_fallback_story user_prompt)).

(** [generate_character_description] *)
Definition generate_character_description (self : OllamaStoryGenerator)
    (story : string) : M string :=
  if negb (available self) then ret (_fallback_character_description story)
  else
    try_except
      (description <- _call_ollama self character_system_prompt
                        (character_user_prompt story) ;
       ret (if Py.truthy description then description
            else _fallback_character_description story))
      (fun _ => ret (_fallback_character_description story)).

(** [generate_scene_description] *)
Definition generate_scene_description (self : OllamaStoryGenerator)
    (story : string) : M string :=
  if negb (available self) then ret (_fallback_scene_description story)
  else
    try_except
      (description <- _call_ollama self scene_system_prompt
                        (scene_user_prompt story) ;
       ret (if Py.truthy description then description
            else _fallback_scene_description story))
      (fun _ => ret (_fallback_scene_description story)).

End WithEnv.

End Ollama.

(** ** [gpu_image_generator.py] *)

Module Gpu.

Import PIL.

(** The object: [pipeline] tells whether [self.pipeline] is set. *)
Record GPUImageGenerator := {
  device : string;
  pipeline : bool;
  available : bool
}.

Definition set_pipeline (v : bool) (self : GPUImageGenerator) : GPUImageGenerator :=
  {| device := device self; pipeline := v; available := available self |}.

(** [_identify_character_type] *)
Definition _identify_character_type (description : string) : string :=
  let desc_lower := Py.lower description in
  if Py.any_in ["knight"; "armor"; "sword"; "medieval"] desc_lower then "knight"
  else if Py.any_in ["wizard"; "mage"; "magic"; "staff"; "robes"] desc_lower then "wizard"
  else if Py.any_in ["space"; "sci-fi"; "futuristic"; "cyberpunk"] desc_lower then "space"
  else if Py.any_in ["detective"; "noir"; "investigator"] desc_lower then "detective"
  else "adventurer".

(** [_identify_setting_type] *)
Definition _identify_setting_type (description : string) : string :=
  let desc_lower := Py.lower description in
  if Py.any_in ["forest"; "tree"; "woods"; "jungle"] desc_lower then "forest"
  else if Py.any_in ["castle"; "fortress"; "tower"; "medieval"] desc_lower then "castle"
  else if Py.any_in ["space"; "cosmic"; "galaxy"; "nebula"] desc_lower then "space"
  else if Py.any_in ["city"; "urban"; "building"; "street"] desc_lower then "city"
  else "mountain".

(** [d.get(key, default)] on a dictionary written as a list of items. *)
Fixpoint dict_get (d : list (string * string)) (key default : string) : string :=
  match d with
  | [] => default
  | (k, v) :: d' => if String.eqb k key then v else dict_get d' key default
  end.

Definition character_base_prompts : list (string * string) :=
  [("knight", "medieval knight in detailed armor, heroic pose, cinematic lighting, fantasy art, highly detailed, 8k resolution, masterpiece");
   ("wizard", "powerful wizard with magical robes, mystical staff, arcane symbols, fantasy art, dramatic lighting, highly detailed, 8k");
   ("space", "futuristic space explorer, sci-fi uniform, advanced technology, cyberpunk style, detailed, high quality, 8k resolution");
   ("detective", "noir detective, 1940s style, dramatic shadows, film noir lighting, highly detailed portrait, cinematic quality");
   ("adventurer", "rugged adventurer, practical gear, outdoor setting, action pose, realistic style, highly detailed, 8k resolution")].

Definition character_style_modifiers : list (string * string) :=
  [("realistic", "photorealistic, professional photography, studio lighting, sharp focus, detailed textures");
   ("artistic", "digital art, concept art, trending on artstation, painted style, artistic lighting");
   ("fantasy", "fantasy art, magical atmosphere, ethereal lighting, mystical style, enchanted")].

(** [_create_enhanced_character_prompt] *)
Definition _create_enhanced_character_prompt (description style : string) : string :=
  let character_type := _identify_character_type description in
  let base_prompt :=
    dict_get character_base_prompts character_type
      (dict_get character_base_prompts "adventurer" EmptyString) in
  let style_mod :=
    dict_get character_style_modifiers style
      (dict_get character_style_modifiers "realistic" EmptyString) in
  base_prompt +:+ ", " +:+ description +:+ ", " +:+ style_mod.

Definition background_base_prompts : list (string * string) :=
  [("forest", "ancient mystical forest, towering trees, dappled sunlight, moss-covered ground, magical atmosphere, highly detailed landscape, 8k");
   ("castle", "majestic medieval castle, stone towers, dramatic sky, epic landscape, fortress on hill, cinematic composition, 8k resolution");
   ("space", "cosmic space scene, nebula, stars, galaxies, deep space, astronomical photography, highly detailed, 8k resolution");
   ("city", "futuristic cityscape, skyscrapers, neon lights, cyberpunk atmosphere, urban landscape, detailed architecture, 8k");
   ("mountain", "epic mountain landscape, dramatic peaks, golden hour lighting, majestic scenery, nature photography, 8k resolution")].

Definition background_style_modifiers : list (string * string) :=
  [("realistic", "landscape photography, natural lighting, photorealistic, high detail, sharp focus");
   ("artistic", "digital matte painting, concept art, artistic interpretation, painted style");
   ("fantasy", "fantasy landscape, magical lighting, ethereal atmosphere, mystical environment")].

(** [_create_enhanced_background_prompt] *)
Definition _create_enhanced_background_prompt (description style : string) : string :=
  let setting_type := _identify_setting_type description in
  let base_prompt :=
    dict_get background_base_prompts setting_type
      (dict_get background_base_prompts "mountain" EmptyString) in
  let style_mod :=
    dict_get background_style_modifiers style
      (dict_get background_style_modifiers "realistic" EmptyString) in
  base_prompt +:+ ", " +:+ description +:+ ", " +:+ style_mod.

(** [_get_detailed_negative_prompt] *)
Definition _get_detailed_negative_prompt (image_type : string) : string :=
  let base_negative := "blurry, low quality, pixelated, distorted, ugly, deformed, bad anatomy, extra limbs, missing limbs, bad proportions, watermark, signature, text, username, logo, copyright, low resolution, jpeg artifacts, noise, grain" in
  if String.eqb image_type "character"
  then base_negative +:+ ", multiple people, crowd, background objects, vehicles, buildings, landscape"
  else base_negative +:+ ", people, person, human, character, face, portrait, animals".

(** [_enhance_image] *)
Definition _enhance_image (image : Image) : Image :=
  let image := Enhance "Sharpness" 1.2%float image in
  let image := Enhance "Contrast" 1.1%float image in
  let image := Enhance "Color" 1.05%float image in
  image.

(** [for y in range(lo, hi): draw.line([(0, y), (width, y)], fill=color(y))] *)
Definition gradient (lo count : nat) (width : Z) (color : Z -> RGB) (img : Image) : Image :=
  fold_left
    (fun im y => Draw (DrawLine 0 (Z.of_nat y) width (Z.of_nat y) (color (Z.of_nat y))) im)
    (seq lo count) img.

Definition character_gradient_color (y : Z) : RGB :=
  let r := Py.int (70 + (Py.float_of_int y / 512) * 100)%float in
  let g := Py.int (90 + (Py.float_of_int y / 512) * 120)%float in
  let b := Py.int (140 + (Py.float_of_int y / 512) * 100)%float in
  (r, g, b).

Definition sky_gradient_color (y : Z) : RGB :=
  let r := Py.int (135 + (Py.float_of_int y / 256) * 100)%float in
  let g := Py.int (206 + (Py.float_of_int y / 256) * 40)%float in
  let b := Py.int (235 - (Py.float_of_int y / 256) * 100)%float in
  (r, g, b).

Definition ground_gradient_color (y : Z) : RGB :=
  let progress := (Py.float_of_int (y - 256) / 256)%float in
  let r := Py.int (60 + progress * 80)%float in
  let g := Py.int (120 + progress * 60)%float in
  let b := Py.int (40 + progress * 20)%float in
  (r, g, b).

Section WithEnv.

Variable env : Env.

(** [GPUImageGenerator()] *)
Definition __init__ : GPUImageGenerator :=
  {| device := if GPU_AVAILABLE env then "cuda" else "cpu";
     pipeline := false;
     available := GPU_AVAILABLE env |}.

(** [ImageFont.truetype("arial.ttf", size)], [ImageFont.load_default()]
    when that raises. *)
Definition arial_or_default (size : Z) : Font :=
  if arial_ttf env then TrueType "arial.ttf" size else DefaultFont.

(** [_create_artistic_character_placeholder]; [description] is not used. *)
Definition _create_artistic_character_placeholder (description : string) : Blob :=
  let img := New "RGB" 512 512 (0, 0, 0) in
  let img := gradient 0 512 512 character_gradient_color img in
  let center_x := 256 in
  let center_y := 300 in
  let img := Draw (DrawEllipse (center_x - 50) (center_y - 100) (center_x + 50) (center_y - 10) (40, 40, 50)) img in
  let img := Draw (DrawRectangle (center_x - 40) (center_y - 10) (center_x + 40) (center_y + 120) (50, 50, 60)) img in
  let img := Draw (DrawRectangle (center_x - 70) (center_y + 20) (center_x - 40) (center_y + 100) (45, 45, 55)) img in
  let img := Draw (DrawRectangle (center_x + 40) (center_y + 20) (center_x + 70) (center_y + 100) (45, 45, 55)) img in
  let font := arial_or_default 32 in
  let img := Draw (DrawText 100 450 "AI CHARACTER" font (255, 255, 255)) img in
  let img := Draw (DrawText 150 480 "(Loading...)" font (200, 200, 200)) img in
  PngOf img.

(** [_create_artistic_background_placeholder]; [description] is not used. *)
Definition _create_artistic_background_placeholder (description : string) : Blob :=
  let img := New "RGB" 768 512 (0, 0, 0) in
  let img := gradient 0 256 768 sky_gradient_color img in
  let img := gradient 256 256 768 ground_gradient_color img in
  let points := [(0, 200); (150, 120); (300, 180); (450, 100); (600, 160);
                 (768, 140); (768, 256); (0, 256)] in
  let img := Draw (DrawPolygon points (80, 80, 120)) img in
  let font := arial_or_default 48 in
  let img := Draw (DrawText 250 200 "AI BACKGROUND" font (255, 255, 255)) img in
  let img := Draw (DrawText 300 250 "(Loading...)" font (220, 220, 220)) img in
  PngOf img.

(** [_create_placeholder]: [Image.new] refuses a negative size, the text
    is drawn unless measuring it raises, and the PNG encoder refuses an
    image without pixels. *)
Definition _create_placeholder (text : string) (width height : Z) : M Blob :=
  (if (width <? 0) || (height <? 0)
   then raise "Width and height must be >= 0" else ret tt) ;;;
  let img := New "RGB" width height (120, 120, 120) in
  let img :=
    match textbbox env text with
    | Some (b0, b1, b2, b3) =>
        let text_width := b2 - b0 in
        let text_height := b3 - b1 in
        let x := (width - text_width) / 2 in
        let y := (height - text_height) / 2 in
        Draw (DrawText x y text DefaultFont (255, 255, 255)) img
    | None => img
    end in
  if (width =? 0) || (height =? 0)
  then raise "cannot write empty image as PNG"
  else ret (PngOf img).

(** [_load_pipeline]: the result and the object after the call. *)
Definition _load_pipeline (self : GPUImageGenerator) (style : string)
    : M (bool * GPUImageGenerator) :=
  if negb (available self) then ret (false, self)
  else if pipeline self then ret (true, self)
  else
    w <- get_world ;
    emit (EvLoadModel "stabilityai/stable-diffusion-2-1") ;;;
    match from_pretrained env (trace w) with
    | LoadFails => ret (false, self)
    | ConfigFails => ret (false, set_pipeline true self)
    | LoadOk => ret (true, set_pipeline true self)
    end.

(** [self.pipeline(prompt, ...)] and [result.images[0]] *)
Definition run_pipeline (call : DiffusionCall) : M Image :=
  w <- get_world ;
  emit (EvDiffusion call) ;;;
  match diffuse env (trace w) call with
  | Some image => ret image
  | None => raise "diffusion pipeline failed"
  end.

(** [self.available and self._load_pipeline(style)] *)
Definition ready (self : GPUImageGenerator) (style : string)
    : M (bool * GPUImageGenerator) :=
  if available self then _load_pipeline self style else ret (false, self).

(** [generate_character_image]: the bytes and the object after the call. *)
Definition generate_character_image (self : GPUImageGenerator)
    (description style : string) : M (Blob * GPUImageGenerator) :=
  r <- ready self style ;
  let self := snd r in
  if fst r
  then
    try_except
      (let enhanced_prompt := _create_enhanced_character_prompt description style in
       let negative_prompt := _get_detailed_negative_prompt "character" in
       image <- run_pipeline {| dc_prompt := enhanced_prompt;
                                dc_negative_prompt := negative_prompt;
                                dc_num_inference_steps := 25;
                                dc_guidance_scale := 8.5%float;
                                dc_width := 512;
                                dc_height := 512;
                                dc_seed := 42 |} ;
       let image := _enhance_image image in
       ret (PngOf image, self))
      (fun _ => ret (_create_artistic_character_placeholder description, self))
  else ret (_create_artistic_character_placeholder description, self).

(** [generate_background_image] *)
Definition generate_background_image (self : GPUImageGenerator)
    (description style : string) : M (Blob * GPUImageGenerator) :=
  r <- ready self style ;
  let self := snd r in
  if fst r
  then
    try_except
      (let enhanced_prompt := _create_enhanced_background_prompt description style in
       let negative_prompt := _get_detailed_negative_prompt "background" in
       image <- run_pipeline {| dc_prompt := enhanced_prompt;
                                dc_negative_prompt := negative_prompt;
                                dc_num_inference_steps := 25;
                                dc_guidance_scale := 8.0%float;
                                dc_width := 768;
                                dc_height := 512;
                                dc_seed := 123 |} ;
       let image := _enhance_image image in
       ret (PngOf image, self))
      (fun _ => ret (_create_artistic_background_placeholder description, self))
  else ret (_create_artistic_background_placeholder description, self).

(** [Image.open(path)]: the file must exist and hold an image. *)
Definition image_open (path : string) : M Image :=
  w <- get_world ;
  match files w !! path with
  | Some (PngOf im) => ret im
  | Some (Raw _) => raise "cannot identify image file"
  | None => raise "No such file or directory"
  end.

(** [a / b] on integers *)
Definition true_div (a b : Z) : M float :=
  if b =? 0 then raise "division by zero"
  else ret (Py.float_of_int a / Py.float_of_int b)%float.

(** [im.resize((width, height), Image.Resampling.LANCZOS)]: Pillow
    refuses an empty target size. *)
Definition resize (im : Image) (width height : Z) : M Image :=
  if (width <? 1) || (height <? 1) then raise "height and width must be > 0"
  else ret (Resize width height "LANCZOS" im).

(** [compose_images] *)
Definition compose_images (self : GPUImageGenerator) (char_path bg_path : string)
    : M Blob :=
  try_except
    (char_img <- image_open char_path ;
     let char_img := Convert "RGBA" char_img in
     bg_img <- image_open bg_path ;
     let bg_img := Convert "RGBA" bg_img in
     let bg_width := fst (size bg_img) in
     let bg_height := snd (size bg_img) in
     let char_scale := 0.8%float in
     let char_height := Py.int (Py.float_of_int bg_height * char_scale)%float in
     ratio <- true_div char_height (snd (size char_img)) ;
     let char_width := Py.int (Py.float_of_int (fst (size char_img)) * ratio)%float in
     char_img <- resize char_img char_width char_height ;
     let char_x := Py.int (Py.float_of_int bg_width * 0.25)%float in
     let char_y := bg_height - char_height in
     let final_img := bg_img in
     let final_img := Paste char_img char_x char_y char_img final_img in
     ret (PngOf (Convert "RGB" final_img)))
    (fun _ => _create_placeholder "COMPOSED SCENE" 768 512).

End WithEnv.

End Gpu.

(** ** [audio_processor.py]: the validator *)

Module Audio.

Import Models.

Definition MAX_FILE_SIZE : Z := 10 * 1024 * 1024.
Definition MAX_DURATION : Z := 300.

Definition supported_extensions : list string :=
  ["wav"; "mp3"; "mp4"; "m4a"; "flac"; "ogg"; "webm"].

(** [ext not in supported_extensions] is the negation of this. *)
Definition is_supported (ext : string) : bool :=
  existsb (String.eqb ext) supported_extensions.

(** [AudioValidator.validate_audio_file] *)
Definition validate_audio_file (audio_file : UploadedFile) : bool * string :=
  if MAX_FILE_SIZE <? uf_size audio_file
  then (false, "File too large. Maximum size is "
               +:+ pretty (MAX_FILE_SIZE / (1024 * 1024)) +:+ "MB")
  else if Py.truthy (uf_name audio_file)
          && negb (is_supported
                     (Py.split_last "."%char (Py.lower (uf_name audio_file))))
  then (false, "Unsupported file format. Supported: "
               +:+ Py.join ", " supported_extensions)
  else (true, "Valid audio file").

End Audio.

(** ** [views.py]: the request handler *)

Module Views.

Import Models.

(** What [post] reads from the request: missing form fields are [None],
    [user] is [request.user] when it is authenticated. *)
Record Request := {
  POST_prompt : option string;
  FILES_audio_file : option UploadedFile;
  POST_story_length : option string;
  POST_image_style : option string;
  authenticated_user : option string
}.

Inductive HttpResponse :=
| RedirectIndex
| RedirectResult (story_id : string).

(** What a call of [post] leaves: the response, the [story] object if one
    was created, and the world. *)
Record PostResult := {
  response : HttpResponse;
  created : option StoryGeneration;
  world_after : World
}.

(** [request.POST.get(key, default)] *)
Definition form_get (field : option string) (default : string) : string :=
  match field with
  | Some v => v
  | None => default
  end.

(** The conditional expression that [post] passes as [input_method]. *)
Definition choose_input_method (prompt : string) (audio_file : option UploadedFile)
    : string :=
  if Py.truthy prompt && negb (upload_truthy audio_file) then "text"
  else if upload_truthy audio_file && negb (Py.truthy prompt) then "audio"
  else "both".

Section WithEnv.

Variable env : Env.

(** [settings.MEDIA_ROOT / name]: where the storage keeps the file. *)
Definition media_path (name : string) : string :=
  MEDIA_ROOT env +:+ "/" +:+ name.

(** The part of [Model.save] that writes a pending upload of [audio_file]
    to the storage, under the name given by [audio_upload_path]. *)
Definition commit_audio_file : M unit :=
  s <- get_story ;
  match audio_file s with
  | Uploaded f =>
      u <- new_uuid env ;
      let name := audio_upload_path s u (uf_name f) in
      write_file (media_path name) (PIL.Raw (uf_data f)) ;;;
      assign (set_audio_file (Stored name))
  | Stored _ => ret tt
  | NoFile => ret tt
  end.

(** [super().save()]: the row of the object is written. *)
Definition write_row : M unit :=
  fun st =>
    let w := world st in
    (Return tt,
     {| story := story st;
        world := {| db := <[id (story st) := story st]> (db w);
                    files := files w; trace := trace w |} |}).

(** [StoryGeneration.save] *)
Definition save : M unit :=
  assign update_word_count ;;;
  commit_audio_file ;;;
  write_row.

(** [StoryGeneration.objects.create(user=..., prompt=..., input_method=...,
    status='pending')]: a new object with the defaults of the model, its
    key drawn by [uuid4], saved at once. *)
Definition create (user : option string) (prompt input_method status : string)
    (w : World) : St :=
  let u := uuid4 env (trace w) in
  let story :=
    {| id := u; user := user; prompt := prompt; audio_file := NoFile;
       transcribed_text := EmptyString; input_method := input_method;
       story_text := EmptyString; character_description := EmptyString;
       background_description := EmptyString; character_image := None;
       background_image := None; composed_image := None;
       story_word_count := 0; ai_model_used := EmptyString;
       image_model_used := EmptyString; generation_time := None;
       status := status; error_message := EmptyString;
       is_favorite := false; shared_count := 0 |} in
  snd (save {| story := story; world := log_event w (EvUuid u) |}).

(** [_safe_transcribe_audio]: Whisper first, Google's recogniser when
    Whisper raises. *)
Definition _safe_transcribe_audio (audio_file : UploadedFile) : M string :=
  emit (EvTranscribe "whisper" (uf_name audio_file)) ;;;
  match whisper_transcribe env audio_file with
  | Some text => ret text
  | None =>
      emit (EvTranscribe "google" (uf_name audio_file)) ;;;
      match google_transcribe env audio_file with
      | inl text => ret text
      | inr e => raise e
      end
  end.

(** [_handle_audio_input] *)
Definition _handle_audio_input (audio_file : UploadedFile) : M bool :=
  try_except
    (if 10 * 1024 * 1024 <? uf_size audio_file
     then
       assign (set_status "error") ;;;
       assign (set_error_message "Audio file too large (max 10MB)") ;;;
       save ;;;
       message "error" "Audio file too large" ;;;
       ret false
     else
       assign (set_audio_file (Uploaded audio_file)) ;;;
       assign (set_status "transcribing") ;;;
       save ;;;
       (if negb (check_audio_support env)
        then raise "Audio processing not available" else ret tt) ;;;
       transcribed_text <- _safe_transcribe_audio audio_file ;
       assign (set_transcribed_text transcribed_text) ;;;
       save ;;;
       message "success" "✅ Audio transcribed!" ;;;
       ret true)
    (fun e =>
       assign (set_status "error") ;;;
       assign (set_error_message ("Audio transcription failed: " +:+ e)) ;;;
       save ;;;
       message "error" "Audio transcription failed" ;;;
       ret false).

(** An exception of framework code at [step], when the environment has
    one. *)
Definition fault (step : GenStep) : M unit :=
  match gen_fault env step with
  | Some e => raise e
  | None => ret tt
  end.

(** [field.save(name, ContentFile(data), save=False)] on an image field:
    the storage name is [story_image_path(story, name)], the file is
    written, the field takes the storage name. *)
Definition field_save (step : GenStep)
    (set_field : option string -> StoryGeneration -> StoryGeneration)
    (name : string) (data : PIL.Blob) : M unit :=
  s <- get_story ;
  u <- new_uuid env ;
  let stored := story_image_path s u name in
  fault step ;;;
  write_file (media_path stored) data ;;;
  assign (set_field (Some stored)).

(** [field.path] *)
Definition field_path (field : option string) : M string :=
  match field with
  | Some name => ret (media_path name)
  | None => raise "The attribute has no file associated with it."
  end.

(** [image_generator.cleanup()] *)
Definition cleanup (image_generator : Gpu.GPUImageGenerator) : M unit :=
  if Gpu.available image_generator then fault StepCleanup else ret tt.

(** The [try] block of [_generate_enhanced_story_content]; [story_save]
    stands for its last statement, [story.save()]. *)
Definition generation_try_with (story_save : M unit) (start_time : float)
    (length image_style : string) : M unit :=
  fault StepImport ;;;
  s <- get_story ;
  let input_text := get_input_text s in
  (if negb (Py.truthy input_text)
   then raise "No input text available" else ret tt) ;;;
  story_generator <- Ollama.__init__ env ;
  text <- Ollama.generate_story env story_generator input_text length ;
  assign (set_story_text text) ;;;
  assign (set_ai_model_used
            ("Ollama (" +:+ Ollama.story_model story_generator +:+ ")")) ;;;
  s <- get_story ;
  description <- Ollama.generate_character_description env story_generator
                   (story_text s) ;
  assign (set_character_description description) ;;;
  s <- get_story ;
  description <- Ollama.generate_scene_description env story_generator
                   (story_text s) ;
  assign (set_background_description description) ;;;
  let image_generator := Gpu.__init__ env in
  s <- get_story ;
  r <- Gpu.generate_character_image env image_generator
         (character_description s) image_style ;
  let char_image_data := fst r in
  let image_generator := snd r in
  field_save StepSaveCharacter set_character_image
    ("character_" +:+ id s +:+ ".png") char_image_data ;;;
  s <- get_story ;
  r <- Gpu.generate_background_image env image_generator
         (background_description s) image_style ;
  let bg_image_data := fst r in
  let image_generator := snd r in
  field_save StepSaveBackground set_background_image
    ("background_" +:+ id s +:+ ".png") bg_image_data ;;;
  s <- get_story ;
  (if field_truthy (character_image s) && field_truthy (background_image s)
   then
     char_path <- field_path (character_image s) ;
     bg_path <- field_path (background_image s) ;
     composed_data <- Gpu.compose_images env image_generator char_path bg_path ;
     field_save StepSaveComposed set_composed_image
       ("composed_" +:+ id s +:+ ".png") composed_data
   else ret tt) ;;;
  assign (set_image_model_used ("Stable Diffusion (" +:+ image_style +:+ ")")) ;;;
  cleanup image_generator ;;;
  assign (set_status "completed") ;;;
  assign (set_generation_time (Some (time_at_end env - start_time)%float)) ;;;
  story_save.

(** The [try] block with [StoryGeneration.save] as it is above. *)
Definition generation_try (start_time : float) (length image_style : string) : M unit :=
  generation_try_with save start_time length image_style.

(** The [except Exception as e] block of [_generate_enhanced_story_content] *)
Definition generation_except (e : string) : M unit :=
  assign (set_status "error") ;;;
  assign (set_error_message e) ;;;
  save.

(** [_generate_enhanced_story_content] *)
Definition _generate_enhanced_story_content (length image_style : string) : M unit :=
  let start_time := time_at_start env in
  try_except (generation_try start_time length image_style) generation_except.

(** The end of [post]: generation, then the response by the status. *)
Definition generate_and_respond (story_length image_style : string)
    : M HttpResponse :=
  assign (set_status "processing") ;;;
  save ;;;
  _generate_enhanced_story_content story_length image_style ;;;
  s <- get_story ;
  if String.eqb (status s) "error"
  then
    message "error" ("Generation error: " +:+ error_message s) ;;;
    ret RedirectIndex
  else
    message "success" "🎉 Enhanced story generated with Ollama + GPU!" ;;;
    ret (RedirectResult (id s)).

(** The body of [post] from the handling of the audio to the response. *)
Definition post_after_create (audio_file : option UploadedFile)
    (story_length image_style : string) : M HttpResponse :=
  success <- match audio_file with
             | Some f =>
                 if upload_truthy audio_file then _handle_audio_input f
                 else ret true
             | None => ret true
             end ;
  if negb success then ret RedirectIndex
  else generate_and_respond story_length image_style.

(** [GenerateStoryView.post] *)
Definition post (request : Request) (w : World) : PostResult :=
  if negb (table_exists env)
  then
    {| response := RedirectIndex; created := None;
       world_after :=
         log_event w (EvMessage "error"
           "🚨 Database not ready! Please run: python manage.py migrate") |}
  else
    let prompt := Py.strip (form_get (POST_prompt request) EmptyString) in
    let audio_file := FILES_audio_file request in
    let story_length := form_get (POST_story_length request) "medium" in
    let image_style := form_get (POST_image_style request) "realistic" in
    if negb (Py.truthy prompt) && negb (upload_truthy audio_file)
    then
      {| response := RedirectIndex; created := None;
         world_after :=
           log_event w (EvMessage "error"
             "Please provide either text input or audio file.") |}
    else
      let st := create (authenticated_user request) prompt
                  (choose_input_method prompt audio_file) "pending" w in
      match post_after_create audio_file story_length image_style st with
      | (Return resp, st') =>
          {| response := resp; created := Some (story st');
             world_after := world st' |}
      | (Raise _, st') =>
          {| response := RedirectIndex; created := Some (story st');
             world_after :=
               log_event (world st') (EvMessage "error"
                 "An unexpected error occurred. Please try again.") |}
      end.

End WithEnv.

End Views.

(** ** [_generate_enhanced_story_content] with a database that can refuse

    [StoryGeneration.save] ends with [super().save()], which raises when
    the database refuses the write.  Here the two calls of [story.save()]
    in [_generate_enhanced_story_content], the one that ends the [try]
    block and the one of the [except] block, consult the database. *)

Module ViewsDb.

Import Models.

Section WithEnv.

Variable env : Env.

(** The answer of the database to the write of an object, given the events
    so far: [Some e] when it raises [e]. *)
Variable db_fault : StoryGeneration -> list Event -> option string.

(** [super().save()] *)
Definition write_row : M unit :=
  fun st =>
    match db_fault (story st) (trace (world st)) with
    | Some e => (Raise e, st)
    | None => Views.write_row st
    end.

(** [StoryGeneration.save]: the word count is refreshed and a pending
    upload is written to the storage before the row is. *)
Definition save : M unit :=
  assign update_word_count ;;;
  Views.commit_audio_file env ;;;
  write_row.

(** The [try] block of [_generate_enhanced_story_content] *)
Definition generation_try (start_time : float) (length image_style : string) : M unit :=
  Views.generation_try_with env save start_time length image_style.

(** The [except Exception as e] block of [_generate_enhanced_story_content] *)
Definition generation_except (e : string) : M unit :=
  assign (set_status "error") ;;;
  assign (set_error_message e) ;;;
  save.

(** [_generate_enhanced_story_content] *)
Definition _generate_enhanced_story_content (length image_style : string) : M unit :=
  let start_time := time_at_start env in
  try_except (generation_try start_time length image_style) generation_except.

End WithEnv.

End ViewsDb.

(** ** Notions used in the statements *)

(** The number of POST requests among the events. *)
Definition is_post (ev : Event) : bool :=
  match ev with
  | EvHttpPost _ _ => true
  | _ => false
  end.

Definition posts (tr : list Event) : nat := length (filter (fun ev => is_post ev = true) tr).

(** The number of transcription attempts among the events. *)
Definition is_transcribe (ev : Event) : bool :=
  match ev with
  | EvTranscribe _ _ => true
  | _ => false
  end.

Definition transcriptions (tr : list Event) : nat :=
  length (filter (fun ev => is_transcribe ev = true) tr).

(** [wp m st Q]: running [m] from [st] ends in an outcome and a state
    that satisfy [Q]. *)
Definition wp {A} (m : M A) (st : St) (Q : Outcome A -> St -> Prop) : Prop :=
  Q (fst (m st)) (snd (m st)).

(** [m] returns [a] from [st] and leaves [st']. *)
Definition returns {A} (m : M A) (st : St) (a : A) (st' : St) : Prop :=
  m st = (Return a, st').

(** A statement that touches neither the object nor the database nor the
    files: all it may do is add events. *)
Definition only_events (st st' : St) : Prop :=
  story st' = story st /\
  db (world st') = db (world st) /\
  files (world st') = files (world st) /\
  exists evs, trace (world st') = trace (world st) ++ evs.

(** ** Notions about code points used in the proofs *)

(** Whether [s] is made of continuation bytes. *)
Fixpoint all_cont (s : string) : bool :=
  match s with
  | EmptyString => true
  | String c s' => Py.is_cont c && all_cont s'
  end.

(** Whether [s] starts with a byte that is not a continuation byte. *)
Definition starts_plain (s : string) : bool :=
  match s with
  | EmptyString => false
  | String c _ => negb (Py.is_cont c)
  end.

(** Whether [s] ends with an ASCII byte. *)
Fixpoint ends_ascii (s : string) : bool :=
  match s with
  | EmptyString => false
  | String c EmptyString => (N_of_ascii c <? 128)%N
  | String _ s' => ends_ascii s'
  end.

(** The bytes of one whole code point: a first byte and all the
    continuation bytes that it announces. *)
Definition whole_char (ch : string) : bool :=
  match ch with
  | EmptyString => false
  | String c t =>
      negb (Py.is_cont c) && all_cont t && (String.length t =? Py.trail c)%nat
  end.

(** The number of words of a list of code points: the number of its
    maximal runs of code points that are not blanks; [inword] tells whether
    a word is being read. *)
Fixpoint count_words (inword : bool) (l : list string) : nat :=
  match l with
  | [] => if inword then 1%nat else 0%nat
  | ch :: l' =>
      if Py.isspace ch
      then (if inword then S (count_words false l') else count_words false l')
      else count_words true l'
  end.

(** A word: a string that is not empty and holds no blank. *)
Definition is_word (w : string) : bool :=
  Py.truthy w && forallb (fun ch => negb (Py.isspace ch)) (Py.chars w).

(** A code point that [lower] leaves as it is, with the bytes of one whole
    code point. *)
Definition settled (m : N) : bool :=
  (negb (m =? 931) && negb (m =? 304)
   && (Py.to_lower m =? m))%N
  && whole_char (Py.chr m)
  && match Py.ord (Py.chr m) with
     | Some k => (k =? m)%N
     | None => false
     end.

(** A code point on which [lower] does nothing. *)
Definition kept (ch : string) : Prop :=
  match Py.ord ch with
  | Some n => n <> 931%N /\ n <> 304%N /\ Py.to_lower n = n
  | None => True
  end.

(** Keyword rules as the specification words them: the description of the
    first rule one of whose keywords occurs in the text, else the
    default. *)
Fixpoint first_match (rules : list (list string * string)) (default text : string)
    : string :=
  match rules with
  | [] => default
  | (keywords, description) :: rules' =>
      if Py.any_in keywords text then description
      else first_match rules' default text
  end.

Definition character_rules : list (list string * string) :=
  [(["knight"; "sword"], Ollama.knight_description);
   (["wizard"; "magic"], Ollama.wizard_description);
   (["space"; "star"], Ollama.explorer_description)].

Definition scene_rules : list (list string * string) :=
  [(["forest"; "tree"], Ollama.forest_scene);
   (["castle"; "tower"], Ollama.castle_scene);
   (["space"; "star"], Ollama.space_scene)].

(** Whether one of the six keywords of the character rules occurs. *)
Definition character_keyword_in (text : string) : bool :=
  Py.any_in ["knight"; "sword"; "wizard"; "magic"; "space"; "star"] text.

(** The payload that [_call_ollama] sends. *)
Definition chat_payload (self : Ollama.OllamaStoryGenerator)
    (system_prompt user_prompt : string) : ChatPayload :=
  {| model := Ollama.story_model self;
     system_content := system_prompt;
     user_content := user_prompt;
     stream := false;
     temperature := 0.8%float |}.

(** The POST event of one call of [_call_ollama]. *)
Definition chat_event (self : Ollama.OllamaStoryGenerator)
    (system_prompt user_prompt : string) : Event :=
  EvHttpPost (Ollama.ollama_host self +:+ "/api/chat")
    (chat_payload self system_prompt user_prompt).

(** An answer that is not a 200 response: an exception of [requests] or
    another status code. *)
Definition failed_call (o : HttpOutcome) : bool :=
  match o with
  | HttpError _ => true
  | HttpResponse status_code _ => negb (status_code =? 200)
  end.

(** The state after one more event. *)
Definition after_event (st : St) (ev : Event) : St :=
  {| story := story st; world := log_event (world st) ev |}.

(** What [_call_ollama] makes of an answer. *)
Definition call_result (o : HttpOutcome) : string :=
  match o with
  | HttpError _ => EmptyString
  | HttpResponse status_code content =>
      if status_code =? 200
      then match content with
           | Some c => Py.strip c
           | None => EmptyString
           end
      else EmptyString
  end.

(** What [_check_ollama_availability] makes of an answer. *)
Definition tags_available (model_name : string) (o : TagsOutcome) : bool :=
  match o with
  | TagsError _ => false
  | TagsResponse status_code names =>
      if status_code =? 200
      then match names with
           | Some model_names =>
               existsb (fun name => Py.contains model_name name) model_names
           | None => false
           end
      else false
  end.

(** The state that [StoryGeneration.save] leaves. *)
Definition after_save (env : Env) (st : St) : St := snd (Views.save env st).

(** The state in which [StoryGeneration.save] reaches [super().save()]:
    the word count is refreshed and a pending upload is stored. *)
Definition before_row (env : Env) (st : St) : St :=
  snd ((assign Models.update_word_count ;;; Views.commit_audio_file env) st).

(** ** Concrete environments and inputs

    Used to run the model on examples. *)

Module Sample.

Import Models.

(** No Ollama server, no GPU, no audio libraries, no [arial.ttf]. *)
Definition offline : Env :=
  {| table_exists := true;
     MEDIA_ROOT := "/srv/media";
     check_audio_support := false;
     whisper_transcribe := fun _ => None;
     google_transcribe := fun _ => inr "recognition request failed"%string;
     http_get_tags := fun _ => TagsError "connection refused";
     http_post := fun _ _ => HttpError "connection refused";
     GPU_AVAILABLE := false;
     from_pretrained := fun _ => LoadFails;
     diffuse := fun _ _ => None;
     arial_ttf := false;
     textbbox := fun _ => Some (0, 0, 84, 11);
     uuid4 := fun tr => "uuid-" +:+ pretty (length tr);
     time_at_start := 100%float;
     time_at_end := 102.5%float;
     gen_fault := fun _ => None |}.

(** The same machine before [manage.py migrate]. *)
Definition not_migrated : Env :=
  {| table_exists := false;
     MEDIA_ROOT := MEDIA_ROOT offline;
     check_audio_support := check_audio_support offline;
     whisper_transcribe := whisper_transcribe offline;
     google_transcribe := google_transcribe offline;
     http_get_tags := http_get_tags offline;
     http_post := http_post offline;
     GPU_AVAILABLE := GPU_AVAILABLE offline;
     from_pretrained := from_pretrained offline;
     diffuse := diffuse offline;
     arial_ttf := arial_ttf offline;
     textbbox := textbbox offline;
     uuid4 := uuid4 offline;
     time_at_start := time_at_start offline;
     time_at_end := time_at_end offline;
     gen_fault := gen_fault offline |}.

(** [Sample.offline] with a storage that fails on the background image. *)
Definition disk_full : Env :=
  {| table_exists := true;
     MEDIA_ROOT := MEDIA_ROOT offline;
     check_audio_support := check_audio_support offline;
     whisper_transcribe := whisper_transcribe offline;
     google_transcribe := google_transcribe offline;
     http_get_tags := http_get_tags offline;
     http_post := http_post offline;
     GPU_AVAILABLE := GPU_AVAILABLE offline;
     from_pretrained := from_pretrained offline;
     diffuse := diffuse offline;
     arial_ttf := arial_ttf offline;
     textbbox := textbbox offline;
     uuid4 := uuid4 offline;
     time_at_start := time_at_start offline;
     time_at_end := time_at_end offline;
     gen_fault := fun step =>
                    match step with
                    | StepSaveBackground => Some "No space left on device"%string
                    | _ => None
                    end |}.

(** [Sample.offline] with an Ollama server that has the model and answers
    every chat request with two words. *)
Definition terse_ollama : Env :=
  {| table_exists := true;
     MEDIA_ROOT := MEDIA_ROOT offline;
     check_audio_support := check_audio_support offline;
     whisper_transcribe := whisper_transcribe offline;
     google_transcribe := google_transcribe offline;
     http_get_tags := fun _ => TagsResponse 200 (Some ["llama3.1:8b"%string]);
     http_post := fun _ _ => HttpResponse 200 (Some "  A tower.  "%string);
     GPU_AVAILABLE := GPU_AVAILABLE offline;
     from_pretrained := from_pretrained offline;
     diffuse := diffuse offline;
     arial_ttf := arial_ttf offline;
     textbbox := textbbox offline;
     uuid4 := uuid4 offline;
     time_at_start := time_at_start offline;
     time_at_end := time_at_end offline;
     gen_fault := gen_fault offline |}.

(** A database that refuses every write. *)
Definition db_down : StoryGeneration -> list Event -> option string :=
  fun _ _ => Some "database is locked"%string.

Definition empty_world : World := {| db := ∅; files := ∅; trace := [] |}.

Definition text_request : Views.Request :=
  {| Views.POST_prompt := Some " A knight and a dragon "%string;
     Views.FILES_audio_file := None;
     Views.POST_story_length := None;
     Views.POST_image_style := None;
     Views.authenticated_user := None |}.

(** A freshly created record for the prompt of [text_request]. *)
Definition fresh : St :=
  Views.create offline None "A knight and a dragon" "text" "pending" empty_world.

(** The record of [fresh] as [post] hands it to the generation: saved with
    the status ['processing']. *)
Definition processing : St :=
  snd ((assign (set_status "processing") ;;; Views.save offline) fresh).

Definition generator_off : Ollama.OllamaStoryGenerator :=
  {| Ollama.ollama_host := Ollama.DEFAULT_HOST;
     Ollama.story_model := Ollama.DEFAULT_MODEL;
     Ollama.available := false |}.

Definition generator_on : Ollama.OllamaStoryGenerator :=
  {| Ollama.ollama_host := Ollama.DEFAULT_HOST;
     Ollama.story_model := Ollama.DEFAULT_MODEL;
     Ollama.available := true |}.

(** An upload of one byte more than ten mebibytes. *)
Definition big_audio : UploadedFile :=
  {| uf_name := "speech.wav"; uf_size := 10 * 1024 * 1024 + 1;
     uf_data := EmptyString |}.

(** Two image files on disk. *)
Definition with_images (char bg : PIL.Image) : St :=
  {| story := story fresh;
     world := {| db := db (world fresh);
                 files := <[ "bg.png"%string := PIL.PngOf bg ]>
                            (<[ "char.png"%string := PIL.PngOf char ]> ∅);
                 trace := [] |} |}.

End Sample.

(** The size that [compose_images] gives the character:
    [int(bg_height * 0.8)] high and
    [int(char_width * (that height / char_height))] wide. *)
Definition scaled_height (bg_height : Z) : Z :=
  Py.int (Py.float_of_int bg_height * 0.8)%float.

Definition scaled_width (char_width char_height bg_height : Z) : Z :=
  Py.int (Py.float_of_int char_width
          * (Py.float_of_int (scaled_height bg_height)
             / Py.float_of_int char_height))%float.

(** The scene that [compose_images] builds from a character [c] and a
    background [b] when nothing fails. *)
Definition composed_scene (c b : PIL.Image) : PIL.Image :=
  let bg_width := fst (PIL.size b) in
  let bg_height := snd (PIL.size b) in
  let resized :=
    PIL.Resize (scaled_width (fst (PIL.size c)) (snd (PIL.size c)) bg_height)
      (scaled_height bg_height) "LANCZOS" (PIL.Convert "RGBA" c) in
  PIL.Convert "RGB"
    (PIL.Paste resized (Py.int (Py.float_of_int bg_width * 0.25)%float)
       (bg_height - scaled_height bg_height) resized (PIL.Convert "RGBA" b)).

(** Whether the scaling of [c] onto [b] is one Pillow carries out: the
    character has a height to divide by and the target size is not empty. *)
Definition scalable (c b : PIL.Image) : bool :=
  negb (snd (PIL.size c) =? 0)
  && negb (scaled_width (fst (PIL.size c)) (snd (PIL.size c)) (snd (PIL.size b)) <? 1)
  && negb (scaled_height (snd (PIL.size b)) <? 1).

(** The bytes that [_create_placeholder] returns when it returns: the
    PNG encoding of a grey image with the text in white, if the text could
    be measured. *)
Definition placeholder_png (env : Env) (text : string) (width height : Z)
    : PIL.Blob :=
  let img := PIL.New "RGB" width height (120, 120, 120) in
  PIL.PngOf
    match textbbox env text with
    | Some (b0, b1, b2, b3) =>
        let x := (width - (b2 - b0)) / 2 in
        let y := (height - (b3 - b1)) / 2 in
        PIL.Draw (PIL.DrawText x y text PIL.DefaultFont (255, 255, 255)) img
    | None => img
    end.

(** What [compose_images] returns, from what the two paths hold. *)
Definition compose_result (env : Env) (char_file bg_file : option PIL.Blob)
    : PIL.Blob :=
  match char_file, bg_file with
  | Some (PIL.PngOf c), Some (PIL.PngOf b) =>
      if scalable c b then PIL.PngOf (composed_scene c b)
      else placeholder_png env "COMPOSED SCENE" 768 512
  | _, _ => placeholder_png env "COMPOSED SCENE" 768 512
  end.

(** The state after some more events. *)
Definition with_events (st : St) (evs : list Event) : St :=
  {| story := story st;
     world := {| db := db (world st); files := files (world st);
                 trace := trace (world st) ++ evs |} |}.

(** The state that a successful [field.save(name, data, save=False)]
    leaves, [u] being the value drawn by [uuid4]. *)
Definition after_field_save (env : Env)
    (set_field : option string -> Models.StoryGeneration -> Models.StoryGeneration)
    (name : string) (data : PIL.Blob) (st : St) : St :=
  let u := uuid4 env (trace (world st)) in
  let stored := Models.story_image_path (story st) u name in
  {| story := set_field (Some stored) (story st);
     world := {| db := db (world st);
                 files := <[Views.media_path env stored := data]> (files (world st));
                 trace := trace (world st) ++ [EvUuid u] |} |}.

(** The fields that only [post] and [_handle_audio_input] set. *)
Definition inputs_kept (s s' : Models.StoryGeneration) : Prop :=
  Models.id s' = Models.id s /\
  Models.user s' = Models.user s /\
  Models.prompt s' = Models.prompt s /\
  Models.input_method s' = Models.input_method s /\
  Models.transcribed_text s' = Models.transcribed_text s.

(** Everything but the word count and the audio field. *)
Definition content_kept (s s' : Models.StoryGeneration) : Prop :=
  inputs_kept s s' /\
  Models.story_text s' = Models.story_text s /\
  Models.character_description s' = Models.character_description s /\
  Models.background_description s' = Models.background_description s /\
  Models.character_image s' = Models.character_image s /\
  Models.background_image s' = Models.background_image s /\
  Models.composed_image s' = Models.composed_image s /\
  Models.ai_model_used s' = Models.ai_model_used s /\
  Models.image_model_used s' = Models.image_model_used s /\
  Models.generation_time s' = Models.generation_time s /\
  Models.status s' = Models.status s /\
  Models.error_message s' = Models.error_message s.

(** An image field holds the storage name that [story_image_path] makes
    of [name] for some value of [uuid4], and the storage has that file. *)
Definition stored_image (env : Env) (w : World) (s : Models.StoryGeneration)
    (field : option string) (name : string) : Prop :=
  exists u,
    field = Some (Models.story_image_path s u name) /\
    is_Some (files w !! Views.media_path env (Models.story_image_path s u name)).

(** The Ollama server of the environment never passes the availability
    check. *)
Definition ollama_down (env : Env) : Prop :=
  forall tr, tags_available Ollama.DEFAULT_MODEL (http_get_tags env tr) = false.

(** What holds when the [try] block of [_generate_enhanced_story_content]
    reaches its last statement, [story.save()]: [stN] is the state there,
    [st] the one at the start.  [text], [cd] and [bd] are what the three
    operations of the story generator returned, [blob_c] and [blob_b] what
    the image generator returned for [cd] and [bd], [u1], [u2] and [u3] the
    three values of [uuid4]; the composed image is what [compose_images]
    made of the files under the first two names. *)
Definition before_save (env : Env) (start_time : float) (image_style : string)
    (st stN : St) : Prop :=
  let s := story st in
  exists (self : Ollama.OllamaStoryGenerator) (text cd bd u1 u2 u3 : string)
         (blob_c blob_b : PIL.Blob) (g1 g2 : Gpu.GPUImageGenerator)
         (st_cd st_bd st_c st_b : St),
    let name_c :=
      Models.story_image_path s u1 ("character_" +:+ Models.id s +:+ ".png") in
    let name_b :=
      Models.story_image_path s u2 ("background_" +:+ Models.id s +:+ ".png") in
    let name_s :=
      Models.story_image_path s u3 ("composed_" +:+ Models.id s +:+ ".png") in
    let rendered :=
      <[Views.media_path env name_b := blob_b]>
        (<[Views.media_path env name_c := blob_c]> (files (world st))) in
    let composed :=
      compose_result env (rendered !! Views.media_path env name_c)
        (rendered !! Views.media_path env name_b) in
    Py.truthy (Models.get_input_text s) = true /\
    100 < Py.word_count text /\
    (ollama_down env ->
     text = Ollama._generate_fallback_story (Models.get_input_text s)) /\
    fst (Ollama.generate_character_description env self text st_cd) = Return cd /\
    Py.truthy cd = true /\
    (ollama_down env -> cd = Ollama._fallback_character_description text) /\
    fst (Ollama.generate_scene_description env self text st_bd) = Return bd /\
    Py.truthy bd = true /\
    (ollama_down env -> bd = Ollama._fallback_scene_description text) /\
    fst (Gpu.generate_character_image env (Gpu.__init__ env) cd image_style st_c)
      = Return (blob_c, g1) /\
    fst (Gpu.generate_background_image env g1 bd image_style st_b)
      = Return (blob_b, g2) /\
    story stN
      = Models.set_generation_time (Some (time_at_end env - start_time)%float)
          (Models.set_status "completed"
             (Models.set_image_model_used
                ("Stable Diffusion (" +:+ image_style +:+ ")")
                (Models.set_composed_image (Some name_s)
                   (Models.set_background_image (Some name_b)
                      (Models.set_character_image (Some name_c)
                         (Models.set_background_description bd
                            (Models.set_character_description cd
                               (Models.set_ai_model_used
                                  ("Ollama (" +:+ Ollama.story_model self +:+ ")")
                                  (Models.set_story_text text s))))))))) /\
    files (world stN) = <[Views.media_path env name_s := composed]> rendered /\
    db (world stN) = db (world st).

(** What holds of the object and the world when the [try] block of
    [_generate_enhanced_story_content] reaches its end. *)
Definition generated (env : Env) (start_time : float) (st st' : St) : Prop :=
  let s := story st in
  let s' := story st' in
  Models.status s' = "completed" /\
  Models.generation_time s' = Some (time_at_end env - start_time)%float /\
  Py.truthy (Models.get_input_text s) = true /\
  100 < Py.word_count (Models.story_text s') /\
  Models.story_word_count s' = Py.word_count (Models.story_text s') /\
  Py.truthy (Models.character_description s') = true /\
  Py.truthy (Models.background_description s') = true /\
  stored_image env (world st') s' (Models.character_image s')
    ("character_" +:+ Models.id s' +:+ ".png") /\
  stored_image env (world st') s' (Models.background_image s')
    ("background_" +:+ Models.id s' +:+ ".png") /\
  stored_image env (world st') s' (Models.composed_image s')
    ("composed_" +:+ Models.id s' +:+ ".png") /\
  (ollama_down env ->
   Models.story_text s' = Ollama._generate_fallback_story (Models.get_input_text s) /\
   Models.character_description s'
     = Ollama._fallback_character_description (Models.story_text s') /\
   Models.background_description s'
     = Ollama._fallback_scene_description (Models.story_text s')) /\
  (exists self st_c st_b,
     fst (Ollama.generate_character_description env self (Models.story_text s') st_c)
       = Return (Models.character_description s') /\
     fst (Ollama.generate_scene_description env self (Models.story_text s') st_b)
       = Return (Models.background_description s')) /\
  db (world st') !! Models.id s' = Some s' /\
  (exists image_style stN,
     before_save env start_time image_style st stN /\
     st' = after_save env stN).

(** The fields that are fixed when the record is created. *)
Definition identity_kept (s s' : Models.StoryGeneration) : Prop :=
  Models.id s' = Models.id s /\
  Models.user s' = Models.user s /\
  Models.prompt s' = Models.prompt s /\
  Models.input_method s' = Models.input_method s.

(** What the end of [post] leaves: the response is the result page
    exactly when the generation completed. *)
Definition responded (env : Env) (st : St) (o : Outcome Views.HttpResponse)
    (st' : St) : Prop :=
  identity_kept (story st) (story st') /\
  db (world st') !! Models.id (story st') = Some (story st') /\
  (exists resp, o = Return resp) /\
  (Models.status (story st') = "completed" ->
   o = Return (Views.RedirectResult (Models.id (story st'))) /\
   exists st0 st1,
     generated env (time_at_start env) st0 st1 /\
     story st' = story st1 /\
     files (world st') = files (world st1) /\
     db (world st') = db (world st1)).

(** ** The rest of [models.py], [admin.py] and the other views *)

Module Builtins.

(** [s.rsplit(sep, 1)[0]] for a one-character separator: what precedes the
    last [sep], or all of [s] when there is none. *)
Fixpoint rsplit_head (sep : ascii) (s : string) : string :=
  match s with
  | EmptyString => EmptyString
  | String c s' =>
      if Py.has_char sep s' then String c (rsplit_head sep s')
      else if Ascii.eqb c sep then EmptyString else s
  end.

End Builtins.

Module Display.

Import Models.

(** [StoryGeneration.__str__] *)
Definition __str__ (self : StoryGeneration) : string :=
  if Py.truthy (prompt self)
  then (if 50 <? Py.len (prompt self)
        then "Story: " +:+ Py.take 50 (prompt self) +:+ "..."
        else "Story: " +:+ prompt self)
  else if Py.truthy (transcribed_text self)
  then "Audio Story: " +:+ Py.take 50 (transcribed_text self) +:+ "..."
  else "Story " +:+ id self.

(** [get_input_method_display], which Django derives from the choices of
    the field: the label of the value, or the value when it has none. *)
Definition get_input_method_display (self : StoryGeneration) : string :=
  Gpu.dict_get
    [("text", "Text Input"); ("audio", "Audio Input"); ("both", "Text and Audio")]
    (input_method self) (input_method self).

(** [StoryGenerationAdmin.prompt_preview] of [admin.py] *)
Definition prompt_preview (obj : StoryGeneration) : string :=
  let text := get_input_text obj in
  if 50 <? Py.len text then Py.take 50 text +:+ "..." else text.

End Display.

(** ** The other views of [views.py] *)

Module Api.

Import Models.

Inductive Json :=
| JString (s : string)
| JBool (b : bool)
| JInt (z : Z)
| JFloat (f : float)
| JNull.

(** [JsonResponse(body, status=...)] *)
Record JsonResponse := {
  status_code : Z;
  body : list (string * Json)
}.

(** [HttpResponse(content, content_type=...)] with its
    [Content-Disposition] header. *)
Record FileResponse := {
  content : PIL.Blob;
  content_type : string;
  content_disposition : string
}.

(** The entry [story_stats] of the context of the result page. *)
Record StoryStats := {
  word_count : Z;
  stats_generation_time : option float;
  stats_input_method : string;
  ai_model : string;
  image_model : string
}.

(** The context of the result page: [story] and, with it, [story_stats]. *)
Record ResultContext := {
  ctx_story : option StoryGeneration;
  ctx_story_stats : option StoryStats
}.

Definition json_of_time (t : option float) : Json :=
  match t with
  | Some f => JFloat f
  | None => JNull
  end.

Section WithEnv.

Variable env : Env.

(** [get_object_or_404(StoryGeneration, id=story_id)]: the row, or
    [Http404]. *)
Definition get_object_or_404 (story_id : string) : M StoryGeneration :=
  w <- get_world ;
  match db w !! story_id with
  | Some s => ret s
  | None => raise "No StoryGeneration matches the given query."
  end.

(** [field_file.read()]: the field must have a name and the storage the
    file. *)
Definition field_read (field : option string) : M PIL.Blob :=
  match field with
  | Some name =>
      if Py.truthy name
      then
        w <- get_world ;
        match files w !! Views.media_path env name with
        | Some data => ret data
        | None => raise "No such file or directory"
        end
      else raise "The attribute has no file associated with it."
  | None => raise "The attribute has no file associated with it."
  end.

(** [DownloadImageView.get]: every failure leaves as
    [Http404("Download failed")]. *)
Definition DownloadImageView_get (story_id image_type : string) : M FileResponse :=
  try_except
    (story <- get_object_or_404 story_id ;
     image_file <-
       (if String.eqb image_type "character" && field_truthy (character_image story)
        then ret (character_image story)
        else if String.eqb image_type "background"
                && field_truthy (background_image story)
        then ret (background_image story)
        else if String.eqb image_type "composed"
                && field_truthy (composed_image story)
        then ret (composed_image story)
        else raise "Image not found") ;
     data <- field_read image_file ;
     ret {| content := data;
            content_type := "image/png";
            content_disposition :=
              "attachment; filename=" +:+ Py.dq +:+ image_type +:+ "_"
              +:+ story_id +:+ ".png" +:+ Py.dq |})
    (fun _ => raise "Download failed").

(** [GenerationStatusView.get] *)
Definition GenerationStatusView_get (story_id : string) : M JsonResponse :=
  try_except
    (story <- get_object_or_404 story_id ;
     ret {| status_code := 200;
            body := [("status", JString (status story));
                     ("completed", JBool (String.eqb (status story) "completed"));
                     ("generation_time", json_of_time (generation_time story));
                     ("word_count", JInt (story_word_count story))] |})
    (fun e => ret {| status_code := 500; body := [("error", JString e)] |}).

(** [StoryResultView.get_context_data] *)
Definition StoryResultView_get_context_data (story_id : string) : M ResultContext :=
  if negb (table_exists env)
  then ret {| ctx_story := None; ctx_story_stats := None |}
  else
    try_except
      (story <- get_object_or_404 story_id ;
       ret {| ctx_story := Some story;
              ctx_story_stats :=
                Some {| word_count := story_word_count story;
                        stats_generation_time := generation_time story;
                        stats_input_method := Display.get_input_method_display story;
                        ai_model := ai_model_used story;
                        image_model := image_model_used story |} |})
      (fun _ => ret {| ctx_story := None; ctx_story_stats := None |}).

(** [AudioTranscribeView.post], [audio] being [request.FILES.get('audio')] *)
Definition AudioTranscribeView_post (audio : option UploadedFile) : M JsonResponse :=
  try_except
    (match audio with
     | Some audio_file =>
         if upload_truthy audio
         then
           text <- Views._safe_transcribe_audio env audio_file ;
           ret {| status_code := 200;
                  body := [("success", JBool true); ("text", JString text)] |}
         else ret {| status_code := 400;
                     body := [("error", JString "No audio file")] |}
     | None => ret {| status_code := 400;
                      body := [("error", JString "No audio file")] |}
     end)
    (fun _ => ret {| status_code := 500;
                     body := [("error", JString "Transcription failed")] |}).

(** [check_and_suggest_ollama_setup] of [ollama_story_generator.py] *)
Definition check_and_suggest_ollama_setup : M (bool * list string) :=
  try_except
    (response <- Ollama.requests_get_tags env "http://localhost:11434/api/tags" ;
     if fst response =? 200
     then
       model_names <- Ollama.decoded "invalid tags response" (snd response) ;
       ret (true, model_names)
     else ret (false, []))
    (fun _ => ret (false, [])).

End WithEnv.

End Api.

(** ** [audio_processor.py]: the processor

    The processor has oracles of its own: the settings, the loading of the
    models, the conversion to WAV and the two recognisers, which work on
    paths.  Writing the temporary copy and removing a file that exists
    succeed, as the writes of the storage do. *)

Inductive RecognitionOutcome :=
| Recognized (text : string)
| UnknownValueError
| RequestError (e : string)
| OtherError (e : string).

Record AudioEnv := {
  AUDIO_LIBS_AVAILABLE : bool;
  ENABLE_AUDIO_INPUT : option bool;
  WHISPER_MODEL : option string;
  whisper_load_model : string -> bool;
  make_recognizer : bool;
  export_wav : string -> PIL.Blob -> option PIL.Blob;
  whisper_model_transcribe : string -> string + string;
  recognize_google : string -> RecognitionOutcome
}.

Module AudioProcessing.

Import Models.

(** The object: which of [whisper_model] and [speech_recognizer] are set. *)
Record AudioProcessor := {
  whisper_model : bool;
  speech_recognizer : bool
}.

Definition supported_formats : list string :=
  ["wav"; "mp3"; "mp4"; "m4a"; "flac"; "ogg"; "webm";
   "audio/wav"; "audio/mp3"; "audio/mp4"; "audio/mpeg";
   "audio/flac"; "audio/ogg"; "audio/webm"].

Definition remove_file (path : string) : M unit :=
  fun st =>
    let w := world st in
    (Return tt,
     {| story := story st;
        world := {| db := db w; files := delete path (files w);
                    trace := trace w |} |}).

Section WithEnv.

Variable env : Env.
Variable aenv : AudioEnv.

(** [AudioProcessor()]: [__init__] and [_initialize_models] *)
Definition __init__ : AudioProcessor :=
  if negb (AUDIO_LIBS_AVAILABLE aenv)
  then {| whisper_model := false; speech_recognizer := false |}
  else
    {| whisper_model :=
         match ENABLE_AUDIO_INPUT aenv with
         | Some false => false
         | _ => whisper_load_model aenv
                  (match WHISPER_MODEL aenv with
                   | Some name => name
                   | None => "base"
                   end)
         end;
       speech_recognizer := make_recognizer aenv |}.

(** [is_audio_supported] *)
Definition is_audio_supported (self : AudioProcessor) : bool :=
  AUDIO_LIBS_AVAILABLE aenv && (whisper_model self || speech_recognizer self).

(** [get_supported_formats] *)
Definition get_supported_formats : list string :=
  if negb (AUDIO_LIBS_AVAILABLE aenv) then [] else supported_formats.

(** [_save_temp_audio] *)
Definition _save_temp_audio (audio_file : UploadedFile) : M string :=
  let file_name := "temp_audio_" +:+ uf_name audio_file in
  let temp_path := MEDIA_ROOT env +:+ "/temp_audio/" +:+ file_name in
  write_file temp_path (PIL.Raw (uf_data audio_file)) ;;;
  ret temp_path.

(** [_convert_to_wav]: the path of the WAV file, or the input path when
    the conversion raises. *)
Definition _convert_to_wav (input_path : string) : M string :=
  w <- get_world ;
  match files w !! input_path with
  | Some data =>
      match export_wav aenv input_path data with
      | Some wav =>
          let wav_path := Builtins.rsplit_head "."%char input_path +:+ ".wav" in
          write_file wav_path wav ;;;
          ret wav_path
      | None => ret input_path
      end
  | None => ret input_path
  end.

(** [_transcribe_with_whisper] *)
Definition _transcribe_with_whisper (audio_path : string) : M string :=
  emit (EvTranscribe "whisper" audio_path) ;;;
  match whisper_model_transcribe aenv audio_path with
  | inl text => ret text
  | inr e => raise e
  end.

(** [_transcribe_with_speech_recognition] *)
Definition _transcribe_with_speech_recognition (audio_path : string) : M string :=
  emit (EvTranscribe "google" audio_path) ;;;
  match recognize_google aenv audio_path with
  | Recognized text => ret text
  | UnknownValueError => raise "Could not understand audio"
  | RequestError e => raise ("Speech recognition service error: " +:+ e)
  | OtherError e => raise e
  end.

(** [os.path.exists(path)] and [os.remove(path)] inside
    [_cleanup_temp_files] *)
Definition cleanup_one (file_path : string) : M unit :=
  w <- get_world ;
  if Py.truthy file_path
  then match files w !! file_path with
       | Some _ => remove_file file_path
       | None => ret tt
       end
  else ret tt.

(** [_cleanup_temp_files] *)
Fixpoint _cleanup_temp_files (file_paths : list string) : M unit :=
  match file_paths with
  | [] => ret tt
  | file_path :: rest => cleanup_one file_path ;;; _cleanup_temp_files rest
  end.

(** [transcribe_audio] *)
Definition transcribe_audio (self : AudioProcessor) (audio_file : UploadedFile)
    : M string :=
  if negb (AUDIO_LIBS_AVAILABLE aenv)
  then raise "Audio processing libraries not installed"
  else
    try_except
      (temp_path <- _save_temp_audio audio_file ;
       wav_path <- _convert_to_wav temp_path ;
       text <- (if whisper_model self then _transcribe_with_whisper wav_path
                else if speech_recognizer self
                then _transcribe_with_speech_recognition wav_path
                else raise "No transcription method available") ;
       _cleanup_temp_files [temp_path; wav_path] ;;;
       ret (Py.strip text))
      (fun e => raise ("Failed to transcribe audio: " +:+ e)).

End WithEnv.

End AudioProcessing.

(** ** More notions for the statements *)

(** Events that are neither a chat request nor a transcription attempt. *)
Definition quiet (evs : list Event) : Prop :=
  posts evs = 0%nat /\ transcriptions evs = 0%nat.

(** The number of loads of the diffusion model among the events. *)
Definition is_load (ev : Event) : bool :=
  match ev with
  | EvLoadModel _ => true
  | _ => false
  end.

Definition loads (tr : list Event) : nat :=
  length (filter (fun ev => is_load ev = true) tr).

(** The number of runs of the diffusion pipeline among the events. *)
Definition is_diffusion (ev : Event) : bool :=
  match ev with
  | EvDiffusion _ => true
  | _ => false
  end.

Definition diffusions (tr : list Event) : nat :=
  length (filter (fun ev => is_diffusion ev = true) tr).

(** The types that the rules of the fallback descriptions stand for in
    [_identify_character_type] and [_identify_setting_type]. *)
Definition character_type_rules : list (list string * string) :=
  [(["knight"; "sword"], "knight"%string);
   (["wizard"; "magic"], "wizard"%string);
   (["space"; "star"], "space"%string)].

Definition setting_type_rules : list (list string * string) :=
  [(["forest"; "tree"], "forest"%string);
   (["castle"; "tower"], "castle"%string);
   (["space"; "star"], "space"%string)].

(** A colour whose three components fit a byte. *)
Definition is_colour (c : PIL.RGB) : bool :=
  let '(r, g, b) := c in
  (0 <=? r) && (r <=? 255) && (0 <=? g) && (g <=? 255) && (0 <=? b) && (b <=? 255).

(** What a request leaves of the world it found: the rows of other records
    and the files are still there, and the events added hold at most [n]
    chat requests and [k] transcription attempts. *)
Definition world_kept (own_id : string) (n k : nat) (w w' : World) : Prop :=
  (forall key, key <> own_id -> db w' !! key = db w !! key) /\
  (forall p, is_Some (files w !! p) -> is_Some (files w' !! p)) /\
  exists evs,
    trace w' = trace w ++ evs /\
    (posts evs <= n)%nat /\ (transcriptions evs <= k)%nat.

(** A statement that keeps the key of the object, the rows of the other
    records and the files, and adds at most [n] chat requests and [k]
    transcription attempts. *)
Definition bounded {A} (own : string) (n k : nat) (m : M A) : Prop :=
  forall st,
    Models.id (story st) = own ->
    Models.id (story (snd (m st))) = own /\
    world_kept own n k (world st) (world (snd (m st))).

(** How [post] answers: the answer goes with the status, and a message of
    the same kind is the last event. *)
Definition answered (o : Outcome Views.HttpResponse) (st' : St) : Prop :=
  match o with
  | Return (Views.RedirectResult i) =>
      Models.status (story st') = "completed" /\ i = Models.id (story st') /\
      exists tr text, trace (world st') = tr ++ [EvMessage "success" text]
  | Return Views.RedirectIndex =>
      Models.status (story st') = "error" /\
      exists tr text, trace (world st') = tr ++ [EvMessage "error" text]
  | Raise _ => False
  end.

(** The two paths that [transcribe_audio] works on: the copy of the upload
    and the WAV file made of it. *)
Definition temp_path_of (env : Env) (audio_file : Models.UploadedFile) : string :=
  MEDIA_ROOT env +:+ "/temp_audio/" +:+ "temp_audio_" +:+ Models.uf_name audio_file.

Definition wav_path_of (env : Env) (audio_file : Models.UploadedFile) : string :=
  Builtins.rsplit_head "."%char (temp_path_of env audio_file) +:+ ".wav".

(** The state with other files. *)
Definition with_files (st : St) (fs : gmap string PIL.Blob) : St :=
  {| story := story st;
     world := {| db := db (world st); files := fs; trace := trace (world st) |} |}.

(** Machines for the audio processor. *)
Module AudioSample.

(** Every library is there and works. *)
Definition whisper_machine : AudioEnv :=
  {| AUDIO_LIBS_AVAILABLE := true;
     ENABLE_AUDIO_INPUT := None;
     WHISPER_MODEL := None;
     whisper_load_model := fun _ => true;
     make_recognizer := true;
     export_wav := fun _ data => Some data;
     whisper_model_transcribe := fun _ => inl " once upon a time "%string;
     recognize_google := fun _ => Recognized "once upon a time" |}.

(** The model loads, and fails on every file. *)
Definition failing_whisper : AudioEnv :=
  {| AUDIO_LIBS_AVAILABLE := true;
     ENABLE_AUDIO_INPUT := None;
     WHISPER_MODEL := None;
     whisper_load_model := fun _ => true;
     make_recognizer := true;
     export_wav := fun _ data => Some data;
     whisper_model_transcribe := fun _ => inr "model failed"%string;
     recognize_google := fun _ => Recognized "once upon a time" |}.

(** The libraries are not installed. *)
Definition no_libraries : AudioEnv :=
  {| AUDIO_LIBS_AVAILABLE := false;
     ENABLE_AUDIO_INPUT := None;
     WHISPER_MODEL := None;
     whisper_load_model := fun _ => false;
     make_recognizer := false;
     export_wav := fun _ _ => None;
     whisper_model_transcribe := fun _ => inr "no model"%string;
     recognize_google := fun _ => UnknownValueError |}.

Definition speech : Models.UploadedFile :=
  {| Models.uf_name := "speech.mp3"; Models.uf_size := 3;
     Models.uf_data := "abc" |}.

End AudioSample.
(** * Properties *)

(** ** Code points of a string *)

(** ** Code points *)

Section CodePoints.

Lemma append_nil s : EmptyString +:+ s = s.
Proof. reflexivity. Qed.

Lemma append_cons c s1 s2 : String c s1 +:+ s2 = String c (s1 +:+ s2).
Proof. reflexivity. Qed.

Lemma append_nil_r s : s +:+ EmptyString = s.
Proof.
  induction s as [|c s IH]; [reflexivity|]. rewrite append_cons, IH. reflexivity.
Qed.

Lemma str_append_assoc (a b c : string) : (a +:+ b) +:+ c = a +:+ (b +:+ c).
Proof.
  induction a as [|x a IH]; [reflexivity|].
  rewrite !append_cons, IH. reflexivity.
Qed.

Lemma str_length_app (a b : string) :
  String.length (a +:+ b) = (String.length a + String.length b)%nat.
Proof.
  induction a as [|c a IH]; [reflexivity|].
  rewrite append_cons. cbn [String.length]. rewrite IH. reflexivity.
Qed.

Lemma truthy_app_l a b : Py.truthy a = true -> Py.truthy (a +:+ b) = true.
Proof. destruct a; [discriminate | reflexivity]. Qed.

Lemma truthy_app_r a b : Py.truthy b = true -> Py.truthy (a +:+ b) = true.
Proof. destruct a; [auto | reflexivity]. Qed.

Lemma concat_app l1 l2 : Py.concat (l1 ++ l2) = Py.concat l1 +:+ Py.concat l2.
Proof.
  induction l1 as [|x l1 IH]; [reflexivity|].
  cbn [Py.concat fold_right app]. fold (Py.concat (l1 ++ l2)).
  fold (Py.concat l1). rewrite IH, str_append_assoc. reflexivity.
Qed.

Lemma concat_cons x l : Py.concat (x :: l) = x +:+ Py.concat l.
Proof. reflexivity. Qed.

(** With nothing to wait for, [scan] starts a new code point. *)
Lemma scan_zero s : Py.scan 0 s = (EmptyString, Py.chars s).
Proof.
  unfold Py.chars. destruct s as [|c s]; [reflexivity|]. cbn [Py.scan].
  destruct (Py.scan (Py.trail c) s). reflexivity.
Qed.

Lemma chars_cons c s :
  Py.chars (String c s)
  = String c (fst (Py.scan (Py.trail c) s)) :: snd (Py.scan (Py.trail c) s).
Proof.
  unfold Py.chars. cbn [Py.scan]. destruct (Py.scan (Py.trail c) s). reflexivity.
Qed.

Lemma scan_plain need c s :
  Py.is_cont c = false -> Py.scan need (String c s) = (EmptyString, Py.chars (String c s)).
Proof.
  intros H. rewrite chars_cons. cbn [Py.scan]. rewrite H.
  destruct need; destruct (Py.scan (Py.trail c) s); reflexivity.
Qed.

(** What [scan] takes for the code point being read, and where it stops. *)
Lemma scan_split s : forall need,
  exists t r,
    s = t +:+ r /\ Py.scan need s = (t, Py.chars r) /\
    all_cont t = true /\ (String.length t <= need)%nat /\
    (String.length t = need \/ starts_plain r = true \/ r = EmptyString).
Proof.
  induction s as [|c s IH]; intros need.
  - exists EmptyString, EmptyString. repeat split; auto. cbn. lia.
  - destruct need as [|n].
    + exists EmptyString, (String c s). rewrite scan_zero.
      repeat split; auto.
    + destruct (Py.is_cont c) eqn:E.
      * destruct (IH n) as (t & r & Hs & Hscan & Hc & Hl & Hstop).
        exists (String c t), r. cbn [Py.scan]. rewrite E, Hscan.
        split; [rewrite append_cons, <- Hs; reflexivity|].
        split; [reflexivity|].
        split; [cbn [all_cont]; rewrite E, Hc; reflexivity|].
        split; [cbn [String.length]; lia|].
        destruct Hstop as [H|H]; [left; cbn [String.length]; lia | right; exact H].
      * exists EmptyString, (String c s). rewrite (scan_plain _ _ _ E).
        repeat split; auto; [cbn; lia|].
        right. left. cbn [starts_plain]. rewrite E. reflexivity.
Qed.

Lemma scan_app t : forall need r,
  all_cont t = true -> (String.length t <= need)%nat ->
  (String.length t = need \/ starts_plain r = true \/ r = EmptyString) ->
  Py.scan need (t +:+ r) = (t, Py.chars r).
Proof.
  induction t as [|c t IH]; intros need r Hc Hl Hstop.
  - rewrite append_nil. destruct Hstop as [H|[H|H]].
    + cbn [String.length] in H. subst need. apply scan_zero.
    + destruct r as [|c r]; [discriminate|]. cbn [starts_plain] in H.
      apply negb_true_iff in H. apply scan_plain. exact H.
    + subst r. destruct need; reflexivity.
  - cbn [all_cont] in Hc. apply andb_true_iff in Hc as [Hc1 Hc2].
    cbn [String.length] in Hl. destruct need as [|n]; [lia|].
    rewrite append_cons. cbn [Py.scan]. rewrite Hc1.
    rewrite (IH n r Hc2); [reflexivity | lia |].
    destruct Hstop as [H|H]; [left; cbn [String.length] in H; lia | right; exact H].
Qed.

(** A code point followed by [r]. *)
Lemma chars_char c t r :
  all_cont t = true -> (String.length t <= Py.trail c)%nat ->
  (String.length t = Py.trail c \/ starts_plain r = true \/ r = EmptyString) ->
  Py.chars (String c t +:+ r) = String c t :: Py.chars r.
Proof.
  intros Hc Hl Hstop. rewrite append_cons, chars_cons.
  rewrite (scan_app t _ r Hc Hl Hstop). reflexivity.
Qed.

Lemma concat_chars s : Py.concat (Py.chars s) = s.
Proof.
  assert (G : forall s need,
            fst (Py.scan need s) +:+ Py.concat (snd (Py.scan need s)) = s).
  { clear. induction s as [|c s IH]; intros need; [reflexivity|].
    cbn [Py.scan]. specialize (IH (Py.trail c)) as IHt.
    destruct need as [|n].
    - destruct (Py.scan (Py.trail c) s) as [t l]. cbn [fst snd] in *.
      rewrite append_nil, concat_cons, append_cons, IHt. reflexivity.
    - destruct (Py.is_cont c).
      + specialize (IH n). destruct (Py.scan n s) as [t l]. cbn [fst snd] in *.
        rewrite append_cons, IH. reflexivity.
      + destruct (Py.scan (Py.trail c) s) as [t l]. cbn [fst snd] in *.
        rewrite append_nil, concat_cons, append_cons, IHt. reflexivity. }
  specialize (G s 0%nat). rewrite scan_zero in G. exact G.
Qed.

Lemma chars_nil : Py.chars EmptyString = [].
Proof. reflexivity. Qed.

Lemma chars_nil_inv s : Py.chars s = [] -> s = EmptyString.
Proof. intros H. rewrite <- (concat_chars s), H. reflexivity. Qed.

Lemma chars_truthy s : Py.truthy s = true -> Py.chars s <> [].
Proof. intros H E. apply chars_nil_inv in E. subst s. discriminate. Qed.

(** The first code point of a string and what is left. *)
Lemma chars_inv s x l :
  Py.chars s = x :: l ->
  exists c t,
    x = String c t /\ all_cont t = true /\ (String.length t <= Py.trail c)%nat /\
    s = x +:+ Py.concat l /\ Py.chars (Py.concat l) = l /\
    (String.length t = Py.trail c \/ starts_plain (Py.concat l) = true
     \/ Py.concat l = EmptyString).
Proof.
  intros H. destruct s as [|c s]; [discriminate|].
  rewrite chars_cons in H.
  destruct (scan_split s (Py.trail c)) as (t & r & Hs & Hscan & Hc & Hl & Hstop).
  rewrite Hscan in H. cbn [fst snd] in H. injection H as <- <-.
  exists c, t. rewrite concat_chars.
  repeat split; auto. rewrite append_cons, <- Hs. reflexivity.
Qed.

Lemma chars_not_empty s : ~ In EmptyString (Py.chars s).
Proof.
  remember (Py.chars s) as l eqn:E. revert s E.
  induction l as [|x l IH]; intros s E; [intros []|].
  symmetry in E. destruct (chars_inv s x l E) as (c & t & -> & _ & _ & _ & Hl & _).
  intros [H|H]; [discriminate|]. apply (IH (Py.concat l)); auto.
Qed.

Lemma starts_plain_app a b :
  starts_plain a = true -> starts_plain (a +:+ b) = true.
Proof. destruct a; [discriminate | auto]. Qed.

Lemma starts_plain_concat x l :
  x <> EmptyString -> starts_plain (Py.concat (x :: l)) = starts_plain x.
Proof. destruct x; [congruence | reflexivity]. Qed.

(** A list of code points read again gives the same code points, and so
    do its parts. *)
Lemma chars_app_inv l1 : forall s l2,
  Py.chars s = l1 ++ l2 ->
  Py.chars (Py.concat l1) = l1 /\ Py.chars (Py.concat l2) = l2.
Proof.
  induction l1 as [|x l1 IH]; intros s l2 H.
  - split; [reflexivity|]. cbn [app] in H. subst l2.
    rewrite concat_chars. reflexivity.
  - cbn [app] in H.
    destruct (chars_inv s x _ H) as (c & t & -> & Hc & Hl & Hs & Hrest & Hstop).
    destruct (IH _ _ Hrest) as [H1 H2]. split; [|exact H2].
    rewrite concat_cons. rewrite chars_char; [rewrite H1; reflexivity | auto | auto |].
    destruct Hstop as [Hstop|[Hstop|Hstop]]; [left; exact Hstop | |].
    + destruct l1 as [|y l1]; [right; right; reflexivity|].
      right. left. rewrite concat_app in Hstop.
      assert (Hy : y <> EmptyString).
      { intros ->. apply (chars_not_empty (Py.concat ((EmptyString :: l1) ++ l2))).
        rewrite Hrest. left. reflexivity. }
      destruct y as [|cy y]; [congruence|]. exact Hstop.
    + rewrite Hstop in Hrest. cbn in Hrest.
      destruct l1; [right; right; reflexivity | discriminate].
Qed.

Lemma chars_take n s :
  Py.chars (Py.concat (firstn n (Py.chars s))) = firstn n (Py.chars s).
Proof.
  apply (chars_app_inv _ s (skipn n (Py.chars s))).
  symmetry. apply firstn_skipn.
Qed.

(** Reading [a +:+ b] is reading [a], then [b], when [b] starts a code
    point of its own: when it does not start with a continuation byte, ... *)
Lemma chars_app_plain b : forall l a,
  Py.chars a = l -> starts_plain b = true ->
  Py.chars (a +:+ b) = l ++ Py.chars b.
Proof.
  induction l as [|x l IH]; intros a Ha Hb.
  - apply chars_nil_inv in Ha. subst a. reflexivity.
  - destruct (chars_inv a x l Ha) as (c & t & -> & Hc & Hl & Hs & Hrest & Hstop).
    rewrite Hs, str_append_assoc, chars_char; auto.
    + rewrite (IH _ Hrest Hb). reflexivity.
    + destruct Hstop as [H|[H|H]]; [left; exact H | |].
      * right. left. apply starts_plain_app. exact H.
      * right. left. rewrite H. exact Hb.
Qed.

Lemma chars_single c : Py.trail c = 0%nat ->
  forall r, Py.chars (String c r) = String c EmptyString :: Py.chars r.
Proof.
  intros H r. change (String c r) with (String c EmptyString +:+ r).
  apply chars_char; [reflexivity | cbn; lia | left; cbn; lia].
Qed.

Lemma ascii_trail c : (N_of_ascii c <? 128)%N = true ->
  Py.trail c = 0%nat /\ Py.is_cont c = false.
Proof.
  intros H. apply N.ltb_lt in H. unfold Py.trail, Py.is_cont.
  split.
  - destruct (N.ltb_spec (N_of_ascii c) 192); [reflexivity | lia].
  - destruct (N.leb_spec 128 (N_of_ascii c)); [lia | reflexivity].
Qed.

Lemma ends_ascii_inv s : ends_ascii s = true ->
  exists a c, s = a +:+ String c EmptyString /\ (N_of_ascii c <? 128)%N = true.
Proof.
  induction s as [|c s IH]; [discriminate|]. cbn [ends_ascii].
  destruct s as [|d s].
  - intros H. exists EmptyString, c. split; [reflexivity | exact H].
  - intros H. destruct (IH H) as (a & e & Hs & He).
    exists (String c a), e. rewrite append_cons, <- Hs. auto.
Qed.

(** ... or when [a] ends with an ASCII byte. *)
Lemma chars_app_ascii a b :
  ends_ascii a = true -> Py.chars (a +:+ b) = Py.chars a ++ Py.chars b.
Proof.
  intros H. destruct (ends_ascii_inv a H) as (a' & c & -> & Hc).
  destruct (ascii_trail c Hc) as [Ht Hn].
  rewrite str_append_assoc, append_cons, append_nil.
  rewrite (chars_app_plain (String c b) (Py.chars a') a' eq_refl)
    by (cbn [starts_plain]; rewrite Hn; reflexivity).
  rewrite (chars_app_plain (String c EmptyString) (Py.chars a') a' eq_refl)
    by (cbn [starts_plain]; rewrite Hn; reflexivity).
  rewrite (chars_single c Ht b), (chars_single c Ht EmptyString).
  rewrite <- app_assoc. reflexivity.
Qed.

End CodePoints.

(** ** Words of a string *)

Section Words.

Lemma split_acc_length l : forall w,
  ~ In EmptyString l ->
  length (Py.split_acc w l) = count_words (Py.truthy w) l.
Proof.
  induction l as [|ch l IH]; intros w Hl; cbn [Py.split_acc count_words].
  - destruct (Py.truthy w); reflexivity.
  - assert (Hl' : ~ In EmptyString l) by (intros H; apply Hl; right; exact H).
    destruct (Py.isspace ch).
    + destruct (Py.truthy w); cbn [length]; rewrite IH by exact Hl'; reflexivity.
    + rewrite IH by exact Hl'. rewrite truthy_app_r; [reflexivity|].
      destruct ch; [exfalso; apply Hl; left; reflexivity | reflexivity].
Qed.

Lemma word_count_count s :
  Py.word_count s = Z.of_nat (count_words false (Py.chars s)).
Proof.
  unfold Py.word_count, Py.split. rewrite split_acc_length; [reflexivity|].
  apply chars_not_empty.
Qed.

Lemma count_words_inword l : (count_words false l <= count_words true l)%nat.
Proof. destruct l as [|c l]; cbn; [lia|]. destruct (Py.isspace c); lia. Qed.

Lemma count_words_true_pos l : (1 <= count_words true l)%nat.
Proof.
  induction l as [|c l IH]; cbn [count_words]; [lia|].
  destruct (Py.isspace c); lia.
Qed.

(** Code points put after a list never remove a word of it. *)
Lemma count_words_app_l l1 l2 : forall b,
  (count_words b l1 <= count_words b (l1 ++ l2))%nat.
Proof.
  induction l1 as [|c l1 IH]; intros b; cbn [app count_words].
  - destruct b; [apply count_words_true_pos | lia].
  - destruct (Py.isspace c).
    + specialize (IH false). destruct b; lia.
    + apply IH.
Qed.

(** Code points put before a list never remove a word of it. *)
Lemma count_words_app_r l1 l2 : forall b,
  (count_words false l2 <= count_words b (l1 ++ l2))%nat.
Proof.
  induction l1 as [|c l1 IH]; intros b; cbn [app count_words].
  - destruct b; [apply count_words_inword | lia].
  - destruct (Py.isspace c).
    + specialize (IH false). destruct b; lia.
    + apply IH.
Qed.

Lemma word_count_truthy s : 0 < Py.word_count s -> Py.truthy s = true.
Proof. destruct s; [intros H; vm_compute in H; discriminate | reflexivity]. Qed.

Lemma isspace_space : Py.isspace " " = true.
Proof. reflexivity. Qed.

(** Code points that are not blanks go to the word being read. *)
Lemma split_acc_word lw : forall w rest,
  forallb (fun ch => negb (Py.isspace ch)) lw = true ->
  Py.split_acc w (lw ++ rest) = Py.split_acc (w +:+ Py.concat lw) rest.
Proof.
  induction lw as [|ch lw IH]; intros w rest H.
  - cbn [app Py.concat fold_right]. rewrite append_nil_r. reflexivity.
  - cbn [forallb] in H. apply andb_true_iff in H as [H1 H2].
    apply negb_true_iff in H1. cbn [app Py.split_acc]. rewrite H1.
    rewrite (IH _ _ H2), concat_cons, str_append_assoc. reflexivity.
Qed.

(** [split] undoes [' '.join] on words. *)
Lemma split_join ws :
  forallb is_word ws = true -> Py.split (Py.join " " ws) = ws.
Proof.
  unfold Py.split. induction ws as [|w ws IH]; [reflexivity|].
  cbn [forallb]. intros H. apply andb_true_iff in H as [Hw Hws].
  unfold is_word in Hw. apply andb_true_iff in Hw as [Hw1 Hw2].
  destruct ws as [|w2 ws].
  - cbn [Py.join]. rewrite <- (app_nil_r (Py.chars w)).
    rewrite (split_acc_word _ _ _ Hw2), append_nil, concat_chars.
    cbn [Py.split_acc]. rewrite Hw1. reflexivity.
  - change (Py.join " " (w :: w2 :: ws))
      with (w +:+ String " " (Py.join " " (w2 :: ws))).
    rewrite (chars_app_plain _ (Py.chars w) w eq_refl) by reflexivity.
    rewrite (chars_single " "%char eq_refl).
    rewrite (split_acc_word _ _ _ Hw2), append_nil, concat_chars.
    cbn [Py.split_acc]. rewrite isspace_space, Hw1.
    rewrite (IH Hws). reflexivity.
Qed.

End Words.

(** ** Stripping *)

Section Strip.

Lemma lstrip_chars_suffix l : exists l0, l = l0 ++ Py.lstrip_chars l.
Proof.
  induction l as [|ch l IH]; [exists []; reflexivity|]. cbn [Py.lstrip_chars].
  destruct (Py.isspace ch).
  - destruct IH as [l0 IH]. exists (ch :: l0). cbn [app]. rewrite <- IH. reflexivity.
  - exists []. reflexivity.
Qed.

Lemma rstrip_chars_prefix l : exists l1, l = Py.rstrip_chars l ++ l1.
Proof.
  induction l as [|ch l IH]; [exists []; reflexivity|]. cbn [Py.rstrip_chars].
  destruct IH as [l1 IH]. destruct (Py.rstrip_chars l) as [|y r].
  - destruct (Py.isspace ch).
    + exists (ch :: l). reflexivity.
    + exists l1. cbn [app] in *. rewrite <- IH. reflexivity.
  - exists l1. cbn [app] in *. rewrite <- IH. reflexivity.
Qed.

(** The code points of a stripped string. *)
Lemma chars_strip s :
  Py.chars (Py.strip s) = Py.rstrip_chars (Py.lstrip_chars (Py.chars s)).
Proof.
  unfold Py.strip.
  destruct (lstrip_chars_suffix (Py.chars s)) as [l0 H0].
  destruct (rstrip_chars_prefix (Py.lstrip_chars (Py.chars s))) as [l1 H1].
  destruct (chars_app_inv _ _ _ H0) as [_ H2].
  rewrite H1 in H2 at 2. rewrite H1 in H2 at 1.
  apply (chars_app_inv _ _ _ H2).
Qed.

Lemma lstrip_chars_head l :
  match Py.lstrip_chars l with
  | [] => True
  | ch :: _ => Py.isspace ch = false
  end.
Proof.
  induction l as [|ch l IH]; [exact I|]. cbn [Py.lstrip_chars].
  destruct (Py.isspace ch) eqn:E; [exact IH | exact E].
Qed.

Lemma lstrip_chars_fix l :
  match l with [] => True | ch :: _ => Py.isspace ch = false end ->
  Py.lstrip_chars l = l.
Proof. destruct l as [|ch l]; [reflexivity|]. cbn. intros ->. reflexivity. Qed.

Lemma rstrip_chars_cons ch l :
  Py.rstrip_chars (ch :: l)
  = match Py.rstrip_chars l with
    | [] => if Py.isspace ch then [] else [ch]
    | r => ch :: r
    end.
Proof. reflexivity. Qed.

Lemma rstrip_chars_idem l :
  Py.rstrip_chars (Py.rstrip_chars l) = Py.rstrip_chars l.
Proof.
  induction l as [|ch l IH]; [reflexivity|]. rewrite rstrip_chars_cons.
  destruct (Py.rstrip_chars l) as [|y r] eqn:E.
  - destruct (Py.isspace ch) eqn:Es; [reflexivity|].
    rewrite rstrip_chars_cons. cbn [Py.rstrip_chars]. rewrite Es. reflexivity.
  - rewrite rstrip_chars_cons, IH. reflexivity.
Qed.

Lemma rstrip_chars_head l :
  match l with [] => True | ch :: _ => Py.isspace ch = false end ->
  match Py.rstrip_chars l with [] => l = [] | ch :: _ => Py.isspace ch = false end.
Proof.
  destruct l as [|ch l]; [reflexivity|]. intros H. cbn [Py.rstrip_chars].
  destruct (Py.rstrip_chars l); [rewrite H|]; exact H.
Qed.

(** [strip] changes nothing in what it returned. *)
Lemma strip_idem s : Py.strip (Py.strip s) = Py.strip s.
Proof.
  unfold Py.strip at 1. rewrite chars_strip.
  pose proof (lstrip_chars_head (Py.chars s)) as Hh.
  pose proof (rstrip_chars_head _ Hh) as Hr.
  rewrite (lstrip_chars_fix (Py.rstrip_chars _)).
  - rewrite rstrip_chars_idem. reflexivity.
  - destruct (Py.rstrip_chars (Py.lstrip_chars (Py.chars s))); [exact I | exact Hr].
Qed.

Lemma startswith_app p s : Py.startswith p (p +:+ s) = true.
Proof.
  induction p as [|c p IH]; [reflexivity|].
  rewrite append_cons. cbn [Py.startswith]. rewrite Ascii.eqb_refl. exact IH.
Qed.

Lemma startswith_refl s : Py.startswith s s = true.
Proof. rewrite <- (append_nil_r s) at 2. apply startswith_app. Qed.

Lemma startswith_truthy p s :
  Py.startswith p s = true -> Py.truthy p = true -> Py.truthy s = true.
Proof. destruct p, s; cbn; congruence. Qed.

(** Code points added after a right-stripped list leave it in front. *)
Lemma rstrip_chars_app l : forall rest,
  Py.rstrip_chars l = l ->
  exists r, Py.rstrip_chars (l ++ rest) = l ++ r.
Proof.
  induction l as [|ch l IH]; intros rest H; [eexists; reflexivity|].
  rewrite rstrip_chars_cons in H. cbn [app]. rewrite rstrip_chars_cons.
  destruct (Py.rstrip_chars l) as [|y r] eqn:E.
  - destruct (Py.isspace ch) eqn:Es; [discriminate|].
    injection H as <-. cbn [app].
    destruct (Py.rstrip_chars rest) as [|z q]; eexists; reflexivity.
  - injection H as H. destruct (IH rest) as [q Hq]; [congruence|].
    rewrite Hq. exists q. subst l. reflexivity.
Qed.

(** Text added after a stripped string, when it starts a code point of its
    own, leaves the stripped string in front. *)
Lemma strip_app_startswith x t :
  starts_plain t = true ->
  Py.startswith (Py.strip x) (Py.strip (Py.strip x +:+ t)) = true.
Proof.
  intros Ht. pose proof (chars_strip x) as Hx.
  pose proof (lstrip_chars_head (Py.chars x)) as Hh.
  pose proof (rstrip_chars_head _ Hh) as Hr.
  set (lp := Py.rstrip_chars (Py.lstrip_chars (Py.chars x))) in *.
  unfold Py.strip at 2.
  rewrite (chars_app_plain t lp (Py.strip x) Hx Ht).
  destruct lp as [|ch lp'] eqn:E.
  { replace (Py.strip x) with EmptyString; [reflexivity|].
    symmetry. apply chars_nil_inv. exact Hx. }
  rewrite <- E in *.
  assert (Hl : Py.lstrip_chars (lp ++ Py.chars t) = lp ++ Py.chars t).
  { rewrite E. cbn [app Py.lstrip_chars]. rewrite Hr. reflexivity. }
  rewrite Hl.
  destruct (rstrip_chars_app lp (Py.chars t)) as [r Hrs].
  { subst lp. apply rstrip_chars_idem. }
  rewrite Hrs, concat_app.
  replace (Py.concat lp) with (Py.strip x)
    by (rewrite <- Hx; symmetry; apply concat_chars).
  apply startswith_app.
Qed.

End Strip.

(** ** Lengths and slices *)

Section Slices.

Lemma len_nonneg s : 0 <= Py.len s.
Proof. unfold Py.len. lia. Qed.

Lemma len_app_plain a b :
  starts_plain b = true -> Py.len (a +:+ b) = Py.len a + Py.len b.
Proof.
  intros H. unfold Py.len.
  rewrite (chars_app_plain b _ a eq_refl H), length_app. lia.
Qed.

Lemma len_app_ascii a b :
  ends_ascii a = true -> Py.len (a +:+ b) = Py.len a + Py.len b.
Proof.
  intros H. unfold Py.len. rewrite (chars_app_ascii a b H), length_app. lia.
Qed.

Lemma len_take n s : Py.len (Py.take n s) <= Z.of_nat n.
Proof.
  unfold Py.len, Py.take. rewrite chars_take, length_firstn. lia.
Qed.

Lemma len_take_long n s :
  Z.of_nat n <= Py.len s -> Py.len (Py.take n s) = Z.of_nat n.
Proof.
  unfold Py.len, Py.take. intros H. rewrite chars_take, length_firstn. lia.
Qed.

Lemma take_all n s : Py.len s <= Z.of_nat n -> Py.take n s = s.
Proof.
  unfold Py.len, Py.take. intros H.
  rewrite firstn_all2 by lia. apply concat_chars.
Qed.

Lemma startswith_take n s : Py.startswith (Py.take n s) s = true.
Proof.
  unfold Py.take. rewrite <- (concat_chars s) at 2.
  rewrite <- (firstn_skipn n (Py.chars s)) at 2.
  rewrite concat_app. apply startswith_app.
Qed.

End Slices.

(** ** Lower case *)

Section Lower.

Lemma chr_truthy n : Py.truthy (Py.chr n) = true.
Proof.
  unfold Py.chr.
  destruct (n <? 128)%N; [reflexivity|].
  destruct (n <? 2048)%N; [reflexivity|].
  destruct (n <? 65536)%N; reflexivity.
Qed.

Lemma ord_chr ch n : Py.ord ch = Some n -> Py.chr n = ch.
Proof.
  unfold Py.ord. intros H.
  match type of H with (if String.eqb (Py.chr ?k) ch then _ else _) = _ =>
    destruct (String.eqb_spec (Py.chr k) ch) as [E|E]; [|discriminate];
    injection H as <-; exact E end.
Qed.

Lemma lower_chars_truthy b l :
  ~ In EmptyString l -> l <> [] -> Py.truthy (Py.concat (Py.lower_chars b l)) = true.
Proof.
  destruct l as [|ch l]; [congruence|]. intros Hl _. cbn [Py.lower_chars].
  assert (Hch : Py.truthy ch = true).
  { destruct ch; [exfalso; apply Hl; left; reflexivity | reflexivity]. }
  destruct (Py.ord ch) as [n|]; rewrite concat_cons; apply truthy_app_l; auto.
  destruct (n =? 931)%N; [destruct (_ && _); apply chr_truthy|].
  destruct (n =? 304)%N; [apply truthy_app_l|]; apply chr_truthy.
Qed.

Lemma truthy_lower s : Py.truthy (Py.lower s) = Py.truthy s.
Proof.
  destruct s as [|c s]; [reflexivity|]. unfold Py.lower.
  rewrite lower_chars_truthy; [reflexivity | apply chars_not_empty |].
  apply chars_truthy. reflexivity.
Qed.

(** Every code point that the table gives is left as it is by the
    table. *)
Lemma lower_ranges_settled :
  forallb
    (fun '(first, last, step, target) =>
       negb (step =? 0)%N
       && forallb (fun k => settled (target + N.of_nat k * step))
            (seq 0 (S (N.to_nat ((last - first) / step)))))
    Py.lower_ranges = true.
Proof. vm_compute. reflexivity. Qed.

Lemma lower_in_cases (P : N -> bool) ranges :
  forallb
    (fun '(first, last, step, target) =>
       negb (step =? 0)%N
       && forallb (fun k => P (target + N.of_nat k * step)%N)
            (seq 0 (S (N.to_nat ((last - first) / step)))))
    ranges = true ->
  forall n, Py.lower_in n ranges = n \/ P (Py.lower_in n ranges) = true.
Proof.
  induction ranges as [|[[[first last] step] target] ranges IH]; intros H n;
    [left; reflexivity|].
  cbn [forallb] in H. apply andb_true_iff in H as [H1 H2].
  apply andb_true_iff in H1 as [Hstep Hall].
  apply negb_true_iff, N.eqb_neq in Hstep.
  cbn [Py.lower_in].
  destruct ((first <=? n) && (n <=? last) && ((n - first) mod step =? 0))%N eqn:E;
    [|apply IH; exact H2].
  right. apply andb_true_iff in E as [E E3]. apply andb_true_iff in E as [E1 E2].
  apply N.leb_le in E1, E2. apply N.eqb_eq in E3.
  rewrite forallb_forall in Hall.
  specialize (Hall (N.to_nat ((n - first) / step))).
  rewrite N2Nat.id in Hall.
  replace ((n - first) / step * step)%N with (n - first)%N in Hall.
  - apply Hall. apply in_seq.
    assert (Hk : ((n - first) / step <= (last - first) / step)%N)
      by (apply N.Div0.div_le_mono; lia).
    revert Hk. generalize ((n - first) / step)%N, ((last - first) / step)%N.
    intros a b Hk. lia.
  - pose proof (N.Div0.div_mod (n - first) step). lia.
Qed.

Lemma settled_inv m : settled m = true ->
  m <> 931%N /\ m <> 304%N /\ Py.to_lower m = m /\
  whole_char (Py.chr m) = true /\ Py.ord (Py.chr m) = Some m.
Proof.
  unfold settled. intros H.
  apply andb_true_iff in H as [H H5]. apply andb_true_iff in H as [H H4].
  apply andb_true_iff in H as [H H3]. apply andb_true_iff in H as [H1 H2].
  apply negb_true_iff, N.eqb_neq in H1, H2. apply N.eqb_eq in H3.
  repeat split; auto.
  destruct (Py.ord (Py.chr m)) as [k|]; [|discriminate].
  apply N.eqb_eq in H5. subst k. reflexivity.
Qed.

Lemma whole_char_plain x : whole_char x = true -> starts_plain x = true.
Proof.
  destruct x as [|c t]; [discriminate|]. cbn [whole_char starts_plain].
  intros H. apply andb_true_iff in H as [H _]. apply andb_true_iff in H as [H _].
  exact H.
Qed.

(** The bytes of a whole code point are one code point, whatever
    follows. *)
Lemma chars_whole x r :
  whole_char x = true -> Py.chars (x +:+ r) = x :: Py.chars r.
Proof.
  destruct x as [|c t]; [discriminate|]. cbn [whole_char]. intros H.
  apply andb_true_iff in H as [H H3]. apply andb_true_iff in H as [_ H2].
  apply Nat.eqb_eq in H3. apply chars_char; [exact H2 | lia | left; exact H3].
Qed.

Lemma kept_fixed l : Forall kept l -> forall b, Py.lower_chars b l = l.
Proof.
  induction 1 as [|ch l Hch _ IH]; intros b; [reflexivity|].
  cbn [Py.lower_chars]. unfold kept in Hch.
  destruct (Py.ord ch) as [n|] eqn:E.
  - destruct Hch as (H1 & H2 & H3).
    apply N.eqb_neq in H1, H2. rewrite H1, H2, H3, IH.
    rewrite (ord_chr _ _ E). reflexivity.
  - rewrite IH. reflexivity.
Qed.

Lemma settled_kept m : settled m = true -> kept (Py.chr m).
Proof.
  intros H. destruct (settled_inv m H) as (H1 & H2 & H3 & _ & H5).
  unfold kept. rewrite H5. auto.
Qed.

(** What [lower] gives is made of code points that it leaves alone. *)
Lemma lower_chars_settles l :
  Py.chars (Py.concat l) = l ->
  forall b,
    Forall kept (Py.chars (Py.concat (Py.lower_chars b l))) /\
    (starts_plain (Py.concat l) = true ->
     starts_plain (Py.concat (Py.lower_chars b l)) = true).
Proof.
  induction l as [|ch l IH]; intros Hl b; [split; [constructor | auto]|].
  destruct (chars_inv _ _ _ Hl) as (c & t & Hch & Hc & Hlen & _ & Hrest & Hstop).
  cbn [Py.lower_chars].
  assert (Hout : forall out b2,
            (out = ch \/ exists m, out = Py.chr m /\ settled m = true) ->
            (out = ch -> kept ch) ->
            Forall kept (Py.chars (Py.concat (out :: Py.lower_chars b2 l))) /\
            (starts_plain (Py.concat (ch :: l)) = true ->
             starts_plain (Py.concat (out :: Py.lower_chars b2 l)) = true)).
  { intros out b2 Hcase Hkept. destruct (IH Hrest b2) as [IH1 IH2].
    rewrite concat_cons. destruct Hcase as [->|(m & -> & Hm)].
    - split.
      + rewrite Hch, chars_char; auto.
        * constructor; [rewrite <- Hch; apply Hkept; reflexivity | exact IH1].
        * destruct Hstop as [H|[H|H]]; [left; exact H | right; left; auto |].
          right. right. rewrite H in Hrest. cbn in Hrest. subst l. reflexivity.
      + rewrite concat_cons, Hch. cbn [append starts_plain]. auto.
    - destruct (settled_inv m Hm) as (_ & _ & _ & Hw & _). split.
      + rewrite chars_whole by exact Hw.
        constructor; [apply settled_kept; exact Hm | exact IH1].
      + intros _. apply starts_plain_app, whole_char_plain. exact Hw. }
  destruct (Py.ord ch) as [n|] eqn:E.
  2:{ apply Hout; [left; reflexivity|]. intros _. unfold kept. rewrite E. exact I. }
  destruct (n =? 931)%N eqn:E1.
  { destruct (b && negb (Py.followed_by_cased l)); apply Hout;
      try (right; eexists; split; [reflexivity | vm_compute; reflexivity]);
      intros Hx; exfalso; apply N.eqb_eq in E1; subst n;
      apply ord_chr in E; rewrite <- E in Hx; vm_compute in Hx; discriminate. }
  destruct (n =? 304)%N eqn:E2.
  { destruct (IH Hrest (if Py.case_ignorable n then b else Py.cased n)) as [IH1 IH2].
    rewrite concat_cons, str_append_assoc.
    rewrite (chars_whole (Py.chr 105)) by reflexivity.
    rewrite (chars_whole (Py.chr 775)) by reflexivity.
    split.
    - constructor; [apply (settled_kept 105); vm_compute; reflexivity|].
      constructor; [apply (settled_kept 775); vm_compute; reflexivity | exact IH1].
    - intros _. reflexivity. }
  apply N.eqb_neq in E1, E2.
  destruct (lower_in_cases settled _ lower_ranges_settled n) as [H|H];
    fold (Py.to_lower n) in H.
  - rewrite H, (ord_chr _ _ E). apply Hout; [left; reflexivity|].
    intros _. unfold kept. rewrite E. auto.
  - apply Hout; [right; eexists; split; [reflexivity | exact H]|].
    intros Hx. unfold kept. rewrite E.
    destruct (settled_inv _ H) as (_ & _ & H3 & _ & H5).
    rewrite Hx, E in H5. injection H5 as H5. rewrite H5 in H3. rewrite <- H5. auto.
Qed.

(** [lower] changes nothing in what it returned. *)
Lemma lower_idem s : Py.lower (Py.lower s) = Py.lower s.
Proof.
  unfold Py.lower at 1.
  destruct (lower_chars_settles (Py.chars s)) with (b := false) as [H _].
  { rewrite concat_chars. reflexivity. }
  fold (Py.lower s) in H. rewrite (kept_fixed _ H). apply concat_chars.
Qed.

End Lower.

(** ** Words of the fallback story *)

Section FallbackWords.

Lemma fallback_middle_words :
  count_words false (Py.chars Ollama.fallback_middle) = 145%nat.
Proof. vm_compute. reflexivity. Qed.

Lemma fallback_story_words prompt :
  100 < Py.word_count (Ollama._generate_fallback_story prompt).
Proof.
  rewrite word_count_count. unfold Ollama._generate_fallback_story.
  rewrite (chars_app_ascii Ollama.fallback_head) by reflexivity.
  rewrite (chars_app_plain _ _ (Py.lower prompt) eq_refl) by reflexivity.
  rewrite (chars_app_ascii Ollama.fallback_middle) by (vm_compute; reflexivity).
  pose proof (count_words_app_r (Py.chars Ollama.fallback_head)
    (Py.chars (Py.lower prompt) ++ Py.chars Ollama.fallback_middle
     ++ Py.chars (Py.lower prompt +:+ Ollama.fallback_tail)) false) as H1.
  pose proof (count_words_app_r (Py.chars (Py.lower prompt))
    (Py.chars Ollama.fallback_middle
     ++ Py.chars (Py.lower prompt +:+ Ollama.fallback_tail)) false) as H2.
  pose proof (count_words_app_l (Py.chars Ollama.fallback_middle)
    (Py.chars (Py.lower prompt +:+ Ollama.fallback_tail)) false) as H3.
  rewrite fallback_middle_words in H3. lia.
Qed.

End FallbackWords.

(** ** Rules for running statements *)

Section Rules.

Context {A B : Type}.

Lemma wp_ret (a : A) st Q : Q (Return a) st -> wp (ret a) st Q.
Proof. exact (fun H => H). Qed.

Lemma wp_raise e st (Q : Outcome A -> St -> Prop) :
  Q (Raise e) st -> wp (raise e) st Q.
Proof. exact (fun H => H). Qed.

Lemma wp_bind (m : M A) (k : A -> M B) st Q :
  wp m st (fun o st' =>
             match o with
             | Return a => wp (k a) st' Q
             | Raise e => Q (Raise e) st'
             end) ->
  wp (bind m k) st Q.
Proof.
  unfold wp, bind. destruct (m st) as [[a|e] st']; simpl; auto.
Qed.

Lemma wp_try (m : M A) (h : string -> M A) st Q :
  wp m st (fun o st' =>
             match o with
             | Return a => Q (Return a) st'
             | Raise e => wp (h e) st' Q
             end) ->
  wp (try_except m h) st Q.
Proof.
  unfold wp, try_except. destruct (m st) as [[a|e] st']; simpl; auto.
Qed.

Lemma wp_eq (m : M A) st o st' (Q : Outcome A -> St -> Prop) :
  m st = (o, st') -> Q o st' -> wp m st Q.
Proof. unfold wp. intros ->. auto. Qed.

Lemma wp_rw (m : M A) st r (Q : Outcome A -> St -> Prop) :
  m st = r -> Q (fst r) (snd r) -> wp m st Q.
Proof. unfold wp. intros ->. auto. Qed.

Lemma wp_mono (m : M A) st (Q Q' : Outcome A -> St -> Prop) :
  wp m st Q -> (forall o st', Q o st' -> Q' o st') -> wp m st Q'.
Proof. unfold wp. auto. Qed.

End Rules.

Lemma wp_assign f st Q :
  Q (Return tt) {| story := f (story st); world := world st |} ->
  wp (assign f) st Q.
Proof. exact (fun H => H). Qed.

Lemma wp_emit ev st Q : Q (Return tt) (after_event st ev) -> wp (emit ev) st Q.
Proof. exact (fun H => H). Qed.

Lemma wp_get_story st Q : Q (Return (story st)) st -> wp get_story st Q.
Proof. exact (fun H => H). Qed.

Lemma wp_get_world st Q : Q (Return (world st)) st -> wp get_world st Q.
Proof. exact (fun H => H). Qed.

(** ** The language-model wrapper *)

Section OllamaFacts.

Variable env : Env.

Lemma init_eq st :
  Ollama.__init__ env st =
  (Return {| Ollama.ollama_host := Ollama.DEFAULT_HOST;
             Ollama.story_model := Ollama.DEFAULT_MODEL;
             Ollama.available :=
               tags_available Ollama.DEFAULT_MODEL
                 (http_get_tags env (trace (world st))) |},
   after_event st (EvHttpGet (Ollama.DEFAULT_HOST +:+ "/api/tags"))).
Proof.
  unfold Ollama.__init__, Ollama._check_ollama_availability,
    Ollama.requests_get_tags, Ollama.decoded, tags_available,
    bind, try_except, ret, raise, get_world, emit, after_event.
  simpl. destruct (http_get_tags env (trace (world st))) as [e|code names];
    simpl; [reflexivity|].
  destruct (code =? 200); [|reflexivity]. destruct names; reflexivity.
Qed.

Lemma call_ollama_eq self system_prompt user_prompt st :
  Ollama._call_ollama env self system_prompt user_prompt st =
  (Return (call_result
             (http_post env (trace (world st))
                (chat_payload self system_prompt user_prompt))),
   after_event st (chat_event self system_prompt user_prompt)).
Proof.
  unfold Ollama._call_ollama, Ollama.requests_post, Ollama.decoded,
    call_result, chat_event, chat_payload,
    bind, try_except, ret, raise, get_world, emit, after_event.
  simpl.
  destruct (http_post env (trace (world st)) _) as [e|code content];
    simpl; [reflexivity|].
  destruct (code =? 200); [|reflexivity]. destruct content; reflexivity.
Qed.

Lemma generate_story_eq self user_prompt length st :
  Ollama.generate_story env self user_prompt length st =
  if Ollama.available self
  then
    let story :=
      call_result
        (http_post env (trace (world st))
           (chat_payload self (Ollama.story_system_prompt length)
              (Ollama.story_full_prompt user_prompt))) in
    (Return (if Py.truthy story && (100 <? Py.word_count story)
             then story else Ollama._generate_fallback_story user_prompt),
     after_event st
       (chat_event self (Ollama.story_system_prompt length)
          (Ollama.story_full_prompt user_prompt)))
  else (Return (Ollama._generate_fallback_story user_prompt), st).
Proof.
  unfold Ollama.generate_story. destruct (Ollama.available self); simpl;
    [|reflexivity].
  unfold try_except, bind. rewrite call_ollama_eq. cbv zeta.
  destruct (_ && _); reflexivity.
Qed.

Lemma generate_character_description_eq self story st :
  Ollama.generate_character_description env self story st =
  if Ollama.available self
  then
    let description :=
      call_result
        (http_post env (trace (world st))
           (chat_payload self Ollama.character_system_prompt
              (Ollama.character_user_prompt story))) in
    (Return (if Py.truthy description then description
             else Ollama._fallback_character_description story),
     after_event st
       (chat_event self Ollama.character_system_prompt
          (Ollama.character_user_prompt story)))
  else (Return (Ollama._fallback_character_description story), st).
Proof.
  unfold Ollama.generate_character_description.
  destruct (Ollama.available self); simpl; [|reflexivity].
  unfold try_except, bind. rewrite call_ollama_eq. reflexivity.
Qed.

Lemma generate_scene_description_eq self story st :
  Ollama.generate_scene_description env self story st =
  if Ollama.available self
  then
    let description :=
      call_result
        (http_post env (trace (world st))
           (chat_payload self Ollama.scene_system_prompt
              (Ollama.scene_user_prompt story))) in
    (Return (if Py.truthy description then description
             else Ollama._fallback_scene_description story),
     after_event st
       (chat_event self Ollama.scene_system_prompt
          (Ollama.scene_user_prompt story)))
  else (Return (Ollama._fallback_scene_description story), st).
Proof.
  unfold Ollama.generate_scene_description.
  destruct (Ollama.available self); simpl; [|reflexivity].
  unfold try_except, bind. rewrite call_ollama_eq. reflexivity.
Qed.

Lemma failed_call_result o : failed_call o = true -> call_result o = EmptyString.
Proof.
  destruct o as [e|code content]; simpl; [reflexivity|].
  destruct (code =? 200); [discriminate | reflexivity].
Qed.

End OllamaFacts.

Lemma posts_app tr evs : posts (tr ++ evs) = (posts tr + posts evs)%nat.
Proof. unfold posts. rewrite filter_app, length_app. reflexivity. Qed.

Lemma transcriptions_app tr evs :
  transcriptions (tr ++ evs) = (transcriptions tr + transcriptions evs)%nat.
Proof. unfold transcriptions. rewrite filter_app, length_app. reflexivity. Qed.

(** ** Saving the record *)

Section SaveFacts.

Import Models.

Variable env : Env.

Lemma save_returns st : Views.save env st = (Return tt, after_save env st).
Proof.
  unfold after_save, Views.save, Views.commit_audio_file, Views.write_row,
    new_uuid, write_file, bind, ret, assign, get_story, get_world, emit.
  simpl. destruct (audio_file (update_word_count (story st))); reflexivity.
Qed.

(** Saving changes at most the word count and the audio field. *)
Lemma after_save_story st :
  exists a,
    story (after_save env st) = set_audio_file a (update_word_count (story st)).
Proof.
  unfold after_save, Views.save, Views.commit_audio_file, Views.write_row,
    new_uuid, write_file, bind, ret, assign, get_story, get_world, emit.
  simpl. destruct (update_word_count (story st)) eqn:E. simpl.
  destruct audio_file0; simpl; eexists; reflexivity.
Qed.

Lemma update_word_count_eq s :
  story_word_count (update_word_count s) =
  if Py.truthy (story_text s) then Py.word_count (story_text s)
  else story_word_count s.
Proof. unfold update_word_count. destruct (Py.truthy (story_text s)); reflexivity. Qed.

Lemma after_save_row st :
  db (world (after_save env st)) =
  <[id (story (after_save env st)) := story (after_save env st)]> (db (world st)).
Proof.
  unfold after_save, Views.save, Views.commit_audio_file, Views.write_row,
    new_uuid, write_file, bind, ret, assign, get_story, get_world, emit.
  simpl. destruct (audio_file (update_word_count (story st))); reflexivity.
Qed.

Lemma after_save_files st p :
  is_Some (files (world st) !! p) ->
  is_Some (files (world (after_save env st)) !! p).
Proof.
  unfold after_save, Views.save, Views.commit_audio_file, Views.write_row,
    new_uuid, write_file, bind, ret, assign, get_story, get_world, emit.
  simpl. destruct (audio_file (update_word_count (story st))); simpl; auto.
  intros H. rewrite lookup_insert. case_decide; [eauto | exact H].
Qed.

Lemma after_save_trace st :
  exists evs,
    trace (world (after_save env st)) = trace (world st) ++ evs /\
    posts evs = 0%nat /\ transcriptions evs = 0%nat.
Proof.
  unfold after_save, Views.save, Views.commit_audio_file, Views.write_row,
    new_uuid, write_file, bind, ret, assign, get_story, get_world, emit.
  simpl. destruct (audio_file (update_word_count (story st))); simpl.
  - exists []. rewrite app_nil_r. auto.
  - eexists [_]. split; [reflexivity | split; reflexivity].
  - exists []. rewrite app_nil_r. auto.
Qed.

End SaveFacts.

Lemma after_save_text (env : Env) st :
  Models.story_text (story (after_save env st)) = Models.story_text (story st).
Proof.
  destruct (after_save_story env st) as [a Ha]. rewrite Ha.
  unfold Models.update_word_count.
  destruct (Py.truthy (Models.story_text (story st))); reflexivity.
Qed.

Lemma after_save_count (env : Env) st :
  Models.story_word_count (story (after_save env st)) =
  if Py.truthy (Models.story_text (story st))
  then Py.word_count (Models.story_text (story st))
  else Models.story_word_count (story st).
Proof.
  destruct (after_save_story env st) as [a Ha]. rewrite Ha. simpl.
  apply update_word_count_eq.
Qed.

Lemma join_words_truthy ws :
  ws <> [] -> forallb is_word ws = true -> Py.truthy (Py.join " " ws) = true.
Proof.
  destruct ws as [|w ws]; [congruence|]. intros _ H.
  cbn [forallb] in H. apply andb_true_iff in H as [Hw _].
  apply andb_true_iff in Hw as [Hw _].
  destruct ws; cbn [Py.join]; [exact Hw | apply truthy_app_l, Hw].
Qed.

(** C8: after [StoryGeneration.save], [story_word_count] is
    [len(story_text.split())] when [story_text] is not empty and is what it
    was before when [story_text] is empty; the row written is the object.
    A count that no longer matches the text can therefore stay: when the
    text is emptied after a save and the record is saved again, the count
    is still the one of the first save.  [len(story_text.split())] is the
    number of whitespace-separated words: the number of maximal runs of
    characters that are not blanks, the blanks being those of Unicode; for
    a text made of words joined by single spaces, [split] gives these
    words back and the count is their number. *)
Theorem save_word_count (env : Env) (st : St) :
  let s := story st in
  let st1 := after_save env st in
  let cleared := {| story := Models.set_story_text EmptyString (story st1);
                    world := world st1 |} in
  fst (Views.save env st) = Return tt /\
  Models.story_text (story st1) = Models.story_text s /\
  Models.story_word_count (story st1) =
    (if Py.truthy (Models.story_text s)
     then Py.word_count (Models.story_text (story st1))
     else Models.story_word_count s) /\
  db (world st1) !! Models.id (story st1) = Some (story st1) /\
  Models.story_word_count (story (after_save env cleared)) =
    Models.story_word_count (story st1) /\
  Py.word_count (Models.story_text s)
    = Z.of_nat (count_words false (Py.chars (Models.story_text s))) /\
  (forall ws,
     forallb is_word ws = true ->
     Models.story_text s = Py.join " " ws ->
     Py.split (Models.story_text s) = ws /\
     (ws <> [] -> Models.story_word_count (story st1) = Z.of_nat (length ws))) /\
  Py.split ("a" +:+ Py.chr 160 +:+ "b" +:+ Py.chr 8195 +:+ Py.nl +:+ "c")
    = ["a"; "b"; "c"].
Proof.
  intros s st1 cleared. subst s st1 cleared.
  split; [rewrite save_returns; reflexivity|].
  split; [apply after_save_text|].
  split; [rewrite after_save_text; apply after_save_count|].
  split; [rewrite after_save_row; apply lookup_insert_eq|].
  split; [rewrite after_save_count; reflexivity|].
  split; [apply word_count_count|].
  split; [|vm_compute; reflexivity].
  intros ws Hws Htext.
  assert (Hsplit : Py.split (Models.story_text (story st)) = ws)
    by (rewrite Htext; apply split_join, Hws).
  split; [exact Hsplit|]. intros Hne.
  rewrite after_save_count, Htext, (join_words_truthy ws Hne Hws), <- Htext.
  unfold Py.word_count. rewrite Hsplit. reflexivity.
Qed.

(** ** The image generator without a GPU *)

Section GpuFacts.

Variable env : Env.

Lemma gradient_size lo count width color img :
  PIL.size (Gpu.gradient lo count width color img) = PIL.size img.
Proof.
  unfold Gpu.gradient. revert img.
  induction (seq lo count) as [|y ys IH]; intros img; simpl; [reflexivity|].
  rewrite IH. reflexivity.
Qed.

Lemma character_placeholder_size description :
  exists im,
    Gpu._create_artistic_character_placeholder env description = PIL.PngOf im /\
    PIL.size im = (512, 512).
Proof.
  unfold Gpu._create_artistic_character_placeholder. cbv zeta.
  eexists. split; [reflexivity|]. cbn [PIL.size].
  rewrite gradient_size. reflexivity.
Qed.

Lemma background_placeholder_size description :
  exists im,
    Gpu._create_artistic_background_placeholder env description = PIL.PngOf im /\
    PIL.size im = (768, 512).
Proof.
  unfold Gpu._create_artistic_background_placeholder. cbv zeta.
  eexists. split; [reflexivity|]. cbn [PIL.size].
  rewrite !gradient_size. reflexivity.
Qed.

Lemma placeholder_size text width height :
  exists im,
    placeholder_png env text width height = PIL.PngOf im /\
    PIL.size im = (width, height).
Proof.
  unfold placeholder_png.
  destruct (textbbox env text) as [[[[b0 b1] b2] b3]|];
    eexists; (split; [reflexivity|]); reflexivity.
Qed.

End GpuFacts.

(** C2: when the [available] flag of a generator is false,
    [generate_story] returns the template story built from the lowercased
    prompt, and [generate_character_image] and [generate_background_image]
    return the PNG of the 512x512 and of the 768x512 placeholder, which
    depend neither on the description nor on the style; none of them raises
    and none of them touches the outside world. *)
Theorem unavailable_services_fall_back (env : Env) (st : St)
    (self : Ollama.OllamaStoryGenerator) (g : Gpu.GPUImageGenerator)
    (user_prompt length description style : string) :
  Ollama.available self = false ->
  Gpu.available g = false ->
  Ollama.generate_story env self user_prompt length st =
    (Return (Ollama.fallback_head +:+ Py.lower user_prompt
             +:+ Ollama.fallback_middle +:+ Py.lower user_prompt
             +:+ Ollama.fallback_tail), st) /\
  Gpu.generate_character_image env g description style st =
    (Return (Gpu._create_artistic_character_placeholder env EmptyString, g), st) /\
  Gpu.generate_background_image env g description style st =
    (Return (Gpu._create_artistic_background_placeholder env EmptyString, g), st) /\
  (exists im,
     Gpu._create_artistic_character_placeholder env EmptyString = PIL.PngOf im /\
     PIL.size im = (512, 512)) /\
  (exists im,
     Gpu._create_artistic_background_placeholder env EmptyString = PIL.PngOf im /\
     PIL.size im = (768, 512)).
Proof.
  intros Hs Hg.
  split; [rewrite generate_story_eq, Hs; reflexivity|].
  split.
  { unfold Gpu.generate_character_image, Gpu.ready, bind, ret.
    rewrite Hg. reflexivity. }
  split.
  { unfold Gpu.generate_background_image, Gpu.ready, bind, ret.
    rewrite Hg. reflexivity. }
  split; [apply character_placeholder_size | apply background_placeholder_size].
Qed.

Lemma unavailable_services_fall_back_witness :
  Ollama.available Sample.generator_off = false /\
  Gpu.available (Gpu.__init__ Sample.offline) = false /\
  Ollama.generate_story Sample.offline Sample.generator_off
    "A Knight" "short" Sample.fresh =
    (Return (Ollama.fallback_head +:+ "a knight" +:+ Ollama.fallback_middle
             +:+ "a knight" +:+ Ollama.fallback_tail), Sample.fresh) /\
  Ollama.generate_story Sample.offline Sample.generator_off
    "L'ÉCOLE DE ΣΟΦΟΣ" "short" Sample.fresh =
    (Return (Ollama.fallback_head +:+ "l'école de σοφος" +:+ Ollama.fallback_middle
             +:+ "l'école de σοφος" +:+ Ollama.fallback_tail), Sample.fresh).
Proof.
  split; [reflexivity|]. split; [reflexivity|].
  split.
  - exact (proj1 (unavailable_services_fall_back Sample.offline Sample.fresh
                    Sample.generator_off (Gpu.__init__ Sample.offline)
                    "A Knight" "short" "a hero" "fantasy" eq_refl eq_refl)).
  - assert (L : Py.lower "L'ÉCOLE DE ΣΟΦΟΣ" = "l'école de σοφος")
      by (vm_compute; reflexivity).
    rewrite <- L.
    exact (proj1 (unavailable_services_fall_back Sample.offline Sample.fresh
                    Sample.generator_off (Gpu.__init__ Sample.offline)
                    "L'ÉCOLE DE ΣΟΦΟΣ" "short" "a hero" "fantasy"
                    eq_refl eq_refl)).
Defined.

(** C9: [generate_story] always returns, and what it returns has more than
    100 whitespace-separated words: it is either the answer of Ollama,
    kept only when it has more than 100 words, or the template story. *)
Theorem generate_story_word_count (env : Env)
    (self : Ollama.OllamaStoryGenerator) (user_prompt length : string) (st : St) :
  exists story,
    fst (Ollama.generate_story env self user_prompt length st) = Return story /\
    100 < Py.word_count story /\
    (story = Ollama._generate_fallback_story user_prompt \/
     Ollama.available self = true /\
     story = call_result
               (http_post env (trace (world st))
                  (chat_payload self (Ollama.story_system_prompt length)
                     (Ollama.story_full_prompt user_prompt)))).
Proof.
  rewrite generate_story_eq. destruct (Ollama.available self); cbv zeta.
  - destruct (Py.truthy _ && (100 <? _)) eqn:E; eexists;
      (split; [reflexivity|]).
    + apply andb_prop in E as [_ E]. apply Z.ltb_lt in E. auto.
    + split; [apply fallback_story_words | auto].
  - eexists. split; [reflexivity|]. split; [apply fallback_story_words | auto].
Qed.

Lemma posts_after_chat st self system_prompt user_prompt :
  posts (trace (world (after_event st (chat_event self system_prompt user_prompt))))
  = (posts (trace (world st)) + 1)%nat.
Proof. simpl. rewrite posts_app. reflexivity. Qed.

(** C7: each of the three operations sends at most one POST;
    [_call_ollama] sends exactly one and returns the empty string when the
    answer is an exception or a status other than 200; an operation whose
    call failed returns its template output after that single POST. *)
Theorem no_retry (env : Env) (self : Ollama.OllamaStoryGenerator) (st : St)
    (system_prompt user_prompt length story : string) :
  let answer := http_post env (trace (world st)) in
  let sent m := posts (trace (world (snd m))) in
  (sent (Ollama.generate_story env self user_prompt length st)
     <= posts (trace (world st)) + 1)%nat /\
  (sent (Ollama.generate_character_description env self story st)
     <= posts (trace (world st)) + 1)%nat /\
  (sent (Ollama.generate_scene_description env self story st)
     <= posts (trace (world st)) + 1)%nat /\
  snd (Ollama._call_ollama env self system_prompt user_prompt st) =
    after_event st (chat_event self system_prompt user_prompt) /\
  (failed_call (answer (chat_payload self system_prompt user_prompt)) = true ->
   fst (Ollama._call_ollama env self system_prompt user_prompt st) =
     Return EmptyString) /\
  (Ollama.available self = true ->
   failed_call (answer (chat_payload self (Ollama.story_system_prompt length)
                          (Ollama.story_full_prompt user_prompt))) = true ->
   Ollama.generate_story env self user_prompt length st =
     (Return (Ollama._generate_fallback_story user_prompt),
      after_event st (chat_event self (Ollama.story_system_prompt length)
                        (Ollama.story_full_prompt user_prompt)))) /\
  (Ollama.available self = true ->
   failed_call (answer (chat_payload self Ollama.character_system_prompt
                          (Ollama.character_user_prompt story))) = true ->
   Ollama.generate_character_description env self story st =
     (Return (Ollama._fallback_character_description story),
      after_event st (chat_event self Ollama.character_system_prompt
                        (Ollama.character_user_prompt story)))) /\
  (Ollama.available self = true ->
   failed_call (answer (chat_payload self Ollama.scene_system_prompt
                          (Ollama.scene_user_prompt story))) = true ->
   Ollama.generate_scene_description env self story st =
     (Return (Ollama._fallback_scene_description story),
      after_event st (chat_event self Ollama.scene_system_prompt
                        (Ollama.scene_user_prompt story)))).
Proof.
  intros answer sent. subst answer sent. cbv beta.
  rewrite generate_story_eq, generate_character_description_eq,
    generate_scene_description_eq, call_ollama_eq.
  repeat split.
  - destruct (Ollama.available self); cbv zeta; cbn [snd];
      [rewrite posts_after_chat|]; lia.
  - destruct (Ollama.available self); cbv zeta; cbn [snd];
      [rewrite posts_after_chat|]; lia.
  - destruct (Ollama.available self); cbv zeta; cbn [snd];
      [rewrite posts_after_chat|]; lia.
  - intros H. simpl. rewrite (failed_call_result _ H). reflexivity.
  - intros Ha H. rewrite Ha. cbv zeta. rewrite (failed_call_result _ H).
    reflexivity.
  - intros Ha H. rewrite Ha. cbv zeta. rewrite (failed_call_result _ H).
    reflexivity.
  - intros Ha H. rewrite Ha. cbv zeta. rewrite (failed_call_result _ H).
    reflexivity.
Qed.

Lemma no_retry_witness :
  Ollama.available Sample.generator_on = true /\
  failed_call (http_post Sample.offline (trace (world Sample.fresh))
                 (chat_payload Sample.generator_on
                    (Ollama.story_system_prompt "medium")
                    (Ollama.story_full_prompt "a knight"))) = true /\
  Ollama.generate_story Sample.offline Sample.generator_on "a knight" "medium"
    Sample.fresh =
    (Return (Ollama._generate_fallback_story "a knight"),
     after_event Sample.fresh
       (chat_event Sample.generator_on (Ollama.story_system_prompt "medium")
          (Ollama.story_full_prompt "a knight"))).
Proof.
  split; [reflexivity|]. split; [reflexivity|].
  exact (proj1 (proj2 (proj2 (proj2 (proj2 (proj2
           (no_retry Sample.offline Sample.generator_on Sample.fresh
              "system" "a knight" "medium" "a knight story"))))))
           eq_refl eq_refl).
Defined.

(** ** Composition *)

Lemma create_placeholder_eq (env : Env) (text : string) (width height : Z)
    (st : St) :
  0 < width -> 0 < height ->
  Gpu._create_placeholder env text width height st
  = (Return (placeholder_png env text width height), st).
Proof.
  intros Hw Hh. unfold Gpu._create_placeholder, placeholder_png, bind, ret.
  destruct (width <? 0) eqn:E1; [apply Z.ltb_lt in E1; lia|].
  destruct (height <? 0) eqn:E2; [apply Z.ltb_lt in E2; lia|].
  destruct (width =? 0) eqn:E3; [apply Z.eqb_eq in E3; lia|].
  destruct (height =? 0) eqn:E4; [apply Z.eqb_eq in E4; lia|].
  cbn [orb]. destruct (textbbox env text) as [[[[b0 b1] b2] b3]|]; reflexivity.
Qed.

Lemma compose_images_eq (env : Env) (g : Gpu.GPUImageGenerator)
    (char_path bg_path : string) (st : St) :
  Gpu.compose_images env g char_path bg_path st =
  (Return (compose_result env (files (world st) !! char_path)
             (files (world st) !! bg_path)), st).
Proof.
  unfold Gpu.compose_images, Gpu.image_open, Gpu.true_div, Gpu.resize,
    compose_result, scalable, composed_scene, scaled_width, scaled_height,
    try_except, bind, ret, raise, get_world.
  cbn [fst snd].
  destruct (files (world st) !! char_path) as [[c|raw]|]; try reflexivity.
  destruct (files (world st) !! bg_path) as [[b|raw]|]; try reflexivity.
  cbn [PIL.size fst snd].
  destruct (snd (PIL.size c) =? 0); [reflexivity|]. cbn [negb andb fst snd].
  match goal with |- context [(?w <? 1) || (?h <? 1)] =>
    destruct (w <? 1); [reflexivity|]; destruct (h <? 1); reflexivity end.
Qed.

Lemma composed_scene_size c b : PIL.size (composed_scene c b) = PIL.size b.
Proof. reflexivity. Qed.

(** C6, as the code has it: for readable images [c] and [b],
    [compose_images] returns the scene with the size of [b], the character
    resized to [int(0.8 * bg_height)] in height and
    [int(char_width * (that / char_height))] in width and pasted at
    [x = int(0.25 * bg_width)], [y = bg_height - that], when the character
    has a height and the target size is not empty; in every other case,
    unreadable files included, it returns the 768x512 placeholder.  It
    never raises and changes nothing. *)
Theorem compose_images_scene (env : Env) (g : Gpu.GPUImageGenerator)
    (char_path bg_path : string) (st : St) (c b : PIL.Image) :
  files (world st) !! char_path = Some (PIL.PngOf c) ->
  files (world st) !! bg_path = Some (PIL.PngOf b) ->
  Gpu.compose_images env g char_path bg_path st =
    (Return (if scalable c b then PIL.PngOf (composed_scene c b)
             else placeholder_png env "COMPOSED SCENE" 768 512), st) /\
  PIL.size (composed_scene c b) = PIL.size b /\
  Gpu._create_placeholder env "COMPOSED SCENE" 768 512 st
    = (Return (placeholder_png env "COMPOSED SCENE" 768 512), st) /\
  (exists im,
     placeholder_png env "COMPOSED SCENE" 768 512 = PIL.PngOf im /\
     PIL.size im = (768, 512)) /\
  (forall other_char other_bg,
     exists blob,
       Gpu.compose_images env g other_char other_bg st = (Return blob, st) /\
       (blob = placeholder_png env "COMPOSED SCENE" 768 512 \/
        exists c' b',
          files (world st) !! other_char = Some (PIL.PngOf c') /\
          files (world st) !! other_bg = Some (PIL.PngOf b') /\
          scalable c' b' = true /\
          blob = PIL.PngOf (composed_scene c' b'))).
Proof.
  intros Hc Hb.
  split; [rewrite compose_images_eq, Hc, Hb; reflexivity|].
  split; [reflexivity|].
  split; [apply create_placeholder_eq; lia|].
  split; [apply placeholder_size|].
  intros oc ob. eexists. split; [apply compose_images_eq|].
  unfold compose_result.
  destruct (files (world st) !! oc) as [[c'|raw]|]; auto.
  destruct (files (world st) !! ob) as [[b'|raw]|]; auto.
  destruct (scalable c' b') eqn:E; [|auto].
  right. exists c', b'. auto.
Qed.

Lemma compose_images_scene_witness :
  let st := Sample.with_images (PIL.Pixels "character" 512 512)
              (PIL.Pixels "background" 768 512) in
  files (world st) !! "char.png"%string = Some (PIL.PngOf (PIL.Pixels "character" 512 512)) /\
  files (world st) !! "bg.png"%string = Some (PIL.PngOf (PIL.Pixels "background" 768 512)) /\
  Gpu.compose_images Sample.offline (Gpu.__init__ Sample.offline)
    "char.png" "bg.png" st =
    (Return
       (PIL.PngOf
          (PIL.Convert "RGB"
             (PIL.Paste
                (PIL.Resize 409 409 "LANCZOS"
                   (PIL.Convert "RGBA" (PIL.Pixels "character" 512 512)))
                192 103
                (PIL.Resize 409 409 "LANCZOS"
                   (PIL.Convert "RGBA" (PIL.Pixels "character" 512 512)))
                (PIL.Convert "RGBA" (PIL.Pixels "background" 768 512))))),
     st).
Proof.
  intros st. split; [reflexivity|]. split; [reflexivity|].
  exact (proj1 (compose_images_scene Sample.offline (Gpu.__init__ Sample.offline)
                  "char.png" "bg.png" st _ _ eq_refl eq_refl)).
Defined.

(** C6, as the specification words it, fails: a character image one pixel
    wide is readable, and so is a background of the generator's own size,
    yet the width computed for the character is [int(1 * (409 / 512)) = 0],
    Pillow refuses the resize, and the result is the 768x512 placeholder;
    with a background of another size the result does not have the size of
    the background. *)
Lemma compose_images_not_always_scene :
  ~ (forall (env : Env) (g : Gpu.GPUImageGenerator) (char_path bg_path : string)
       (st : St) (c b : PIL.Image),
       files (world st) !! char_path = Some (PIL.PngOf c) ->
       files (world st) !! bg_path = Some (PIL.PngOf b) ->
       exists im,
         fst (Gpu.compose_images env g char_path bg_path st)
           = Return (PIL.PngOf im) /\
         PIL.size im = PIL.size b /\
         im = composed_scene c b).
Proof.
  intros H.
  destruct (H Sample.offline (Gpu.__init__ Sample.offline) "char.png" "bg.png"
              (Sample.with_images (PIL.Pixels "thin" 1 512)
                 (PIL.Pixels "background" 1024 512))
              _ _ eq_refl eq_refl) as (im & Him & Hsize & _).
  vm_compute in Him. injection Him as <-. vm_compute in Hsize. discriminate.
Qed.

(** ** The steps of the pipeline *)

Section PipelineSteps.

Import Models.

Variable env : Env.

Lemma with_events_nil st : with_events st [] = st.
Proof.
  destruct st as [s [d f t]]. unfold with_events. simpl.
  rewrite app_nil_r. reflexivity.
Qed.

Lemma with_events_app st evs evs' :
  with_events (with_events st evs) evs' = with_events st (evs ++ evs').
Proof. unfold with_events. simpl. rewrite app_assoc. reflexivity. Qed.

Lemma load_pipeline_spec g style st :
  exists ok g' evs,
    Gpu._load_pipeline env g style st = (Return (ok, g'), with_events st evs) /\
    Gpu.available g' = Gpu.available g.
Proof.
  unfold Gpu._load_pipeline, bind, ret, get_world, emit.
  destruct (Gpu.available g) eqn:Ha; simpl.
  - destruct (Gpu.pipeline g); simpl.
    + exists true, g, []. rewrite with_events_nil. auto.
    + destruct (from_pretrained env (trace (world st)));
        eexists _, _, [_]; split; try reflexivity; exact Ha.
  - exists false, g, []. rewrite with_events_nil. auto.
Qed.

Lemma ready_spec g style st :
  exists ok g' evs,
    Gpu.ready env g style st = (Return (ok, g'), with_events st evs) /\
    Gpu.available g' = Gpu.available g.
Proof.
  unfold Gpu.ready. destruct (Gpu.available g) eqn:Ha.
  - destruct (load_pipeline_spec g style st) as (ok & g' & evs & H & H').
    exists ok, g', evs. rewrite Ha in H'. auto.
  - exists false, g, []. rewrite with_events_nil. auto.
Qed.

Lemma run_pipeline_cases call st :
  (exists image, Gpu.run_pipeline env call st
                 = (Return image, with_events st [EvDiffusion call])) \/
  (exists e, Gpu.run_pipeline env call st
             = (Raise e, with_events st [EvDiffusion call])).
Proof.
  unfold Gpu.run_pipeline, bind, ret, raise, get_world, emit. simpl.
  destruct (diffuse env (trace (world st)) call); [left|right]; eexists;
    reflexivity.
Qed.

(** The image generators return, keep the flag of the object, and leave
    nothing but events. *)
Lemma generate_character_image_spec g description style st :
  exists blob g' evs,
    Gpu.generate_character_image env g description style st
      = (Return (blob, g'), with_events st evs) /\
    Gpu.available g' = Gpu.available g.
Proof.
  unfold Gpu.generate_character_image, bind.
  destruct (ready_spec g style st) as (ok & g' & evs & -> & Hg). cbn [fst snd].
  destruct ok; [|eexists _, _, _; split; [reflexivity | exact Hg]].
  unfold try_except, bind.
  match goal with |- context [Gpu.run_pipeline env ?c ?s] =>
    destruct (run_pipeline_cases c s) as [[im ->]|[e ->]] end;
    rewrite with_events_app; eexists _, _, _; split; try reflexivity; exact Hg.
Qed.

Lemma generate_background_image_spec g description style st :
  exists blob g' evs,
    Gpu.generate_background_image env g description style st
      = (Return (blob, g'), with_events st evs) /\
    Gpu.available g' = Gpu.available g.
Proof.
  unfold Gpu.generate_background_image, bind.
  destruct (ready_spec g style st) as (ok & g' & evs & -> & Hg). cbn [fst snd].
  destruct ok; [|eexists _, _, _; split; [reflexivity | exact Hg]].
  unfold try_except, bind.
  match goal with |- context [Gpu.run_pipeline env ?c ?s] =>
    destruct (run_pipeline_cases c s) as [[im ->]|[e ->]] end;
    rewrite with_events_app; eexists _, _, _; split; try reflexivity; exact Hg.
Qed.

Lemma field_save_eq step set_field name data st :
  Views.field_save env step set_field name data st =
  match gen_fault env step with
  | Some e => (Raise e, after_event st (EvUuid (uuid4 env (trace (world st)))))
  | None => (Return tt, after_field_save env set_field name data st)
  end.
Proof.
  unfold Views.field_save, Views.fault, after_field_save, new_uuid, write_file,
    bind, ret, raise, assign, get_story, get_world, emit, after_event.
  simpl. destruct (gen_fault env step); reflexivity.
Qed.

Lemma story_image_path_id s s' u name :
  id s = id s' -> story_image_path s u name = story_image_path s' u name.
Proof. unfold story_image_path. intros ->. reflexivity. Qed.

Lemma after_save_content st : content_kept (story st) (story (after_save env st)).
Proof.
  destruct (after_save_story env st) as [a ->].
  unfold update_word_count.
  destruct (Py.truthy (story_text (story st)));
    repeat split; reflexivity.
Qed.

End PipelineSteps.

(** ** The pipeline *)

Section OllamaSpecs.

Variable env : Env.

Lemma after_event_with_events st ev : after_event st ev = with_events st [ev].
Proof. reflexivity. Qed.

Lemma init_spec st :
  exists self evs,
    Ollama.__init__ env st = (Return self, with_events st evs) /\
    Ollama.story_model self = Ollama.DEFAULT_MODEL /\
    (ollama_down env -> Ollama.available self = false).
Proof.
  eexists _, [_]. split; [apply init_eq|]. split; [reflexivity|].
  intros H. apply H.
Qed.

Lemma generate_story_spec self user_prompt length st :
  exists text evs,
    Ollama.generate_story env self user_prompt length st
      = (Return text, with_events st evs) /\
    100 < Py.word_count text /\
    (Ollama.available self = false ->
     text = Ollama._generate_fallback_story user_prompt).
Proof.
  rewrite generate_story_eq. destruct (Ollama.available self); cbv zeta.
  - destruct (Py.truthy _ && (100 <? _)) eqn:E; eexists _, [_];
      (split; [reflexivity|]); (split; [|discriminate]).
    + apply andb_prop in E as [_ E]. apply Z.ltb_lt in E. exact E.
    + apply fallback_story_words.
  - exists (Ollama._generate_fallback_story user_prompt), [].
    rewrite with_events_nil. split; [reflexivity|].
    split; [apply fallback_story_words | reflexivity].
Qed.

Lemma fallback_character_description_truthy story :
  Py.truthy (Ollama._fallback_character_description story) = true.
Proof.
  unfold Ollama._fallback_character_description. cbv zeta.
  repeat match goal with |- context [if ?b then _ else _] => destruct b end;
    reflexivity.
Qed.

Lemma fallback_scene_description_truthy story :
  Py.truthy (Ollama._fallback_scene_description story) = true.
Proof.
  unfold Ollama._fallback_scene_description. cbv zeta.
  repeat match goal with |- context [if ?b then _ else _] => destruct b end;
    reflexivity.
Qed.

Lemma generate_character_description_spec self story st :
  exists description evs,
    Ollama.generate_character_description env self story st
      = (Return description, with_events st evs) /\
    Py.truthy description = true /\
    (Ollama.available self = false ->
     description = Ollama._fallback_character_description story).
Proof.
  rewrite generate_character_description_eq.
  destruct (Ollama.available self); cbv zeta.
  - destruct (Py.truthy (call_result _)) eqn:E; eexists _, [_];
      (split; [reflexivity|]); (split; [|discriminate]).
    + exact E.
    + apply fallback_character_description_truthy.
  - eexists _, []. rewrite with_events_nil. split; [reflexivity|].
    split; [apply fallback_character_description_truthy | reflexivity].
Qed.

Lemma generate_scene_description_spec self story st :
  exists description evs,
    Ollama.generate_scene_description env self story st
      = (Return description, with_events st evs) /\
    Py.truthy description = true /\
    (Ollama.available self = false ->
     description = Ollama._fallback_scene_description story).
Proof.
  rewrite generate_scene_description_eq.
  destruct (Ollama.available self); cbv zeta.
  - destruct (Py.truthy (call_result _)) eqn:E; eexists _, [_];
      (split; [reflexivity|]); (split; [|discriminate]).
    + exact E.
    + apply fallback_scene_description_truthy.
  - eexists _, []. rewrite with_events_nil. split; [reflexivity|].
    split; [apply fallback_scene_description_truthy | reflexivity].
Qed.

End OllamaSpecs.

Ltac norm :=
  cbn [story world db files trace with_events after_event log_event fst snd
       Models.id Models.user Models.prompt Models.audio_file
       Models.transcribed_text Models.input_method Models.story_text
       Models.character_description Models.background_description
       Models.character_image Models.background_image Models.composed_image
       Models.story_word_count Models.ai_model_used Models.image_model_used
       Models.generation_time Models.status Models.error_message
       Models.set_audio_file Models.set_transcribed_text Models.set_story_text
       Models.set_character_description Models.set_background_description
       Models.set_character_image Models.set_background_image
       Models.set_composed_image Models.set_story_word_count
       Models.set_ai_model_used Models.set_image_model_used
       Models.set_generation_time Models.set_status Models.set_error_message].

Ltac norm_all :=
  cbn [story world db files trace with_events after_event log_event fst snd
       Models.id Models.user Models.prompt Models.audio_file
       Models.transcribed_text Models.input_method Models.story_text
       Models.character_description Models.background_description
       Models.character_image Models.background_image Models.composed_image
       Models.story_word_count Models.ai_model_used Models.image_model_used
       Models.generation_time Models.status Models.error_message
       Models.set_audio_file Models.set_transcribed_text Models.set_story_text
       Models.set_character_description Models.set_background_description
       Models.set_character_image Models.set_background_image
       Models.set_composed_image Models.set_story_word_count
       Models.set_ai_model_used Models.set_image_model_used
       Models.set_generation_time Models.set_status Models.set_error_message] in *.

Ltac wp_step :=
  lazymatch goal with
  | |- wp (bind _ _) _ _ => apply wp_bind
  | |- wp (try_except _ _) _ _ => apply wp_try
  | |- wp (ret _) _ _ => apply wp_ret
  | |- wp (raise _) _ _ => apply wp_raise
  | |- wp (assign _) _ _ => apply wp_assign
  | |- wp (emit _) _ _ => apply wp_emit
  | |- wp (message _ _) _ _ => apply wp_emit
  | |- wp get_story _ _ => apply wp_get_story
  | |- wp get_world _ _ => apply wp_get_world
  | |- wp (Gpu.compose_images _ _ _ _) _ _ =>
      eapply wp_eq; [apply compose_images_eq|]
  end; cbv beta iota; norm.

Ltac wp_steps := repeat wp_step.

(** Use a specification of the form [exists x evs, m st = (Return x, _) /\ _]. *)
Ltac wp_spec H :=
  let x := fresh "x" in
  let evs := fresh "evs" in
  let Heq := fresh "Heq" in
  destruct H as (x & evs & Heq & ?);
  eapply wp_eq; [exact Heq|]; clear Heq; cbv beta iota; norm.

Section Pipeline.

Import Models.

Variable env : Env.

Lemma stored_name_truthy s u name :
  field_truthy (Some (story_image_path s u name)) = true.
Proof. reflexivity. Qed.

(** The [try] block, whatever its last statement does: it raises before,
    with the inputs and the rows as they were, or it reaches
    [story_save] in a state described by [before_save]. *)
Lemma generation_try_with_wp (story_save : M unit) start_time length image_style st
    (Q : Outcome unit -> St -> Prop) :
  (forall e st1,
     inputs_kept (story st) (story st1) -> db (world st1) = db (world st) ->
     Q (Raise e) st1) ->
  (forall stN,
     before_save env start_time image_style st stN -> wp story_save stN Q) ->
  wp (Views.generation_try_with env story_save start_time length image_style) st Q.
Proof.
  intros Hraise Hsave. unfold Views.generation_try_with.
  wp_step. unfold Views.fault at 1.
  destruct (gen_fault env StepImport) as [e|].
  { wp_step. apply Hraise; [repeat split | reflexivity]. }
  wp_steps.
  destruct (Py.truthy (get_input_text (story st))) eqn:Hinput; cbn [negb].
  2:{ wp_step. apply Hraise; [repeat split | reflexivity]. }
  wp_steps.
  wp_spec (init_spec env st). rename x into self.
  destruct H as [Hmodel Hdown].
  wp_step.
  match goal with |- wp (Ollama.generate_story _ _ ?p ?l) ?s _ =>
    wp_spec (generate_story_spec env self p l s) end.
  rename x into text. destruct H as [Hwords Htext].
  wp_steps.
  match goal with |- wp (Ollama.generate_character_description _ _ ?t) ?s _ =>
    destruct (generate_character_description_spec env self t s)
      as (cd & evs1 & Heq & Hcd & Hcd');
    pose proof (f_equal fst Heq) as Hsrc1; cbn [fst] in Hsrc1;
    eapply wp_eq; [exact Heq|]; clear Heq; cbv beta iota; norm end.
  wp_steps.
  match goal with |- wp (Ollama.generate_scene_description _ _ ?t) ?s _ =>
    destruct (generate_scene_description_spec env self t s)
      as (bd & evs2 & Heq & Hbd & Hbd');
    pose proof (f_equal fst Heq) as Hsrc2; cbn [fst] in Hsrc2;
    eapply wp_eq; [exact Heq|]; clear Heq; cbv beta iota; norm end.
  wp_steps.
  match goal with |- wp (Gpu.generate_character_image _ ?g ?d ?y) ?s _ =>
    destruct (generate_character_image_spec env g d y s)
      as (blob1 & g1 & evs3 & Heq & Hg1) end.
  pose proof (f_equal fst Heq) as Hsrc3; cbn [fst] in Hsrc3.
  eapply wp_eq; [exact Heq|]; clear Heq; cbv beta iota; norm.
  wp_step.
  eapply wp_rw; [apply field_save_eq|].
  destruct (gen_fault env StepSaveCharacter) as [e|]; norm.
  { apply Hraise; [repeat split | reflexivity]. }
  unfold after_field_save; cbv zeta; norm.
  match goal with |- context [uuid4 env ?t] =>
    generalize (uuid4 env t); intros u1 end.
  repeat match goal with |- context [story_image_path ?s u1 ?n] =>
    lazymatch s with
    | story st => fail
    | _ => change (story_image_path s u1 n) with (story_image_path (story st) u1 n)
    end end.
  wp_steps.
  match goal with |- wp (Gpu.generate_background_image _ ?g ?d ?y) ?s _ =>
    destruct (generate_background_image_spec env g d y s)
      as (blob2 & g2 & evs4 & Heq & Hg2) end.
  pose proof (f_equal fst Heq) as Hsrc4; cbn [fst] in Hsrc4.
  eapply wp_eq; [exact Heq|]; clear Heq; cbv beta iota; norm.
  wp_step.
  eapply wp_rw; [apply field_save_eq|].
  destruct (gen_fault env StepSaveBackground) as [e|]; norm.
  { apply Hraise; [repeat split | reflexivity]. }
  unfold after_field_save; cbv zeta; norm.
  match goal with |- context [uuid4 env ?t] =>
    generalize (uuid4 env t); intros u2 end.
  repeat match goal with |- context [story_image_path ?s u2 ?n] =>
    lazymatch s with
    | story st => fail
    | _ => change (story_image_path s u2 n) with (story_image_path (story st) u2 n)
    end end.
  wp_steps.
  rewrite !stored_name_truthy. cbn [andb]. unfold Views.field_path.
  wp_steps.
  set (composed := compose_result env _ _).
  eapply wp_rw; [apply field_save_eq|].
  destruct (gen_fault env StepSaveComposed) as [e|]; norm.
  { apply Hraise; [repeat split | reflexivity]. }
  unfold after_field_save; cbv zeta; norm.
  match goal with |- context [uuid4 env ?t] =>
    generalize (uuid4 env t); intros u3 end.
  repeat match goal with |- context [story_image_path ?s u3 ?n] =>
    lazymatch s with
    | story st => fail
    | _ => change (story_image_path s u3 n) with (story_image_path (story st) u3 n)
    end end.
  wp_steps.
  assert (Hfinish : forall stN : St,
            story stN =
              set_image_model_used ("Stable Diffusion (" +:+ image_style +:+ ")")
                (set_composed_image
                   (Some (story_image_path (story st) u3
                            ("composed_" +:+ id (story st) +:+ ".png")))
                   (set_background_image
                      (Some (story_image_path (story st) u2
                               ("background_" +:+ id (story st) +:+ ".png")))
                      (set_character_image
                         (Some (story_image_path (story st) u1
                                  ("character_" +:+ id (story st) +:+ ".png")))
                         (set_background_description bd
                            (set_character_description cd
                               (set_ai_model_used
                                  ("Ollama (" +:+ Ollama.story_model self +:+ ")")
                                  (set_story_text text (story st)))))))) ->
            files (world stN) =
              <[Views.media_path env
                  (story_image_path (story st) u3
                     ("composed_" +:+ id (story st) +:+ ".png")):=composed]>
                (<[Views.media_path env
                     (story_image_path (story st) u2
                        ("background_" +:+ id (story st) +:+ ".png")):=blob2]>
                   (<[Views.media_path env
                        (story_image_path (story st) u1
                           ("character_" +:+ id (story st) +:+ ".png")):=blob1]>
                      (files (world st)))) ->
            db (world stN) = db (world st) ->
            wp (bind (assign (set_status "completed"))
                  (fun _ => bind (assign (set_generation_time
                                    (Some (time_at_end env - start_time)%float)))
                              (fun _ => story_save)))
               stN Q).
  { intros stN Hstory Hfiles Hdb. wp_steps. apply Hsave.
    unfold before_save. cbv zeta.
    exists self, text, cd, bd, u1, u2, u3, blob1, blob2, g1, g2.
    do 4 eexists. norm. rewrite Hstory, Hfiles, Hdb.
    split; [exact Hinput|]. split; [exact Hwords|].
    split; [intros Hd; apply Htext, Hdown, Hd|].
    split; [exact Hsrc1|]. split; [exact Hcd|].
    split; [intros Hd; apply Hcd', Hdown, Hd|].
    split; [exact Hsrc2|]. split; [exact Hbd|].
    split; [intros Hd; apply Hbd', Hdown, Hd|].
    split; [exact Hsrc3|]. split; [exact Hsrc4|].
    split; [reflexivity|]. split; reflexivity. }
  unfold Views.cleanup, Views.fault.
  destruct (Gpu.available g2).
  - destruct (gen_fault env StepCleanup) as [e|].
    + wp_step. apply Hraise; [repeat split | reflexivity].
    + wp_step. apply Hfinish; reflexivity.
  - wp_step. apply Hfinish; reflexivity.
Qed.

Lemma media_path_inj a b : Views.media_path env a = Views.media_path env b -> a = b.
Proof.
  unfold Views.media_path. generalize (MEDIA_ROOT env). intros root.
  induction root as [|c root IH]; cbn.
  - intros H. injection H as H. exact H.
  - intros H. injection H as H. apply IH, H.
Qed.

(** Saving keeps the files of the images. *)
Lemma after_save_image_file st s u name :
  files (world (after_save env st)) !! Views.media_path env (story_image_path s u name)
  = files (world st) !! Views.media_path env (story_image_path s u name).
Proof.
  unfold after_save, Views.save, Views.commit_audio_file, Views.write_row,
    new_uuid, write_file, bind, ret, assign, get_story, get_world, emit.
  simpl. destruct (audio_file (update_word_count (story st))); simpl;
    try reflexivity.
  apply lookup_insert_ne. intros H. apply media_path_inj in H.
  discriminate H.
Qed.

(** What [before_save] and [StoryGeneration.save] give together. *)
Lemma before_save_generated start_time image_style st stN :
  before_save env start_time image_style st stN ->
  inputs_kept (story st) (story (after_save env stN)) /\
  generated env start_time st (after_save env stN).
Proof.
  intros Hb. pose proof Hb as Hb0. unfold before_save in Hb. cbv zeta in Hb.
  destruct Hb as (self & text & cd & bd & u1 & u2 & u3 & blob1 & blob2 & g1 & g2
                  & st_cd & st_bd & st_c & st_b & Hinput & Hwords & Htext
                  & Hsrc1 & Hcd & Hcd' & Hsrc2 & Hbd & Hbd' & Hsrc3 & Hsrc4
                  & Hstory & Hfiles & Hdb).
  pose proof (after_save_content env stN) as Hc.
  pose proof (after_save_count env stN) as Hcount.
  pose proof (after_save_row env stN) as Hrow.
  assert (Hkeep : forall s u name,
            files (world (after_save env stN))
              !! Views.media_path env (story_image_path s u name)
            = files (world stN) !! Views.media_path env (story_image_path s u name))
    by (intros; apply after_save_image_file).
  set (st' := after_save env stN) in *.
  rewrite Hstory in Hc, Hcount. rewrite Hfiles in Hkeep. clear Hstory Hfiles.
  destruct Hc as ((Hid & Hu & Hp & Him & Htr) & Hst & Hcd0 & Hbd0 & Hci & Hbi
                  & Hco & Hai & Himg & Hgt & Hstat & Herr).
  norm_all.
  split; [repeat split; assumption|].
  unfold generated, stored_image. cbv zeta.
  rewrite Hstat, Hgt, Hst, Hcd0, Hbd0, Hci, Hbi, Hco, Hcount, Hid.
  rewrite (word_count_truthy text) by lia.
  repeat split; try assumption; try lia.
  - exists u1. split; [f_equal; apply story_image_path_id; congruence|].
    rewrite (story_image_path_id (story st') (story st)) by assumption.
    rewrite Hkeep. rewrite lookup_insert. case_decide; [eauto|].
    rewrite lookup_insert. case_decide; [eauto|].
    rewrite lookup_insert_eq. eauto.
  - exists u2. split; [f_equal; apply story_image_path_id; congruence|].
    rewrite (story_image_path_id (story st') (story st)) by assumption.
    rewrite Hkeep. rewrite lookup_insert. case_decide; [eauto|].
    rewrite lookup_insert_eq. eauto.
  - exists u3. split; [f_equal; apply story_image_path_id; congruence|].
    rewrite (story_image_path_id (story st') (story st)) by assumption.
    rewrite Hkeep. rewrite lookup_insert_eq. eauto.
  - apply Htext; assumption.
  - apply Hcd'; assumption.
  - apply Hbd'; assumption.
  - exists self, st_cd, st_bd. split; assumption.
  - rewrite <- Hid, Hrow. apply lookup_insert_eq.
  - exists image_style, stN. split; [exact Hb0 | reflexivity].
Qed.

Lemma generation_try_spec start_time length image_style st :
  wp (Views.generation_try env start_time length image_style) st
    (fun o st' =>
       inputs_kept (story st) (story st') /\
       (o = Return tt -> generated env start_time st st')).
Proof.
  unfold Views.generation_try. apply generation_try_with_wp.
  - intros e st1 Hk _. split; [exact Hk | discriminate].
  - intros stN Hb. eapply wp_eq; [apply save_returns|].
    destruct (before_save_generated _ _ _ _ Hb) as [Hk Hg]. auto.
Qed.

End Pipeline.

Section Generation.

Import Models.

Variable env : Env.

Lemma generation_except_eq e st :
  Views.generation_except env e st =
  (Return tt,
   after_save env {| story := set_error_message e (set_status "error" (story st));
                     world := world st |}).
Proof.
  unfold Views.generation_except, bind, assign. cbn [story world].
  apply save_returns.
Qed.

(** What [_generate_enhanced_story_content] leaves, by the outcome of its
    [try] block. *)
Lemma generate_content_spec length image_style st :
  let r := Views._generate_enhanced_story_content env length image_style st in
  let s' := story (snd r) in
  fst r = Return tt /\
  inputs_kept (story st) s' /\
  db (world (snd r)) !! id s' = Some s' /\
  match Views.generation_try env (time_at_start env) length image_style st with
  | (Return _, st1) =>
      snd r = st1 /\ generated env (time_at_start env) st st1
  | (Raise e, st1) =>
      status s' = "error" /\ error_message s' = e /\
      story_text s' = story_text (story st1)
  end.
Proof.
  unfold Views._generate_enhanced_story_content, try_except. cbv zeta.
  pose proof (generation_try_spec env (time_at_start env) length image_style st)
    as H.
  unfold wp in H.
  destruct (Views.generation_try env (time_at_start env) length image_style st)
    as [[[]|e] st1]; cbn [fst snd] in *; destruct H as [Hkept Hgen].
  - specialize (Hgen eq_refl).
    split; [reflexivity|]. split; [exact Hkept|].
    split; [apply Hgen | split; [reflexivity | exact Hgen]].
  - rewrite generation_except_eq. cbn [fst snd].
    match goal with |- context [after_save env ?s] =>
      pose proof (after_save_content env s) as Hc;
      pose proof (after_save_row env s) as Hrow;
      set (st2 := after_save env s) in * end.
    destruct Hc as ((Hid & Hu & Hp & Him & Htr) & Hst & _ & _ & _ & _ & _ & _
                    & _ & _ & Hstat & Herr).
    norm_all. destruct Hkept as (K1 & K2 & K3 & K4 & K5).
    repeat split; try congruence.
    rewrite Hrow. apply lookup_insert_eq.
Qed.

End Generation.

Section GenerationDb.

Import Models.

Variable env : Env.
Variable db_fault : StoryGeneration -> list Event -> option string.

Lemma bind_ext {A B} (m : M A) (k1 k2 : A -> M B) st :
  (forall a st', k1 a st' = k2 a st') -> bind m k1 st = bind m k2 st.
Proof. intros H. unfold bind. destruct (m st) as [[a|e] st']; auto. Qed.

Lemma commit_audio_file_returns st :
  fst (Views.commit_audio_file env st) = Return tt.
Proof.
  unfold Views.commit_audio_file, new_uuid, write_file, bind, ret, assign,
    get_story, get_world, emit.
  simpl. destruct (audio_file (story st)); reflexivity.
Qed.

Lemma after_save_before_row st :
  after_save env st = snd (Views.write_row (before_row env st)).
Proof.
  unfold after_save, before_row, Views.save, bind, assign. cbn [fst snd].
  match goal with |- context [Views.commit_audio_file env ?s] =>
    pose proof (commit_audio_file_returns s) as H;
    destruct (Views.commit_audio_file env s) as [[[]|e] st1] end;
    [reflexivity | discriminate H].
Qed.

(** [StoryGeneration.save] by the answer of the database. *)
Lemma save_db_eq st :
  ViewsDb.save env db_fault st =
  match db_fault (story (before_row env st)) (trace (world (before_row env st))) with
  | Some e => (Raise e, before_row env st)
  | None => (Return tt, after_save env st)
  end.
Proof.
  rewrite after_save_before_row.
  unfold ViewsDb.save, before_row, bind, assign. cbn [fst snd].
  match goal with |- context [Views.commit_audio_file env ?s] =>
    pose proof (commit_audio_file_returns s) as H;
    destruct (Views.commit_audio_file env s) as [[[]|e] st1] end;
    [|discriminate H].
  cbn [fst snd]. unfold ViewsDb.write_row.
  destruct (db_fault (story st1) (trace (world st1))); reflexivity.
Qed.

Lemma before_row_after_save st :
  story (before_row env st) = story (after_save env st) /\
  trace (world (before_row env st)) = trace (world (after_save env st)) /\
  db (world (before_row env st)) = db (world st).
Proof.
  rewrite after_save_before_row. split; [reflexivity|]. split; [reflexivity|].
  unfold before_row, Views.commit_audio_file, new_uuid, write_file, bind, ret,
    assign, get_story, get_world, emit.
  simpl. destruct (audio_file (update_word_count (story st))); reflexivity.
Qed.

(** With a database that accepts every write, [save] is the one of
    [Views]. *)
Lemma save_db_never st :
  (forall s tr, db_fault s tr = None) ->
  ViewsDb.save env db_fault st = Views.save env st.
Proof.
  intros H. unfold ViewsDb.save, Views.save.
  apply bind_ext. intros _ st1. apply bind_ext. intros _ st2.
  unfold ViewsDb.write_row. rewrite H. reflexivity.
Qed.

Lemma generation_try_with_ext (save1 save2 : M unit) start_time length image_style :
  (forall st, save1 st = save2 st) ->
  forall st,
    Views.generation_try_with env save1 start_time length image_style st
    = Views.generation_try_with env save2 start_time length image_style st.
Proof.
  intros H st. unfold Views.generation_try_with.
  repeat (apply bind_ext; intros; cbv beta zeta). apply H.
Qed.

(** What the [try] block leaves when the database can refuse. *)
Lemma generation_try_db_spec length image_style st :
  wp (ViewsDb.generation_try env db_fault (time_at_start env) length image_style) st
    (fun o st' =>
       id (story st') = id (story st) /\
       match o with
       | Return _ =>
           status (story st') = "completed" /\
           generation_time (story st')
             = Some (time_at_end env - time_at_start env)%float /\
           db (world st') !! id (story st') = Some (story st')
       | Raise _ => db (world st') = db (world st)
       end).
Proof.
  unfold ViewsDb.generation_try. apply generation_try_with_wp.
  - intros e st1 (Hid & _) Hdb. split; [exact Hid | exact Hdb].
  - intros stN Hb. unfold wp. rewrite save_db_eq.
    destruct (before_row_after_save stN) as (Hs & Ht & Hd).
    destruct (before_save_generated env _ _ _ _ Hb) as [(Hid & _) Hgen].
    destruct Hgen as (Hstat & Htime & _ & _ & _ & _ & _ & _ & _ & _ & _ & _ & Hrow & _).
    unfold before_save in Hb. cbv zeta in Hb.
    destruct Hb as (self & text & cd & bd & u1 & u2 & u3 & blob1 & blob2 & g1 & g2
                    & st_cd & st_bd & st_c & st_b & _ & _ & _ & _ & _ & _ & _ & _
                    & _ & _ & _ & _ & _ & Hdb).
    destruct (db_fault (story (before_row env stN))
                (trace (world (before_row env stN)))); cbn [fst snd].
    + rewrite Hs, Hd. split; [exact Hid | exact Hdb].
    + split; [exact Hid|]. split; [exact Hstat|]. split; [exact Htime | exact Hrow].
Qed.

End GenerationDb.

(** C3, as the code has it: the [story] object always ends with the status
    ['completed'] or ['error'], never ['processing'].  When the [try]
    block ends, the function returns, the status is ['completed'],
    [generation_time] is the time elapsed and the row is written.  When a
    step of the [try] block raises [e], its last [story.save()] included,
    the status is ['error'] and [error_message] is [e]; then the
    [story.save()] of the [except] block either writes the row, and the
    function returns, or is refused by the database, and its exception
    leaves the function with the rows as they were.  With a database that
    accepts every write the function is the one of [Views]. *)
Theorem generation_ends_completed_or_error (env : Env)
    (db_fault : Models.StoryGeneration -> list Event -> option string)
    (length image_style : string) (st : St) :
  let r := ViewsDb._generate_enhanced_story_content env db_fault length
             image_style st in
  let s' := story (snd r) in
  (Models.status s' = "completed" \/ Models.status s' = "error") /\
  Models.status s' <> "processing" /\
  Models.id s' = Models.id (story st) /\
  match fst (ViewsDb.generation_try env db_fault (time_at_start env) length
               image_style st) with
  | Return _ =>
      fst r = Return tt /\
      Models.status s' = "completed" /\
      Models.generation_time s'
        = Some (time_at_end env - time_at_start env)%float /\
      db (world (snd r)) !! Models.id s' = Some s'
  | Raise e =>
      Models.status s' = "error" /\ Models.error_message s' = e /\
      match db_fault s' (trace (world (snd r))) with
      | None => fst r = Return tt /\ db (world (snd r)) !! Models.id s' = Some s'
      | Some e' => fst r = Raise e' /\ db (world (snd r)) = db (world st)
      end
  end /\
  ((forall s tr, db_fault s tr = None) ->
   r = Views._generate_enhanced_story_content env length image_style st).
Proof.
  intros r s'. subst r s'.
  assert (Hlink : (forall s tr, db_fault s tr = None) ->
            ViewsDb._generate_enhanced_story_content env db_fault length
              image_style st
            = Views._generate_enhanced_story_content env length image_style st).
  { intros Hnever.
    unfold ViewsDb._generate_enhanced_story_content,
      Views._generate_enhanced_story_content, ViewsDb.generation_try,
      Views.generation_try, try_except. cbv zeta.
    rewrite (generation_try_with_ext env _ (Views.save env))
      by (intros st0; apply save_db_never; exact Hnever).
    destruct (Views.generation_try_with env (Views.save env) (time_at_start env)
                length image_style st) as [[[]|e] st1]; [reflexivity|].
    unfold ViewsDb.generation_except, Views.generation_except.
    apply bind_ext. intros _ st2. apply bind_ext. intros _ st3.
    apply save_db_never. exact Hnever. }
  pose proof (generation_try_db_spec env db_fault length image_style st) as H.
  unfold wp in H.
  unfold ViewsDb._generate_enhanced_story_content, try_except. cbv zeta.
  destruct (ViewsDb.generation_try env db_fault (time_at_start env) length
              image_style st) as [[[]|e] st1] eqn:Etry; cbn [fst snd] in *.
  - destruct H as (Hid & Hstat & Htime & Hrow).
    split; [left; exact Hstat|].
    split; [rewrite Hstat; discriminate|].
    split; [exact Hid|].
    split; [|intros Hn; specialize (Hlink Hn);
             unfold ViewsDb._generate_enhanced_story_content, try_except in Hlink;
             cbv zeta in Hlink; rewrite Etry in Hlink; exact Hlink].
    split; [reflexivity|]. split; [exact Hstat|]. split; [exact Htime | exact Hrow].
  - destruct H as (Hid & Hdb).
    assert (Hexc : ViewsDb.generation_except env db_fault e st1
                   = ViewsDb.save env db_fault
                       {| story := Models.set_error_message e
                                     (Models.set_status "error" (story st1));
                          world := world st1 |}) by reflexivity.
    set (st2 := {| story := Models.set_error_message e
                              (Models.set_status "error" (story st1));
                   world := world st1 |}) in *.
    pose proof (after_save_content env st2) as Hc.
    pose proof (after_save_row env st2) as Hrow.
    destruct (before_row_after_save env st2) as (Hs & Ht & Hd).
    destruct Hc as ((Cid & _) & _ & _ & _ & _ & _ & _ & _ & _ & _ & Cstat & Cerr).
    subst st2. norm_all.
    set (st2 := {| story := Models.set_error_message e
                              (Models.set_status "error" (story st1));
                   world := world st1 |}) in *.
    assert (Hmain :
      let r := ViewsDb.generation_except env db_fault e st1 in
      Models.status (story (snd r)) = "error" /\
      Models.error_message (story (snd r)) = e /\
      Models.id (story (snd r)) = Models.id (story st) /\
      match db_fault (story (snd r)) (trace (world (snd r))) with
      | None => fst r = Return tt /\
                db (world (snd r)) !! Models.id (story (snd r)) = Some (story (snd r))
      | Some e' => fst r = Raise e' /\ db (world (snd r)) = db (world st)
      end).
    { cbv zeta. rewrite Hexc, save_db_eq.
      destruct (db_fault (story (before_row env st2))
                  (trace (world (before_row env st2)))) as [e'|] eqn:Ef;
        cbn [fst snd].
      - rewrite Ef, Hs, Hd. repeat split; try assumption; congruence.
      - rewrite <- Hs, <- Ht, Ef, Hs.
        repeat split; try assumption; try congruence.
        rewrite Hrow. apply lookup_insert_eq. }
    cbv zeta in Hmain. destruct Hmain as (M1 & M2 & M3 & M4).
    split; [right; exact M1|].
    split; [rewrite M1; discriminate|].
    split; [exact M3|].
    split; [split; [exact M1 | split; [exact M2 | exact M4]]|].
    intros Hn. specialize (Hlink Hn).
    unfold ViewsDb._generate_enhanced_story_content, try_except in Hlink.
    cbv zeta in Hlink. rewrite Etry in Hlink. exact Hlink.
Qed.

(** C3, as the specification words it, fails: the [story.save()] of the
    [except] block is not guarded.  With a database that refuses every
    write, the [story.save()] that ends the [try] block raises, the
    [except] block sets the status ['error'] on the object and its own
    [story.save()] raises in turn: the function does not return, and the
    row of the record still has the status ['processing'] that [post]
    saved before the call. *)
Lemma a_refused_write_leaves_processing :
  ~ (forall (env : Env)
       (db_fault : Models.StoryGeneration -> list Event -> option string)
       (length image_style : string) (st : St),
       db (world st) !! Models.id (story st) = Some (story st) ->
       let r := ViewsDb._generate_enhanced_story_content env db_fault length
                  image_style st in
       exists row,
         db (world (snd r)) !! Models.id (story st) = Some row /\
         (Models.status row = "completed" \/ Models.status row = "error")).
Proof.
  intros H.
  destruct (H Sample.offline Sample.db_down "medium" "realistic" Sample.processing
              ltac:(vm_compute; reflexivity)) as (row & Hrow & Hstat).
  vm_compute in Hrow. injection Hrow as <-.
  destruct Hstat as [Hs|Hs]; discriminate Hs.
Qed.

(** ** Audio input *)

Section AudioInput.

Import Models.

Variable env : Env.

(** Saving: the state it leaves, described by what it keeps. *)
Lemma wp_save st (Q : Outcome unit -> St -> Prop) :
  (forall st',
     content_kept (story st) (story st') ->
     db (world st') !! id (story st') = Some (story st') ->
     (forall p, is_Some (files (world st) !! p) -> is_Some (files (world st') !! p)) ->
     (exists evs, trace (world st') = trace (world st) ++ evs /\
                  posts evs = 0%nat /\ transcriptions evs = 0%nat) ->
     Q (Return tt) st') ->
  wp (Views.save env) st Q.
Proof.
  intros H. eapply wp_eq; [apply save_returns|]. apply H.
  - apply after_save_content.
  - rewrite after_save_row. apply lookup_insert_eq.
  - intros p. apply after_save_files.
  - apply after_save_trace.
Qed.

Lemma handle_big_audio (audio_file : UploadedFile) st :
  10 * 1024 * 1024 < uf_size audio_file ->
  Views._handle_audio_input env audio_file st =
  (Return false,
   after_event
     (after_save env
        {| story := set_error_message "Audio file too large (max 10MB)"
                      (set_status "error" (story st));
           world := world st |})
     (EvMessage "error" "Audio file too large")).
Proof.
  intros H. apply Z.ltb_lt in H.
  unfold Views._handle_audio_input. rewrite H.
  unfold try_except, bind, assign, message, emit, ret. cbn [story world].
  rewrite save_returns. reflexivity.
Qed.

(** The end of the [try] block once the text is there. *)
Local Ltac transcribed :=
  wp_steps; apply wp_save;
  let st2 := fresh "st2" in
  intros st2 ((? & ? & ? & ? & _) & (_ & _ & _ & _ & _ & _ & _ & _ & _ & ? & _))
    ? _ _;
  norm_all; wp_steps;
  split; [repeat split; congruence|]; split; [assumption|]; right;
  split; [reflexivity | congruence].

Lemma handle_audio_input_spec (audio_file : UploadedFile) st :
  wp (Views._handle_audio_input env audio_file) st
    (fun o st' =>
       identity_kept (story st) (story st') /\
       db (world st') !! id (story st') = Some (story st') /\
       (o = Return false /\ status (story st') = "error" \/
        o = Return true /\ status (story st') = "transcribing")).
Proof.
  assert (Hhandler : forall e st1,
            identity_kept (story st) (story st1) ->
            wp (bind (assign (set_status "error"))
                  (fun _ => bind (assign (set_error_message
                                    ("Audio transcription failed: " +:+ e)))
                    (fun _ => bind (Views.save env)
                      (fun _ => bind (message "error" "Audio transcription failed")
                        (fun _ => ret false))))) st1
               (fun o st' =>
                  identity_kept (story st) (story st') /\
                  db (world st') !! id (story st') = Some (story st') /\
                  (o = Return false /\ status (story st') = "error" \/
                   o = Return true /\ status (story st') = "transcribing"))).
  { intros e st1 (K1 & K2 & K3 & K4). wp_steps. apply wp_save.
    intros st' ((Hid & Hu & Hp & Him & _) & Hrest) Hrow _ _.
    destruct Hrest as (_ & _ & _ & _ & _ & _ & _ & _ & _ & Hstat & _).
    norm_all. wp_steps.
    split; [repeat split; congruence|]. split; [exact Hrow | auto]. }
  unfold Views._handle_audio_input. wp_step.
  destruct (10 * 1024 * 1024 <? uf_size audio_file).
  - wp_steps. apply wp_save.
    intros st' ((Hid & Hu & Hp & Him & _) & Hrest) Hrow _ _.
    destruct Hrest as (_ & _ & _ & _ & _ & _ & _ & _ & _ & Hstat & _).
    norm_all. wp_steps.
    split; [repeat split; assumption|]. split; [exact Hrow | auto].
  - wp_steps. apply wp_save.
    intros st1 ((Hid & Hu & Hp & Him & _) & Hrest) _ _ _.
    destruct Hrest as (_ & _ & _ & _ & _ & _ & _ & _ & _ & Hstat1 & _).
    norm_all. wp_steps.
    destruct (check_audio_support env); cbn [negb].
    2:{ wp_step. apply Hhandler. repeat split; assumption. }
    wp_steps. unfold Views._safe_transcribe_audio. wp_steps.
    destruct (whisper_transcribe env audio_file) as [text|].
    + transcribed.
    + wp_steps. destruct (google_transcribe env audio_file) as [text|e].
      * transcribed.
      * wp_step. apply Hhandler. repeat split; assumption.
Qed.

End AudioInput.

(** C10: for an upload of more than [10 * 1024 * 1024] bytes,
    [_handle_audio_input] returns [False] with the status ['error'] and the
    message ['Audio file too large (max 10MB)'], writes the row, and makes
    no transcription attempt; [AudioValidator.validate_audio_file] refuses
    the same file, its limit being the same number. *)
Theorem oversized_audio_rejected (env : Env) (audio_file : Models.UploadedFile)
    (st : St) :
  10 * 1024 * 1024 < Models.uf_size audio_file ->
  let r := Views._handle_audio_input env audio_file st in
  let s' := story (snd r) in
  fst r = Return false /\
  Models.status s' = "error" /\
  Models.error_message s' = "Audio file too large (max 10MB)" /\
  Models.transcribed_text s' = Models.transcribed_text (story st) /\
  transcriptions (trace (world (snd r))) = transcriptions (trace (world st)) /\
  db (world (snd r)) !! Models.id s' = Some s' /\
  Audio.validate_audio_file audio_file
    = (false, "File too large. Maximum size is 10MB") /\
  Audio.MAX_FILE_SIZE = 10 * 1024 * 1024.
Proof.
  intros Hbig r s'. subst r s'. rewrite (handle_big_audio env _ st Hbig).
  cbn [fst snd after_event story world log_event db files trace].
  match goal with |- context [after_save env ?s] =>
    pose proof (after_save_content env s) as Hc;
    pose proof (after_save_row env s) as Hrow;
    pose proof (after_save_trace env s) as (evs & Htr & _ & Hnone);
    set (st1 := after_save env s) in * end.
  destruct Hc as ((Hid & Hu & Hp & Him & Htext) & Hrest).
  destruct Hrest as (_ & _ & _ & _ & _ & _ & _ & _ & _ & Hstat & Herr).
  norm_all.
  split; [reflexivity|]. split; [exact Hstat|]. split; [exact Herr|].
  split; [exact Htext|].
  split.
  { rewrite Htr, !transcriptions_app, Hnone.
    change (transcriptions [EvMessage "error" "Audio file too large"])
      with 0%nat. lia. }
  split; [rewrite Hrow; apply lookup_insert_eq|].
  split; [|reflexivity].
  unfold Audio.validate_audio_file.
  replace (Audio.MAX_FILE_SIZE <? Models.uf_size audio_file) with true
    by (symmetry; apply Z.ltb_lt; exact Hbig).
  reflexivity.
Qed.

Lemma oversized_audio_rejected_witness :
  10 * 1024 * 1024 < Models.uf_size Sample.big_audio /\
  fst (Views._handle_audio_input Sample.offline Sample.big_audio Sample.fresh)
    = Return false /\
  Models.status
    (story (snd (Views._handle_audio_input Sample.offline Sample.big_audio
                   Sample.fresh))) = "error".
Proof.
  assert (H : 10 * 1024 * 1024 < Models.uf_size Sample.big_audio)
    by (vm_compute; reflexivity).
  split; [exact H|].
  pose proof (oversized_audio_rejected Sample.offline Sample.big_audio
                Sample.fresh H) as T.
  cbv zeta in T. split; [apply T | apply T].
Defined.

(** ** The request handler *)

Section Post.

Import Models.

Variable env : Env.

Lemma wp_generate_content length image_style st (Q : Outcome unit -> St -> Prop) :
  (forall st',
     inputs_kept (story st) (story st') ->
     db (world st') !! id (story st') = Some (story st') ->
     (status (story st') = "completed" \/ status (story st') = "error") ->
     (status (story st') = "completed" ->
      generated env (time_at_start env) st st') ->
     Q (Return tt) st') ->
  wp (Views._generate_enhanced_story_content env length image_style) st Q.
Proof.
  intros H. unfold wp.
  destruct (generate_content_spec env length image_style st)
    as (Hret & Hkept & Hrow & Hcase).
  rewrite Hret. apply H; [exact Hkept | exact Hrow | |].
  - destruct (Views.generation_try env (time_at_start env) length image_style st)
      as [[[]|e] st1].
    + destruct Hcase as [-> Hgen]. left. apply Hgen.
    + right. apply Hcase.
  - intros Hdone.
    destruct (Views.generation_try env (time_at_start env) length image_style st)
      as [[[]|e] st1].
    + destruct Hcase as [-> Hgen]. exact Hgen.
    + destruct Hcase as (Herr & _). rewrite Herr in Hdone. discriminate.
Qed.

Lemma generate_and_respond_spec story_length image_style st st1 :
  identity_kept (story st) (story st1) ->
  wp (Views.generate_and_respond env story_length image_style) st1
    (responded env st).
Proof.
  intros (K1 & K2 & K3 & K4). unfold Views.generate_and_respond, responded.
  wp_steps. apply wp_save.
  intros st2 ((Hid & Hu & Hp & Him & _) & _) _ _ _. norm_all. wp_step.
  apply wp_generate_content.
  intros st3 (Gid & Gu & Gp & Gim & _) Hrow Hstatus Hgen. wp_steps.
  destruct Hstatus as [Hs|Hs]; rewrite Hs; cbn [String.eqb Ascii.eqb Bool.eqb];
    wp_steps.
  - split; [repeat split; congruence|]. split; [exact Hrow|].
    split; [eauto|]. intros _. split; [reflexivity|].
    exists st2, st3. auto.
  - split; [repeat split; congruence|]. split; [exact Hrow|].
    split; [eauto|]. intros Hc. rewrite Hs in Hc. discriminate.
Qed.

Lemma post_after_create_spec audio_file story_length image_style st :
  wp (Views.post_after_create env audio_file story_length image_style) st
    (responded env st).
Proof.
  unfold Views.post_after_create. wp_step.
  assert (Hskip : wp (ret true) st
            (fun o st' =>
               match o with
               | Return a =>
                   wp (if negb a then ret Views.RedirectIndex
                       else Views.generate_and_respond env story_length
                              image_style)
                     st' (responded env st)
               | Raise e => False
               end)).
  { wp_step. cbn [negb]. apply generate_and_respond_spec. repeat split. }
  destruct audio_file as [f|]; [|exact Hskip].
  destruct (upload_truthy (Some f)); [|exact Hskip]. clear Hskip.
  eapply wp_mono; [apply handle_audio_input_spec|]. cbv beta.
  intros o st1 (Hkept & Hrow & [[-> Hs]|[-> Hs]]); cbn [negb].
  - wp_step. split; [exact Hkept|]. split; [exact Hrow|]. split; [eauto|].
    intros Hc. rewrite Hs in Hc. discriminate.
  - apply generate_and_respond_spec. exact Hkept.
Qed.

End Post.

Section PostFacts.

Import Models.

Variable env : Env.

Lemma has_char_app_r sep a b :
  Py.has_char sep b = true -> Py.has_char sep (a +:+ b) = true.
Proof.
  intros H. induction a as [|c a IH]; [exact H|].
  rewrite append_cons. cbn [Py.has_char]. rewrite IH. apply orb_true_r.
Qed.

Lemma split_last_png base : Py.split_last "."%char (base +:+ ".png") = "png".
Proof.
  induction base as [|c base IH]; [reflexivity|].
  rewrite append_cons. cbn [Py.split_last].
  rewrite has_char_app_r by reflexivity. exact IH.
Qed.

(** The storage name of an image: the extension is all that is left of the
    name passed to [field.save]. *)
Lemma story_image_path_png s u base :
  story_image_path s u (base +:+ ".png")
  = "generated/stories/" +:+ id s +:+ "/" +:+ u +:+ ".png".
Proof. unfold story_image_path. rewrite split_last_png. reflexivity. Qed.

Lemma create_story user prompt input_method st_status w :
  let s := story (Views.create env user prompt input_method st_status w) in
  id s = uuid4 env (trace w) /\ Models.user s = user /\ Models.prompt s = prompt /\
  Models.input_method s = input_method.
Proof.
  unfold Views.create. cbv zeta.
  match goal with |- context [Views.save env ?s] =>
    pose proof (after_save_content env s) as ((Hid & Hu & Hp & Him & _) & _) end.
  unfold after_save in *. norm_all. auto.
Qed.

(** [post] on a machine with the table, for a request with some input. *)
Lemma post_created request w :
  table_exists env = true ->
  let prompt := Py.strip (Views.form_get (Views.POST_prompt request) EmptyString) in
  let audio_file := Views.FILES_audio_file request in
  Py.truthy prompt || upload_truthy audio_file = true ->
  exists s,
    Views.created (Views.post env request w) = Some s /\
    Models.prompt s = prompt /\
    Models.input_method s = Views.choose_input_method prompt audio_file /\
    db (Views.world_after (Views.post env request w)) !! id s = Some s /\
    (status s = "completed" ->
     Views.response (Views.post env request w) = Views.RedirectResult (id s) /\
     exists st0 st1,
       generated env (time_at_start env) st0 st1 /\ s = story st1 /\
       files (Views.world_after (Views.post env request w)) = files (world st1)).
Proof.
  intros Htable prompt audio_file Hinput. unfold Views.post. rewrite Htable.
  cbn [negb]. fold prompt. fold audio_file.
  replace (negb (Py.truthy prompt) && negb (upload_truthy audio_file)) with false
    by (destruct (Py.truthy prompt), (upload_truthy audio_file);
        try reflexivity; discriminate).
  match goal with |- context [Views.create env ?u ?p ?m ?t ?w0] =>
    destruct (create_story u p m t w0) as (Cid & Cu & Cp & Cm);
    set (st := Views.create env u p m t w0) in * end.
  match goal with |- context [Views.post_after_create env ?a ?l ?y st] =>
    pose proof (post_after_create_spec env a l y st) as H;
    unfold wp, responded in H;
    destruct (Views.post_after_create env a l y st) as [[resp|e] st'] end;
    cbn [fst snd] in H; destruct H as ((Hid & Hu & Hp & Hm) & Hrow & [r Hr] & Hdone);
    [|discriminate].
  cbn [Views.created Views.world_after Views.response].
  exists (story st'). split; [reflexivity|].
  split; [congruence|]. split; [congruence|]. split; [exact Hrow|].
  intros Hc. destruct (Hdone Hc) as (Heq & st0 & st1 & Hgen & Hs & Hf & _).
  split; [congruence|]. exists st0, st1. auto.
Qed.

End PostFacts.

(** C4, as the code has it: [post] creates a record exactly when the
    table exists and the stripped prompt is not empty or an audio file is
    attached.  When the table does not exist it redirects to the index
    with the message that the database is not ready and creates nothing,
    whatever the input; when the table exists and there is no input it
    redirects to the index with an error message and leaves the database
    as it was.  The record keeps the stripped prompt; its [input_method]
    is ['text'] without audio, ['audio'] with audio and no prompt,
    ['both'] with the two; [get_input_text] is then the prompt, the
    transcribed text, or the two joined by a space and stripped. *)
Theorem post_creates_record (env : Env) (request : Views.Request) (w : World) :
  let prompt := Py.strip (Views.form_get (Views.POST_prompt request) EmptyString) in
  let attached := Models.upload_truthy (Views.FILES_audio_file request) in
  let r := Views.post env request w in
  (is_Some (Views.created r) <->
   table_exists env = true /\ (Py.truthy prompt = true \/ attached = true)) /\
  (table_exists env = false ->
   Views.response r = Views.RedirectIndex /\
   Views.created r = None /\
   db (Views.world_after r) = db w /\
   files (Views.world_after r) = files w /\
   trace (Views.world_after r)
     = trace w ++ [EvMessage "error"
                     "🚨 Database not ready! Please run: python manage.py migrate"]) /\
  (table_exists env = true ->
   Views.created r = None ->
   Views.response r = Views.RedirectIndex /\
   db (Views.world_after r) = db w /\
   files (Views.world_after r) = files w /\
   trace (Views.world_after r)
     = trace w ++ [EvMessage "error"
                     "Please provide either text input or audio file."]) /\
  (forall s, Views.created r = Some s ->
     db (Views.world_after r) !! Models.id s = Some s /\
     Models.prompt s = prompt /\
     Models.input_method s
       = (if attached then (if Py.truthy prompt then "both" else "audio")
          else "text") /\
     Models.get_input_text s
       = (if attached
          then (if Py.truthy prompt
                then Py.strip (prompt +:+ " " +:+ Models.transcribed_text s)
                else Models.transcribed_text s)
          else prompt)).
Proof.
  intros prompt attached r.
  destruct (table_exists env) eqn:Htable.
  2:{ assert (Hr : r = {| Views.response := Views.RedirectIndex;
                          Views.created := None;
                          Views.world_after :=
                            log_event w (EvMessage "error"
                              "🚨 Database not ready! Please run: python manage.py migrate") |}).
      { subst r. unfold Views.post. rewrite Htable. reflexivity. }
      rewrite Hr. cbn [Views.created Views.response Views.world_after].
      split.
      { split; [intros [x Hx]; discriminate | intros [H _]; discriminate]. }
      split; [intros _; repeat split|]. split; discriminate. }
  destruct (Py.truthy prompt || attached) eqn:Hinput.
  - destruct (post_created env request w Htable Hinput)
      as (s & Hs & Hp & Hm & Hrow & _).
    fold prompt in Hp, Hm. fold r in Hs, Hrow.
    split.
    { split; [intros _|intros _; rewrite Hs; eauto].
      split; [reflexivity|]. apply orb_true_iff. exact Hinput. }
    split; [discriminate|].
    split; [rewrite Hs; discriminate|].
    intros s' Hs'. rewrite Hs in Hs'. injection Hs' as <-.
    split; [exact Hrow|]. split; [exact Hp|].
    unfold Models.get_input_text. rewrite Hm, Hp.
    unfold Views.choose_input_method. fold attached.
    destruct (Py.truthy prompt), attached; try discriminate; split; reflexivity.
  - apply orb_false_iff in Hinput as [Hp Ha].
    assert (Hr : r = {| Views.response := Views.RedirectIndex;
                        Views.created := None;
                        Views.world_after :=
                          log_event w (EvMessage "error"
                            "Please provide either text input or audio file.") |}).
    { subst r. unfold Views.post. rewrite Htable. cbn [negb].
      fold prompt. fold attached. rewrite Hp, Ha. reflexivity. }
    rewrite Hr. cbn [Views.created Views.response Views.world_after].
    split.
    { split; [intros [x Hx]; discriminate|].
      intros [_ [H|H]]; [rewrite Hp in H | rewrite Ha in H]; discriminate. }
    split; [discriminate|].
    split; [intros _ _; repeat split|]. discriminate.
Qed.

Lemma post_creates_record_witness :
  table_exists Sample.offline = true /\
  (exists s,
     Views.created (Views.post Sample.offline Sample.text_request Sample.empty_world)
       = Some s /\
     Models.prompt s = "A knight and a dragon" /\
     Models.input_method s = "text" /\
     Models.get_input_text s = "A knight and a dragon") /\
  Views.created (Views.post Sample.not_migrated Sample.text_request Sample.empty_world)
    = None.
Proof.
  split; [reflexivity|].
  split.
  - pose proof (post_creates_record Sample.offline Sample.text_request
                  Sample.empty_world) as (Hiff & _ & _ & Hs).
    destruct (proj2 Hiff (conj eq_refl (or_introl eq_refl))) as [s Hcreated].
    exists s. split; [exact Hcreated|].
    destruct (Hs s Hcreated) as (_ & Hp & Hm & Hg).
    split; [exact Hp|]. split; [exact Hm | exact Hg].
  - exact (proj1 (proj2 (proj1 (proj2
             (post_creates_record Sample.not_migrated Sample.text_request
                Sample.empty_world)) eq_refl))).
Defined.

(** A prompt made of blanks is no input, whether the blanks are those of
    ASCII or not: here a no-break space, a space and an em space. *)
Example blank_prompt_creates_nothing :
  let request :=
    {| Views.POST_prompt := Some (Py.chr 160 +:+ " " +:+ Py.chr 8195);
       Views.FILES_audio_file := None;
       Views.POST_story_length := None;
       Views.POST_image_style := None;
       Views.authenticated_user := None |} in
  Views.created (Views.post Sample.offline request Sample.empty_world) = None /\
  trace (Views.world_after (Views.post Sample.offline request Sample.empty_world))
  = [EvMessage "error" "Please provide either text input or audio file."].
Proof. split; vm_compute; reflexivity. Qed.

(** C4, as the specification words it, fails: with a prompt that is not
    empty after stripping, [post] creates no record when the table of the
    model does not exist; it redirects with the message that the database
    is not ready. *)
Lemma post_needs_the_table :
  ~ (forall (env : Env) (request : Views.Request) (w : World),
       is_Some (Views.created (Views.post env request w)) <->
       Py.truthy (Py.strip (Views.form_get (Views.POST_prompt request) EmptyString))
         = true \/
       Models.upload_truthy (Views.FILES_audio_file request) = true).
Proof.
  intros H.
  destruct (proj2 (H Sample.not_migrated Sample.text_request Sample.empty_world)
              (or_introl eq_refl)) as [s Hs].
  vm_compute in Hs. discriminate.
Qed.

Section ImageFiles.

Variable env : Env.

(** What the image generators return is the encoding of an image. *)
Lemma generate_character_image_png g description style st blob g' :
  fst (Gpu.generate_character_image env g description style st) = Return (blob, g') ->
  exists im, blob = PIL.PngOf im.
Proof.
  unfold Gpu.generate_character_image, bind.
  destruct (ready_spec env g style st) as (ok & g1 & evs & -> & Hg). cbn [fst snd].
  destruct ok.
  - unfold try_except, bind.
    match goal with |- context [Gpu.run_pipeline env ?c ?s] =>
      destruct (run_pipeline_cases env c s) as [[im ->]|[e ->]] end;
      cbn [fst snd ret]; intros H; injection H as <- _;
      unfold Gpu._create_artistic_character_placeholder; eexists; reflexivity.
  - cbn [fst snd ret]. intros H. injection H as <- _.
    unfold Gpu._create_artistic_character_placeholder. eexists. reflexivity.
Qed.

Lemma generate_background_image_png g description style st blob g' :
  fst (Gpu.generate_background_image env g description style st) = Return (blob, g') ->
  exists im, blob = PIL.PngOf im.
Proof.
  unfold Gpu.generate_background_image, bind.
  destruct (ready_spec env g style st) as (ok & g1 & evs & -> & Hg). cbn [fst snd].
  destruct ok.
  - unfold try_except, bind.
    match goal with |- context [Gpu.run_pipeline env ?c ?s] =>
      destruct (run_pipeline_cases env c s) as [[im ->]|[e ->]] end;
      cbn [fst snd ret]; intros H; injection H as <- _;
      unfold Gpu._create_artistic_background_placeholder; eexists; reflexivity.
  - cbn [fst snd ret]. intros H. injection H as <- _.
    unfold Gpu._create_artistic_background_placeholder. eexists. reflexivity.
Qed.

Lemma compose_result_png a b : exists im, compose_result env a b = PIL.PngOf im.
Proof.
  unfold compose_result, placeholder_png.
  destruct a as [[c|raw]|]; try (eexists; reflexivity).
  destruct b as [[b|raw]|]; try (eexists; reflexivity).
  destruct (scalable c b); eexists; reflexivity.
Qed.

(** The three image files after the generation, when the three names
    differ. *)
Lemma before_save_files start_time image_style st stN :
  before_save env start_time image_style st stN ->
  let s := story (after_save env stN) in
  exists blob_c blob_b g1 g2 st_c st_b name_c name_b name_s,
    Models.image_model_used s = "Stable Diffusion (" +:+ image_style +:+ ")" /\
    Models.character_image s = Some name_c /\
    Models.background_image s = Some name_b /\
    Models.composed_image s = Some name_s /\
    fst (Gpu.generate_character_image env (Gpu.__init__ env)
           (Models.character_description s) image_style st_c)
      = Return (blob_c, g1) /\
    fst (Gpu.generate_background_image env g1
           (Models.background_description s) image_style st_b)
      = Return (blob_b, g2) /\
    (name_c <> name_b -> name_c <> name_s -> name_b <> name_s ->
     let file name :=
       files (world (after_save env stN)) !! Views.media_path env name in
     file name_c = Some blob_c /\ file name_b = Some blob_b /\
     file name_s = Some (compose_result env (Some blob_c) (Some blob_b))).
Proof.
  intros Hb. unfold before_save in Hb. cbv zeta in Hb.
  destruct Hb as (self & text & cd & bd & u1 & u2 & u3 & blob1 & blob2 & g1 & g2
                  & st_cd & st_bd & st_c & st_b & Hinput & Hwords & Htext
                  & Hsrc1 & Hcd & Hcd' & Hsrc2 & Hbd & Hbd' & Hsrc3 & Hsrc4
                  & Hstory & Hfiles & Hdb).
  pose proof (after_save_content env stN) as Hc.
  assert (Hkeep : forall s u name,
            files (world (after_save env stN))
              !! Views.media_path env (Models.story_image_path s u name)
            = files (world stN)
                !! Views.media_path env (Models.story_image_path s u name))
    by (intros; apply after_save_image_file).
  cbv zeta. set (st' := after_save env stN) in *.
  rewrite Hstory in Hc. rewrite Hfiles in Hkeep. clear Hstory Hfiles.
  destruct Hc as (_ & _ & Hcd0 & Hbd0 & Hci & Hbi & Hco & _ & Himg & _).
  norm_all.
  exists blob1, blob2, g1, g2, st_c, st_b.
  do 3 eexists.
  split; [exact Himg|]. split; [exact Hci|]. split; [exact Hbi|].
  split; [exact Hco|].
  split; [rewrite Hcd0; exact Hsrc3|]. split; [rewrite Hbd0; exact Hsrc4|].
  intros N1 N2 N3.
  assert (P1 : forall a b : string, a <> b ->
            Views.media_path env a <> Views.media_path env b)
    by (intros a b Hab H; apply Hab, (media_path_inj env), H).
  rewrite !Hkeep.
  rewrite !(lookup_insert_ne _ _ _ _ (P1 _ _ (not_eq_sym N2))).
  rewrite !(lookup_insert_ne _ _ _ _ (P1 _ _ (not_eq_sym N3))).
  rewrite !(lookup_insert_ne _ _ _ _ (P1 _ _ (not_eq_sym N1))).
  rewrite !lookup_insert_eq.
  split; [reflexivity|]. split; reflexivity.
Qed.

End ImageFiles.

(** C1, as the code has it: when the record that [post] created ends with
    the status ['completed'], the response is the result page, the record
    holds a story of more than 100 words, a character description and a
    background description that are not empty, and a generation time; each
    of the three image fields holds the storage name
    [generated/stories/<id>/<uuid4>.png] that [story_image_path] makes of
    the names [character_<id>.png], [background_<id>.png] and
    [composed_<id>.png] passed to [field.save], the storage has a file
    under each of these names, and the row of the record is the record.
    The files are two rendered images and a composed scene: provided
    [uuid4] gave three different names, the first file holds the PNG that
    [generate_character_image] returned for the character description of
    the record, the second the PNG that [generate_background_image]
    returned for its background description, both in the style recorded
    in [image_model_used], and the third the PNG that [compose_images]
    makes of these two files. *)
Theorem completed_record_is_filled (env : Env) (request : Views.Request)
    (w : World) (s : Models.StoryGeneration) :
  Views.created (Views.post env request w) = Some s ->
  Models.status s = "completed" ->
  let r := Views.post env request w in
  let stored field requested :=
    exists u,
      field = Some ("generated/stories/" +:+ Models.id s +:+ "/" +:+ u +:+ ".png") /\
      Models.story_image_path s u requested
        = "generated/stories/" +:+ Models.id s +:+ "/" +:+ u +:+ ".png" /\
      is_Some (files (Views.world_after r)
                 !! Views.media_path env
                      ("generated/stories/" +:+ Models.id s +:+ "/" +:+ u +:+ ".png")) in
  Views.response r = Views.RedirectResult (Models.id s) /\
  Py.truthy (Models.story_text s) = true /\
  100 < Py.word_count (Models.story_text s) /\
  Models.story_word_count s = Py.word_count (Models.story_text s) /\
  Py.truthy (Models.character_description s) = true /\
  Py.truthy (Models.background_description s) = true /\
  stored (Models.character_image s) ("character_" +:+ Models.id s +:+ ".png") /\
  stored (Models.background_image s) ("background_" +:+ Models.id s +:+ ".png") /\
  stored (Models.composed_image s) ("composed_" +:+ Models.id s +:+ ".png") /\
  is_Some (Models.generation_time s) /\
  db (Views.world_after r) !! Models.id s = Some s /\
  exists image_style blob_c blob_b g1 g2 st_c st_b name_c name_b name_s im_c im_b im_s,
    Models.image_model_used s = "Stable Diffusion (" +:+ image_style +:+ ")" /\
    Models.character_image s = Some name_c /\
    Models.background_image s = Some name_b /\
    Models.composed_image s = Some name_s /\
    fst (Gpu.generate_character_image env (Gpu.__init__ env)
           (Models.character_description s) image_style st_c)
      = Return (blob_c, g1) /\
    fst (Gpu.generate_background_image env g1
           (Models.background_description s) image_style st_b)
      = Return (blob_b, g2) /\
    blob_c = PIL.PngOf im_c /\ blob_b = PIL.PngOf im_b /\
    (name_c <> name_b -> name_c <> name_s -> name_b <> name_s ->
     let file name := files (Views.world_after r) !! Views.media_path env name in
     file name_c = Some blob_c /\ file name_b = Some blob_b /\
     file name_s = Some (PIL.PngOf im_s) /\
     forall g,
       Gpu.compose_images env g (Views.media_path env name_c)
         (Views.media_path env name_b)
         {| story := s; world := Views.world_after r |}
       = (Return (PIL.PngOf im_s), {| story := s; world := Views.world_after r |})).
Proof.
  intros Hcreated Hstatus r stored.
  assert (Htable : table_exists env = true).
  { destruct (table_exists env) eqn:E; [reflexivity|].
    unfold Views.post in Hcreated. rewrite E in Hcreated. discriminate. }
  assert (Hinput : Py.truthy (Py.strip (Views.form_get (Views.POST_prompt request)
                                          EmptyString))
                   || Models.upload_truthy (Views.FILES_audio_file request) = true).
  { destruct (_ || _) eqn:E; [reflexivity|].
    apply orb_false_iff in E as [E1 E2].
    unfold Views.post in Hcreated. rewrite Htable, E1, E2 in Hcreated.
    discriminate. }
  destruct (post_created env request w Htable Hinput)
    as (s' & Hs' & _ & _ & Hrow & Hdone).
  fold r in Hs', Hrow, Hdone. unfold r in Hs' at 1. rewrite Hcreated in Hs'.
  injection Hs' as <-.
  destruct (Hdone Hstatus) as (Hresp & st0 & st1 & Hgen & Hs & Hfiles).
  destruct Hgen as (_ & Htime & _ & Hwords & Hcount & Hcd & Hbd & Hci & Hbi
                    & Hco & _ & _ & _ & Himages).
  rewrite <- Hs in *.
  assert (Hstored : forall field base,
            stored_image env (world st1) s field (base +:+ ".png") ->
            stored field (base +:+ ".png")).
  { intros field base (u & Hf & Hfile). exists u.
    rewrite story_image_path_png in Hf, Hfile.
    split; [exact Hf|]. split; [apply story_image_path_png|].
    rewrite Hfiles. exact Hfile. }
  split; [exact Hresp|].
  split; [apply word_count_truthy; lia|].
  split; [exact Hwords|]. split; [exact Hcount|].
  split; [exact Hcd|]. split; [exact Hbd|].
  split; [apply (Hstored _ ("character_" +:+ Models.id s)), Hci|].
  split; [apply (Hstored _ ("background_" +:+ Models.id s)), Hbi|].
  split; [apply (Hstored _ ("composed_" +:+ Models.id s)), Hco|].
  split; [rewrite Htime; eauto|]. split; [exact Hrow|].
  destruct Himages as (image_style & stN & Hbefore & Hst1).
  destruct (before_save_files env _ _ _ _ Hbefore)
    as (blob_c & blob_b & g1 & g2 & st_c & st_b & name_c & name_b & name_s
        & Hmodel & Fc & Fb & Fs & Gc & Gb & Hcontent).
  cbv zeta in Hcontent. rewrite <- Hst1, <- Hs in *. rewrite <- Hfiles in Hcontent.
  destruct (generate_character_image_png env _ _ _ _ _ _ Gc) as [im_c Him_c].
  destruct (generate_background_image_png env _ _ _ _ _ _ Gb) as [im_b Him_b].
  destruct (compose_result_png env (Some blob_c) (Some blob_b)) as [im_s Him_s].
  exists image_style, blob_c, blob_b, g1, g2, st_c, st_b, name_c, name_b, name_s,
    im_c, im_b, im_s.
  split; [exact Hmodel|]. split; [exact Fc|]. split; [exact Fb|].
  split; [exact Fs|]. split; [exact Gc|]. split; [exact Gb|].
  split; [exact Him_c|]. split; [exact Him_b|].
  intros N1 N2 N3. destruct (Hcontent N1 N2 N3) as (C1 & C2 & C3).
  cbv zeta. rewrite <- Him_s.
  split; [exact C1|]. split; [exact C2|]. split; [exact C3|].
  intros g. rewrite compose_images_eq. cbn [world files]. rewrite C1, C2.
  reflexivity.
Qed.

(** A run without any service: the prompt of [Sample.text_request] on
    [Sample.offline]. *)
Lemma offline_run_completes :
  exists s,
    Views.created (Views.post Sample.offline Sample.text_request Sample.empty_world)
      = Some s /\
    Models.status s = "completed" /\
    Models.character_image s = Some "generated/stories/uuid-0/uuid-2.png" /\
    Models.background_image s = Some "generated/stories/uuid-0/uuid-3.png" /\
    Models.composed_image s = Some "generated/stories/uuid-0/uuid-4.png".
Proof.
  eexists. split; [vm_compute; reflexivity|]. repeat split; reflexivity.
Qed.

Lemma completed_record_is_filled_witness :
  exists s,
    Views.created (Views.post Sample.offline Sample.text_request Sample.empty_world)
      = Some s /\
    Models.status s = "completed" /\
    Models.character_image s = Some "generated/stories/uuid-0/uuid-2.png" /\
    100 < Py.word_count (Models.story_text s) /\
    files (Views.world_after
             (Views.post Sample.offline Sample.text_request Sample.empty_world))
      !! "/srv/media/generated/stories/uuid-0/uuid-2.png"%string
    = Some (Gpu._create_artistic_character_placeholder Sample.offline EmptyString).
Proof.
  destruct offline_run_completes as (s & Hcreated & Hstatus & Hc & Hb & Hs).
  exists s. split; [exact Hcreated|]. split; [exact Hstatus|].
  split; [exact Hc|].
  pose proof (completed_record_is_filled Sample.offline Sample.text_request
                Sample.empty_world s Hcreated Hstatus) as H.
  cbv zeta in H.
  split; [exact (proj1 (proj2 (proj2 H)))|].
  destruct H as (_ & _ & _ & _ & _ & _ & _ & _ & _ & _ & _ & H).
  destruct H as (style & blob_c & blob_b & g1 & g2 & st_c & st_b & name_c & name_b
                 & name_s & im_c & im_b & im_s & _ & Fc & Fb & Fs & Gc & _ & _ & _
                 & Hfiles).
  rewrite Hc in Fc. rewrite Hb in Fb. rewrite Hs in Fs.
  injection Fc as <-. injection Fb as <-. injection Fs as <-.
  destruct (Hfiles ltac:(discriminate) ltac:(discriminate) ltac:(discriminate))
    as (Hfile & _).
  unfold Gpu.generate_character_image, Gpu.ready, bind, ret in Gc.
  cbn in Gc. injection Gc as <- _. exact Hfile.
Defined.

(** C1, as the specification words it, fails: in a run that ends
    ['completed'], the names [character_<id>.png], [background_<id>.png]
    and [composed_<id>.png] are only what the view passes to [field.save];
    [story_image_path] replaces them by [<uuid4>.png] under
    [generated/stories/<id>/], so that neither the fields nor the storage
    know the names of the claim. *)
Lemma image_files_are_renamed :
  ~ (forall (env : Env) (request : Views.Request) (w : World)
       (s : Models.StoryGeneration),
       Views.created (Views.post env request w) = Some s ->
       Models.status s = "completed" ->
       let saved_as field name :=
         field = Some name \/
         is_Some (files (Views.world_after (Views.post env request w))
                    !! Views.media_path env name) in
       saved_as (Models.character_image s) ("character_" +:+ Models.id s +:+ ".png") /\
       saved_as (Models.background_image s) ("background_" +:+ Models.id s +:+ ".png") /\
       saved_as (Models.composed_image s) ("composed_" +:+ Models.id s +:+ ".png")).
Proof.
  intros H.
  destruct offline_run_completes as (s & Hcreated & Hstatus & Himage & _).
  destruct (H _ _ _ s Hcreated Hstatus) as ([Hfield|Hfile] & _).
  - rewrite Himage in Hfield. simpl in Hfield. discriminate Hfield.
  - revert Hfile. vm_compute in Hcreated. injection Hcreated as <-.
    vm_compute. intros [x Hx]. discriminate.
Qed.

(** ** Descriptions *)

Lemma fallback_character_rules story :
  Ollama._fallback_character_description story
  = first_match character_rules Ollama.adventurer_description (Py.lower story).
Proof.
  unfold Ollama._fallback_character_description, character_rules, first_match,
    Py.any_in, existsb. cbv zeta.
  rewrite !orb_false_r. reflexivity.
Qed.

Lemma fallback_scene_rules story :
  Ollama._fallback_scene_description story
  = first_match scene_rules Ollama.landscape_scene (Py.lower story).
Proof.
  unfold Ollama._fallback_scene_description, scene_rules, first_match,
    Py.any_in, existsb. cbv zeta.
  rewrite !orb_false_r. reflexivity.
Qed.

(** C5, as the code has it: in fallback mode the character description is
    the one of the first rule among 'knight'/'sword', 'wizard'/'magic',
    'space'/'star' that matches the lowercased story, else the adventurer;
    the scene description is the one of the first rule among
    'forest'/'tree', 'castle'/'tower', 'space'/'star', else the landscape.
    In the pipeline both generators are given the story text of the
    record: when a run completes, the two descriptions are results of the
    two operations on [story_text], and without Ollama they are the two
    fallback descriptions of [story_text]. *)
Theorem descriptions_come_from_the_story (env : Env) (story_text : string)
    (self : Ollama.OllamaStoryGenerator) (length image_style : string) (st : St) :
  Ollama._fallback_character_description story_text
    = first_match character_rules Ollama.adventurer_description
        (Py.lower story_text) /\
  Ollama._fallback_scene_description story_text
    = first_match scene_rules Ollama.landscape_scene (Py.lower story_text) /\
  (Ollama.available self = false ->
   Ollama.generate_character_description env self story_text st
     = (Return (Ollama._fallback_character_description story_text), st) /\
   Ollama.generate_scene_description env self story_text st
     = (Return (Ollama._fallback_scene_description story_text), st)) /\
  (let s' := story (snd (Views._generate_enhanced_story_content env length
                           image_style st)) in
   Models.status s' = "completed" ->
   (exists generator st_c st_b,
      fst (Ollama.generate_character_description env generator
             (Models.story_text s') st_c)
        = Return (Models.character_description s') /\
      fst (Ollama.generate_scene_description env generator
             (Models.story_text s') st_b)
        = Return (Models.background_description s')) /\
   (ollama_down env ->
    Models.character_description s'
      = Ollama._fallback_character_description (Models.story_text s') /\
    Models.background_description s'
      = Ollama._fallback_scene_description (Models.story_text s'))).
Proof.
  split; [apply fallback_character_rules|].
  split; [apply fallback_scene_rules|].
  split.
  { intros Ha.
    rewrite generate_character_description_eq, generate_scene_description_eq, Ha.
    split; reflexivity. }
  intros s' Hdone. subst s'.
  destruct (generate_content_spec env length image_style st)
    as (_ & _ & _ & Hcase).
  destruct (Views.generation_try env (time_at_start env) length image_style st)
    as [[[]|e] st1].
  - destruct Hcase as [Heq Hgen]. rewrite Heq in *.
    destruct Hgen as (_ & _ & _ & _ & _ & _ & _ & _ & _ & _ & Hdown & Hsrc & _).
    split; [exact Hsrc|]. intros Hd. apply (Hdown Hd).
  - destruct Hcase as (Herr & _). rewrite Herr in Hdone. discriminate.
Qed.

Lemma descriptions_come_from_the_story_witness :
  Ollama.available Sample.generator_off = false /\
  Ollama.generate_character_description Sample.offline Sample.generator_off
    "The wizard drew a sword." Sample.fresh
    = (Return Ollama.knight_description, Sample.fresh) /\
  Ollama.generate_scene_description Sample.offline Sample.generator_off
    "The wizard drew a sword." Sample.fresh
    = (Return Ollama.landscape_scene, Sample.fresh).
Proof.
  split; [reflexivity|].
  exact (proj1 (proj2 (proj2
           (descriptions_come_from_the_story Sample.offline
              "The wizard drew a sword." Sample.generator_off
              "medium" "realistic" Sample.fresh))) eq_refl).
Defined.

(** C5, as the specification words it, fails for the scene: its rules are
    not keyed on 'knight'/'sword', 'wizard'/'magic', 'space'/'star'.  The
    story "forest" has none of these six keywords, so that the rules of
    the claim give the default landscape whatever their descriptions, and
    [_fallback_scene_description] gives the enchanted forest. *)
Lemma scene_rules_are_not_the_character_rules :
  ~ (exists d1 d2 d3 : string,
       forall story : string,
         Ollama._fallback_scene_description story
         = first_match [(["knight"; "sword"], d1); (["wizard"; "magic"], d2);
                        (["space"; "star"], d3)]
             Ollama.landscape_scene (Py.lower story)).
Proof.
  intros (d1 & d2 & d3 & H). specialize (H "forest"%string).
  vm_compute in H. discriminate H.
Qed.

(** ** Runs of the model *)

(** A storage failure on the second image: the status is ['error'], the
    message is the text of the exception, and what was assigned before the
    exception is still there. *)
Example storage_failure_run :
  let r := Views.post Sample.disk_full Sample.text_request Sample.empty_world in
  exists s,
    Views.created r = Some s /\
    Views.response r = Views.RedirectIndex /\
    Models.status s = "error" /\
    Models.error_message s = "No space left on device" /\
    Models.story_word_count s = 216 /\
    Models.character_image s = Some "generated/stories/uuid-0/uuid-2.png" /\
    Models.background_image s = None /\
    Models.generation_time s = None /\
    db (Views.world_after r) !! "uuid-0"%string = Some s.
Proof.
  eexists. split; [vm_compute; reflexivity|]. vm_compute. repeat split.
Qed.

(** An Ollama server that answers with two words: the story is the
    template, the descriptions are the stripped answers, and the run sends
    three POST requests. *)
Example terse_ollama_run :
  let r := Views.post Sample.terse_ollama Sample.text_request Sample.empty_world in
  exists s,
    Views.created r = Some s /\
    Models.status s = "completed" /\
    Models.story_text s = Ollama._generate_fallback_story "A knight and a dragon" /\
    Models.character_description s = "A tower." /\
    Models.background_description s = "A tower." /\
    posts (trace (Views.world_after r)) = 3%nat.
Proof.
  eexists. split; [vm_compute; reflexivity|]. vm_compute. repeat split.
Qed.

(** An audio request without audio libraries ends before generation. *)
Example audio_without_libraries_run :
  let request :=
    {| Views.POST_prompt := None;
       Views.FILES_audio_file :=
         Some {| Models.uf_name := "speech.wav"; Models.uf_size := 2048;
                 Models.uf_data := "RIFF" |};
       Views.POST_story_length := Some "short"%string;
       Views.POST_image_style := None;
       Views.authenticated_user := Some "ada"%string |} in
  let r := Views.post Sample.offline request Sample.empty_world in
  exists s,
    Views.created r = Some s /\
    Views.response r = Views.RedirectIndex /\
    Models.input_method s = "audio" /\
    Models.status s = "error" /\
    Models.error_message s
      = "Audio transcription failed: Audio processing not available" /\
    Models.audio_file s = Models.Stored "audio/uploads/audio_uuid-1.wav" /\
    posts (trace (Views.world_after r)) = 0%nat.
Proof.
  eexists. split; [vm_compute; reflexivity|]. vm_compute. repeat split.
Qed.

(** On sizes up to 4096, [int(h * 0.8)] is [4h/5] rounded down and
    [int(w * 0.25)] is [w/4] rounded down. *)
Example scaling_on_usual_sizes :
  forallb (fun n => (scaled_height n =? n * 4 / 5)
                    && (Py.int (Py.float_of_int n * 0.25)%float =? n / 4))
    (map Z.of_nat (seq 0 4097)) = true.
Proof. vm_compute. reflexivity. Qed.

(** * More properties *)

(** ** Strings *)

Section StringFacts.

Lemma has_char_split_last sep s : Py.has_char sep (Py.split_last sep s) = false.
Proof.
  induction s as [|c s IH]; [reflexivity|]. cbn [Py.split_last].
  destruct (Py.has_char sep s) eqn:E; [exact IH|].
  destruct (Ascii.eqb c sep) eqn:Ec; [exact E|].
  cbn [Py.has_char]. rewrite Ec, E. reflexivity.
Qed.

Lemma split_last_after sep a e :
  Py.has_char sep e = false ->
  Py.split_last sep (a +:+ String sep e) = e.
Proof.
  intros He. induction a as [|c a IH].
  - rewrite append_nil. cbn [Py.split_last]. rewrite He, Ascii.eqb_refl.
    reflexivity.
  - rewrite append_cons. cbn [Py.split_last].
    rewrite has_char_app_r; [exact IH|].
    cbn [Py.has_char]. rewrite Ascii.eqb_refl. reflexivity.
Qed.

End StringFacts.

(** ** Display of a record *)

(** X1: [StoryGeneration.__str__], lengths being counted in characters
    (code points).  For a record with a prompt of at most 50 characters it
    is "Story: " and the prompt; with a longer prompt it is "Story: ", the
    first 50 characters of the prompt and "...", 60 characters in all.
    Without a prompt but with a transcription it is "Audio Story: ", the
    first 50 characters of the transcription and "...", dots included even
    when nothing was cut, at most 66 characters; with neither it is
    "Story " and the key. *)
Theorem str_of_record (s : Models.StoryGeneration) :
  let p := Models.prompt s in
  let t := Models.transcribed_text s in
  (Py.truthy p = true ->
   Py.startswith ("Story: " +:+ Py.take 50 p) (Display.__str__ s) = true /\
   Py.len (Display.__str__ s) <= 60 /\
   (Py.len p <= 50 -> Display.__str__ s = "Story: " +:+ p) /\
   (50 < Py.len p ->
    Display.__str__ s = "Story: " +:+ Py.take 50 p +:+ "..." /\
    Py.len (Display.__str__ s) = 60)) /\
  (Py.truthy p = false -> Py.truthy t = true ->
   Display.__str__ s = "Audio Story: " +:+ Py.take 50 t +:+ "..." /\
   Py.len (Display.__str__ s) <= 66) /\
  (Py.truthy p = false -> Py.truthy t = false ->
   Display.__str__ s = "Story " +:+ Models.id s).
Proof.
  intros p t. subst p t. unfold Display.__str__.
  split; [|split].
  - intros Hp. rewrite Hp.
    destruct (50 <? Py.len (Models.prompt s)) eqn:E.
    + apply Z.ltb_lt in E.
      assert (L : Py.len ("Story: " +:+ Py.take 50 (Models.prompt s) +:+ "...") = 60).
      { rewrite len_app_ascii by reflexivity.
        rewrite len_app_plain by reflexivity.
        rewrite len_take_long by lia. reflexivity. }
      split; [rewrite <- str_append_assoc; apply startswith_app|].
      split; [lia|]. split; [lia|]. intros _. split; [reflexivity | exact L].
    + apply Z.ltb_ge in E. rewrite (take_all 50) by exact E.
      split; [apply startswith_refl|].
      split; [rewrite len_app_ascii by reflexivity;
              change (Py.len "Story: ") with 7; lia|].
      split; [reflexivity | lia].
  - intros Hp Ht. rewrite Hp, Ht. split; [reflexivity|].
    rewrite len_app_ascii by reflexivity. rewrite len_app_plain by reflexivity.
    change (Py.len "Audio Story: ") with 13. change (Py.len "...") with 3.
    pose proof (len_take 50 (Models.transcribed_text s)). lia.
  - intros Hp Ht. rewrite Hp, Ht. reflexivity.
Qed.

Lemma str_of_record_witness :
  Py.truthy (Models.prompt (story Sample.fresh)) = true /\
  Display.__str__ (story Sample.fresh) = "Story: A knight and a dragon" /\
  Display.__str__ (Models.set_transcribed_text "Hi"
                     (Views.create Sample.offline None EmptyString "audio"
                        "pending" Sample.empty_world).(story))
    = "Audio Story: Hi...".
Proof.
  split; [reflexivity|].
  split.
  - exact (proj1 (proj2 (proj2 (proj1 (str_of_record (story Sample.fresh)) eq_refl)))
             ltac:(vm_compute; discriminate)).
  - exact (proj1 (proj1 (proj2 (str_of_record
             (Models.set_transcribed_text "Hi"
                (Views.create Sample.offline None EmptyString "audio"
                   "pending" Sample.empty_world).(story)))) eq_refl eq_refl)).
Defined.

(** X2: [prompt_preview] of the admin, lengths being counted in
    characters (code points): the characters of the preview are the first
    50 characters of the input text, followed by three dots exactly when
    the input text has more than 50 characters.  So the preview is the
    input text itself when that has at most 50 characters, and it has 53
    characters otherwise. *)
Theorem prompt_preview_bounded (obj : Models.StoryGeneration) :
  let text := Models.get_input_text obj in
  Py.chars (Display.prompt_preview obj)
    = firstn 50 (Py.chars text)
      ++ (if 50 <? Py.len text then ["."; "."; "."] else []) /\
  Py.len (Display.prompt_preview obj) <= 53 /\
  Py.startswith (Py.take 50 text) (Display.prompt_preview obj) = true /\
  (if 50 <? Py.len text
   then Display.prompt_preview obj = Py.take 50 text +:+ "..." /\
        Py.len (Display.prompt_preview obj) = 53
   else Display.prompt_preview obj = text).
Proof.
  intros text. unfold Display.prompt_preview. fold text.
  destruct (50 <? Py.len text) eqn:E.
  - apply Z.ltb_lt in E.
    assert (L : Py.len (Py.take 50 text +:+ "...") = 53).
    { rewrite len_app_plain by reflexivity.
      rewrite len_take_long by lia. reflexivity. }
    split.
    { unfold Py.take.
      rewrite (chars_app_plain _ _ _ (chars_take 50 text)) by reflexivity.
      reflexivity. }
    split; [rewrite L; lia|].
    split; [apply startswith_app | split; [reflexivity | exact L]].
  - apply Z.ltb_ge in E.
    split.
    { rewrite app_nil_r. unfold Py.len in E.
      rewrite firstn_all2 by lia. reflexivity. }
    split; [lia|]. split; [|reflexivity].
    rewrite take_all by exact E. apply startswith_refl.
Qed.

(** ** The audio validator *)

(** X4: [validate_audio_file] accepts a file exactly when its size is at
    most [MAX_FILE_SIZE] and its name is empty or ends, after the last dot
    and whatever the case of the letters, in one of the seven supported
    extensions; a name without a dot counts as its own extension.  The
    size is checked first, and each refusal has its message. *)
Theorem validate_audio_file_accepts (audio_file : Models.UploadedFile) :
  let name := Models.uf_name audio_file in
  let ext := Py.split_last "."%char (Py.lower name) in
  let lowered := {| Models.uf_name := Py.lower name;
                    Models.uf_size := Models.uf_size audio_file;
                    Models.uf_data := Models.uf_data audio_file |} in
  (fst (Audio.validate_audio_file audio_file) = true <->
   Models.uf_size audio_file <= Audio.MAX_FILE_SIZE /\
   (name = EmptyString \/ In ext Audio.supported_extensions)) /\
  Audio.validate_audio_file lowered = Audio.validate_audio_file audio_file /\
  (Audio.MAX_FILE_SIZE < Models.uf_size audio_file ->
   snd (Audio.validate_audio_file audio_file)
     = "File too large. Maximum size is 10MB") /\
  (Models.uf_size audio_file <= Audio.MAX_FILE_SIZE ->
   name <> EmptyString -> ~ In ext Audio.supported_extensions ->
   snd (Audio.validate_audio_file audio_file)
     = "Unsupported file format. Supported: wav, mp3, mp4, m4a, flac, ogg, webm").
Proof.
  intros name ext lowered.
  assert (Hsup : Audio.is_supported ext = true <-> In ext Audio.supported_extensions).
  { unfold Audio.is_supported. rewrite existsb_exists. split.
    - intros (x & Hin & Heq). apply String.eqb_eq in Heq. subst x. exact Hin.
    - intros Hin. exists ext. split; [exact Hin | apply String.eqb_refl]. }
  assert (Hname : Py.truthy name = false <-> name = EmptyString).
  { destruct name; split; intros H; try reflexivity; discriminate. }
  unfold Audio.validate_audio_file. cbn [Models.uf_size Models.uf_name lowered].
  fold name. rewrite lower_idem, truthy_lower. fold ext.
  destruct (Audio.MAX_FILE_SIZE <? Models.uf_size audio_file) eqn:Esize.
  - apply Z.ltb_lt in Esize.
    split; [split; [discriminate | lia]|].
    split; [reflexivity|]. split; [reflexivity | lia].
  - apply Z.ltb_ge in Esize.
    destruct (Py.truthy name) eqn:Et; cbn [andb].
    + destruct (Audio.is_supported ext) eqn:Es; cbn [negb fst snd].
      * split; [split; [intros _; split; [lia | right; apply Hsup; reflexivity]
                       | reflexivity]|].
        split; [reflexivity|]. split; [lia|].
        intros _ _ Hn. exfalso. apply Hn, Hsup. reflexivity.
      * split.
        { split; [discriminate|]. intros [_ [H|H]].
          - apply Hname in H. discriminate.
          - apply Hsup in H. discriminate. }
        split; [reflexivity|]. split; [lia|]. reflexivity.
    + cbn [fst snd].
      split; [split; [intros _; split; [lia | left; apply Hname; reflexivity]
                     | reflexivity]|].
      split; [reflexivity|]. split; [lia|].
      intros _ Hn. exfalso. apply Hn, Hname. reflexivity.
Qed.

Lemma validate_audio_file_accepts_witness :
  let f := {| Models.uf_name := "Speech.MP3"; Models.uf_size := 4096;
              Models.uf_data := EmptyString |} in
  Models.uf_size f <= Audio.MAX_FILE_SIZE /\
  In "mp3"%string Audio.supported_extensions /\
  fst (Audio.validate_audio_file f) = true.
Proof.
  intros f.
  assert (H1 : Models.uf_size f <= Audio.MAX_FILE_SIZE)
    by (vm_compute; discriminate).
  assert (H2 : In "mp3"%string Audio.supported_extensions)
    by (right; left; reflexivity).
  split; [exact H1|]. split; [exact H2|].
  exact (proj2 (proj1 (validate_audio_file_accepts f)) (conj H1 (or_intror H2))).
Defined.

(** ** Events of the pipeline *)

Section EventFacts.

Variable env : Env.

Lemma posts_nil : posts [] = 0%nat.
Proof. reflexivity. Qed.

Lemma posts_cons ev tr :
  posts (ev :: tr) = ((if is_post ev then 1 else 0) + posts tr)%nat.
Proof. change (ev :: tr) with ([ev] ++ tr). rewrite posts_app. destruct ev; reflexivity. Qed.

Lemma transcriptions_nil : transcriptions [] = 0%nat.
Proof. reflexivity. Qed.

Lemma transcriptions_cons ev tr :
  transcriptions (ev :: tr)
  = ((if is_transcribe ev then 1 else 0) + transcriptions tr)%nat.
Proof.
  change (ev :: tr) with ([ev] ++ tr). rewrite transcriptions_app.
  destruct ev; reflexivity.
Qed.

Lemma init_events st :
  exists self evs,
    Ollama.__init__ env st = (Return self, with_events st evs) /\ quiet evs.
Proof.
  eexists _, [_]. split; [apply init_eq|]. split; reflexivity.
Qed.

Lemma generate_story_events self user_prompt length st :
  exists text evs,
    Ollama.generate_story env self user_prompt length st
      = (Return text, with_events st evs) /\
    (posts evs <= 1)%nat /\ transcriptions evs = 0%nat.
Proof.
  rewrite generate_story_eq. destruct (Ollama.available self); cbv zeta.
  - eexists _, [_]. split; [reflexivity|]. split; [|reflexivity].
    rewrite posts_cons, posts_nil. simpl. lia.
  - eexists _, []. rewrite with_events_nil. split; [reflexivity|].
    split; [rewrite posts_nil; lia | reflexivity].
Qed.

Lemma generate_character_description_events self story st :
  exists description evs,
    Ollama.generate_character_description env self story st
      = (Return description, with_events st evs) /\
    (posts evs <= 1)%nat /\ transcriptions evs = 0%nat.
Proof.
  rewrite generate_character_description_eq.
  destruct (Ollama.available self); cbv zeta.
  - eexists _, [_]. split; [reflexivity|]. split; [|reflexivity].
    rewrite posts_cons, posts_nil. simpl. lia.
  - eexists _, []. rewrite with_events_nil. split; [reflexivity|].
    split; [rewrite posts_nil; lia | reflexivity].
Qed.

Lemma generate_scene_description_events self story st :
  exists description evs,
    Ollama.generate_scene_description env self story st
      = (Return description, with_events st evs) /\
    (posts evs <= 1)%nat /\ transcriptions evs = 0%nat.
Proof.
  rewrite generate_scene_description_eq.
  destruct (Ollama.available self); cbv zeta.
  - eexists _, [_]. split; [reflexivity|]. split; [|reflexivity].
    rewrite posts_cons, posts_nil. simpl. lia.
  - eexists _, []. rewrite with_events_nil. split; [reflexivity|].
    split; [rewrite posts_nil; lia | reflexivity].
Qed.

Lemma quiet_app evs evs' : quiet evs -> quiet evs' -> quiet (evs ++ evs').
Proof.
  intros [H1 H2] [H3 H4]. split.
  - rewrite posts_app. lia.
  - rewrite transcriptions_app. lia.
Qed.

Lemma quiet_nil : quiet [].
Proof. split; reflexivity. Qed.

Lemma load_pipeline_events g style st :
  exists ok g' evs,
    Gpu._load_pipeline env g style st = (Return (ok, g'), with_events st evs) /\
    quiet evs.
Proof.
  unfold Gpu._load_pipeline, bind, ret, get_world, emit.
  destruct (Gpu.available g); simpl.
  - destruct (Gpu.pipeline g); simpl.
    + exists true, g, []. rewrite with_events_nil. split; [reflexivity | apply quiet_nil].
    + destruct (from_pretrained env (trace (world st)));
        eexists _, _, [_]; (split; [reflexivity|]); split; reflexivity.
  - exists false, g, []. rewrite with_events_nil. split; [reflexivity | apply quiet_nil].
Qed.

Lemma ready_events g style st :
  exists ok g' evs,
    Gpu.ready env g style st = (Return (ok, g'), with_events st evs) /\ quiet evs.
Proof.
  unfold Gpu.ready. destruct (Gpu.available g).
  - apply load_pipeline_events.
  - exists false, g, []. rewrite with_events_nil. split; [reflexivity | apply quiet_nil].
Qed.

Lemma generate_character_image_events g description style st :
  exists blob g' evs,
    Gpu.generate_character_image env g description style st
      = (Return (blob, g'), with_events st evs) /\ quiet evs.
Proof.
  unfold Gpu.generate_character_image, bind.
  destruct (ready_events g style st) as (ok & g' & evs & -> & Hq). cbn [fst snd].
  destruct ok; [|eexists _, _, _; split; [reflexivity | exact Hq]].
  unfold try_except, bind.
  match goal with |- context [Gpu.run_pipeline env ?c ?s] =>
    destruct (run_pipeline_cases env c s) as [[im ->]|[e ->]] end;
    rewrite with_events_app; eexists _, _, _; (split; [reflexivity|]);
    (apply quiet_app; [exact Hq | split; reflexivity]).
Qed.

Lemma generate_background_image_events g description style st :
  exists blob g' evs,
    Gpu.generate_background_image env g description style st
      = (Return (blob, g'), with_events st evs) /\ quiet evs.
Proof.
  unfold Gpu.generate_background_image, bind.
  destruct (ready_events g style st) as (ok & g' & evs & -> & Hq). cbn [fst snd].
  destruct ok; [|eexists _, _, _; split; [reflexivity | exact Hq]].
  unfold try_except, bind.
  match goal with |- context [Gpu.run_pipeline env ?c ?s] =>
    destruct (run_pipeline_cases env c s) as [[im ->]|[e ->]] end;
    rewrite with_events_app; eexists _, _, _; (split; [reflexivity|]);
    (apply quiet_app; [exact Hq | split; reflexivity]).
Qed.

(** Saving, by what it does to the world. *)
Lemma wp_save_world st (Q : Outcome unit -> St -> Prop) :
  (forall st',
     Models.id (story st') = Models.id (story st) ->
     Models.status (story st') = Models.status (story st) ->
     (forall key, key <> Models.id (story st) ->
                  db (world st') !! key = db (world st) !! key) ->
     db (world st') !! Models.id (story st) = Some (story st') ->
     (forall p, is_Some (files (world st) !! p) -> is_Some (files (world st') !! p)) ->
     (exists evs, trace (world st') = trace (world st) ++ evs /\ quiet evs) ->
     Q (Return tt) st') ->
  wp (Views.save env) st Q.
Proof.
  intros H. eapply wp_eq; [apply save_returns|].
  pose proof (after_save_content env st) as ((Hid & _) & Hrest).
  destruct Hrest as (_ & _ & _ & _ & _ & _ & _ & _ & _ & Hstat & _).
  apply H.
  - exact Hid.
  - exact Hstat.
  - intros key Hkey. rewrite after_save_row, Hid.
    apply lookup_insert_ne. congruence.
  - rewrite after_save_row, Hid. apply lookup_insert_eq.
  - intros p. apply after_save_files.
  - destruct (after_save_trace env st) as (evs & Ht & Hq). exists evs.
    split; [exact Ht | exact Hq].
Qed.

End EventFacts.

Ltac count_events :=
  rewrite ?posts_app, ?transcriptions_app, ?posts_cons, ?transcriptions_cons,
    ?posts_nil, ?transcriptions_nil;
  cbn [is_post is_transcribe].

(** The world of the current state against the one of the start, when the
    database is untouched. *)
Ltac kept_now :=
  split; [reflexivity|];
  split; [intros key _; reflexivity|];
  split; [intros p Hp; repeat (rewrite lookup_insert; case_decide; [eauto|]);
          exact Hp|];
  eexists; split;
    [first [symmetry; apply app_nil_r | rewrite <- ?app_assoc; reflexivity]|];
  count_events; split; lia.

Section World.

Import Models.

Variable env : Env.

Lemma generation_try_world start_time length image_style st :
  wp (Views.generation_try env start_time length image_style) st
    (fun o st' =>
       id (story st') = id (story st) /\
       world_kept (id (story st)) 3 0 (world st) (world st')).
Proof.
  unfold Views.generation_try, Views.generation_try_with, world_kept.
  wp_step. unfold Views.fault at 1.
  destruct (gen_fault env StepImport) as [e|].
  { wp_step. kept_now. }
  wp_steps.
  destruct (Py.truthy (get_input_text (story st))); cbn [negb].
  2:{ wp_step. kept_now. }
  wp_steps.
  destruct (init_events env st) as (self & evs & Heq & Hq0 & Hq0').
  eapply wp_eq; [exact Heq|]; clear Heq; cbv beta iota; norm.
  wp_step.
  match goal with |- wp (Ollama.generate_story _ _ ?p ?l) ?s _ =>
    destruct (generate_story_events env self p l s)
      as (text & evs0 & Heq & Hp0 & Ht0) end.
  eapply wp_eq; [exact Heq|]; clear Heq; cbv beta iota; norm.
  wp_steps.
  match goal with |- wp (Ollama.generate_character_description _ _ ?t) ?s _ =>
    destruct (generate_character_description_events env self t s)
      as (cd & evs1 & Heq & Hp1 & Ht1) end.
  eapply wp_eq; [exact Heq|]; clear Heq; cbv beta iota; norm.
  wp_steps.
  match goal with |- wp (Ollama.generate_scene_description _ _ ?t) ?s _ =>
    destruct (generate_scene_description_events env self t s)
      as (bd & evs2 & Heq & Hp2 & Ht2) end.
  eapply wp_eq; [exact Heq|]; clear Heq; cbv beta iota; norm.
  wp_steps.
  match goal with |- wp (Gpu.generate_character_image _ ?g ?d ?y) ?s _ =>
    destruct (generate_character_image_events env g d y s)
      as (blob1 & g1 & evs3 & Heq & Hp3 & Ht3) end.
  eapply wp_eq; [exact Heq|]; clear Heq; cbv beta iota; norm.
  wp_step.
  eapply wp_rw; [apply field_save_eq|].
  destruct (gen_fault env StepSaveCharacter) as [e|]; norm.
  { kept_now. }
  unfold after_field_save; cbv zeta; norm.
  match goal with |- context [uuid4 env ?t] =>
    generalize (uuid4 env t); intros u1 end.
  match goal with |- context [story_image_path ?s u1 ?n] =>
    generalize (story_image_path s u1 n); intros name1 end.
  wp_steps.
  match goal with |- wp (Gpu.generate_background_image _ ?g ?d ?y) ?s _ =>
    destruct (generate_background_image_events env g d y s)
      as (blob2 & g2 & evs4 & Heq & Hp4 & Ht4) end.
  eapply wp_eq; [exact Heq|]; clear Heq; cbv beta iota; norm.
  wp_step.
  eapply wp_rw; [apply field_save_eq|].
  destruct (gen_fault env StepSaveBackground) as [e|]; norm.
  { kept_now. }
  unfold after_field_save; cbv zeta; norm.
  match goal with |- context [uuid4 env ?t] =>
    generalize (uuid4 env t); intros u2 end.
  match goal with |- context [story_image_path ?s u2 ?n] =>
    generalize (story_image_path s u2 n); intros name2 end.
  wp_steps.
  assert (Hend : forall stN,
            id (story stN) = id (story st) ->
            db (world stN) = db (world st) ->
            (forall p, is_Some (files (world st) !! p) ->
                       is_Some (files (world stN) !! p)) ->
            (exists evsN, trace (world stN) = trace (world st) ++ evsN /\
                          (posts evsN <= 3)%nat /\ transcriptions evsN = 0%nat) ->
            wp (bind (assign (set_image_model_used
                                ("Stable Diffusion (" +:+ image_style +:+ ")")))
                  (fun _ => bind (Views.cleanup env g2)
                    (fun _ => bind (assign (set_status "completed"))
                      (fun _ => bind (assign (set_generation_time
                                        (Some (time_at_end env - start_time)%float)))
                        (fun _ => Views.save env)))))
               stN
               (fun o st' =>
                  id (story st') = id (story st) /\
                  (forall key, key <> id (story st) ->
                               db (world st') !! key = db (world st) !! key) /\
                  (forall p, is_Some (files (world st) !! p) ->
                             is_Some (files (world st') !! p)) /\
                  exists evs',
                    trace (world st') = trace (world st) ++ evs' /\
                    (posts evs' <= 3)%nat /\ (transcriptions evs' <= 0)%nat)).
  { intros stN Hid Hdb Hfiles (evsN & Htr & HpN & HtN).
    wp_steps. unfold Views.cleanup, Views.fault.
    assert (Hstop : forall o,
              (fun (o : Outcome unit) st' =>
                 id (story st') = id (story st) /\
                 (forall key, key <> id (story st) ->
                              db (world st') !! key = db (world st) !! key) /\
                 (forall p, is_Some (files (world st) !! p) ->
                            is_Some (files (world st') !! p)) /\
                 exists evs',
                   trace (world st') = trace (world st) ++ evs' /\
                   (posts evs' <= 3)%nat /\ (transcriptions evs' <= 0)%nat)
                o {| story := set_image_model_used
                                ("Stable Diffusion (" +:+ image_style +:+ ")")
                                (story stN);
                     world := world stN |}).
    { intros o. norm. split; [exact Hid|].
      split; [intros key _; rewrite Hdb; reflexivity|].
      split; [exact Hfiles|]. exists evsN. split; [exact Htr | lia]. }
    assert (Hgo : wp (bind (assign (set_status "completed"))
                        (fun _ => bind (assign (set_generation_time
                                          (Some (time_at_end env - start_time)%float)))
                          (fun _ => Views.save env)))
                    {| story := set_image_model_used
                                  ("Stable Diffusion (" +:+ image_style +:+ ")")
                                  (story stN);
                       world := world stN |}
                    (fun o st' =>
                       id (story st') = id (story st) /\
                       (forall key, key <> id (story st) ->
                                    db (world st') !! key = db (world st) !! key) /\
                       (forall p, is_Some (files (world st) !! p) ->
                                  is_Some (files (world st') !! p)) /\
                       exists evs',
                         trace (world st') = trace (world st) ++ evs' /\
                         (posts evs' <= 3)%nat /\ (transcriptions evs' <= 0)%nat)).
    { wp_steps. apply wp_save_world. norm.
      intros st' Hid' _ Hother _ Hfiles' (evsS & HtrS & HpS & HtS).
      split; [congruence|].
      split; [intros key Hkey; rewrite Hother, Hdb by congruence; reflexivity|].
      split; [intros p Hp; apply Hfiles', Hfiles, Hp|].
      exists (evsN ++ evsS). split; [rewrite HtrS, Htr, app_assoc; reflexivity|].
      count_events. lia. }
    destruct (Gpu.available g2).
    - destruct (gen_fault env StepCleanup) as [e|].
      + wp_step. apply (Hstop (Raise e)).
      + wp_step. exact Hgo.
    - wp_step. exact Hgo. }
  destruct (field_truthy (Some name1) && field_truthy (Some name2)).
  - unfold Views.field_path. wp_steps.
    set (composed := compose_result env _ _). clearbody composed.
    eapply wp_rw; [apply field_save_eq|].
    destruct (gen_fault env StepSaveComposed) as [e|]; norm.
    { kept_now. }
    unfold after_field_save; cbv zeta; norm.
    match goal with |- context [uuid4 env ?t] =>
      generalize (uuid4 env t); intros u3 end.
    match goal with |- context [story_image_path ?s u3 ?n] =>
      generalize (story_image_path s u3 n); intros name3 end.
    apply Hend; norm.
    + reflexivity.
    + reflexivity.
    + intros p Hp. repeat (rewrite lookup_insert; case_decide; [eauto|]). exact Hp.
    + eexists. split; [rewrite <- ?app_assoc; reflexivity|]. count_events.
      split; lia.
  - wp_step. apply Hend; norm.
    + reflexivity.
    + reflexivity.
    + intros p Hp. repeat (rewrite lookup_insert; case_decide; [eauto|]). exact Hp.
    + eexists. split; [rewrite <- ?app_assoc; reflexivity|]. count_events.
      split; lia.
Qed.

End World.

(** ** Statements that keep the world *)

Section Bounded.

Import Models.

Variable env : Env.
Variable own : string.

Lemma world_kept_refl n k w : world_kept own n k w w.
Proof.
  split; [reflexivity|]. split; [auto|]. exists [].
  rewrite app_nil_r. split; [reflexivity|].
  rewrite posts_nil, transcriptions_nil. split; lia.
Qed.

Lemma world_kept_trans n1 k1 n2 k2 n k w w1 w2 :
  world_kept own n1 k1 w w1 -> world_kept own n2 k2 w1 w2 ->
  (n1 + n2 <= n)%nat -> (k1 + k2 <= k)%nat ->
  world_kept own n k w w2.
Proof.
  intros (D1 & F1 & e1 & T1 & P1 & R1) (D2 & F2 & e2 & T2 & P2 & R2) Hn Hk.
  split; [intros key Hkey; rewrite D2, D1 by exact Hkey; reflexivity|].
  split; [intros p Hp; apply F2, F1, Hp|].
  exists (e1 ++ e2). split; [rewrite T2, T1, app_assoc; reflexivity|].
  rewrite posts_app, transcriptions_app. lia.
Qed.

Lemma bounded_ret {A} (a : A) n k : bounded own n k (ret a).
Proof. intros st Hid. split; [exact Hid | apply world_kept_refl]. Qed.

Lemma bounded_raise {A} e n k : bounded own n k (raise e : M A).
Proof. intros st Hid. split; [exact Hid | apply world_kept_refl]. Qed.

Lemma bounded_get_story n k : bounded own n k get_story.
Proof. intros st Hid. split; [exact Hid | apply world_kept_refl]. Qed.

Lemma bounded_get_world n k : bounded own n k get_world.
Proof. intros st Hid. split; [exact Hid | apply world_kept_refl]. Qed.

Lemma bounded_assign f n k :
  (forall s, id (f s) = id s) -> bounded own n k (assign f).
Proof.
  intros Hf st Hid. cbn [assign snd story world].
  split; [rewrite Hf; exact Hid | apply world_kept_refl].
Qed.

Lemma bounded_emit ev n k :
  (posts [ev] <= n)%nat -> (transcriptions [ev] <= k)%nat ->
  bounded own n k (emit ev).
Proof.
  intros Hn Hk st Hid. cbn [emit snd story world log_event].
  split; [exact Hid|]. split; [reflexivity|]. split; [auto|].
  exists [ev]. auto.
Qed.

Lemma bounded_write_file name data n k : bounded own n k (write_file name data).
Proof.
  intros st Hid. cbn [write_file snd story world].
  split; [exact Hid|]. split; [reflexivity|].
  split.
  - intros p Hp. cbn [files]. rewrite lookup_insert. case_decide; [eauto | exact Hp].
  - exists []. cbn [trace]. rewrite app_nil_r.
    split; [reflexivity|]. rewrite posts_nil, transcriptions_nil. split; lia.
Qed.

Lemma bounded_bind {A B} n1 k1 n2 k2 n k (m : M A) (f : A -> M B) :
  bounded own n1 k1 m -> (forall a, bounded own n2 k2 (f a)) ->
  (n1 + n2 <= n)%nat -> (k1 + k2 <= k)%nat ->
  bounded own n k (bind m f).
Proof.
  intros Hm Hf Hn Hk st Hid. unfold bind.
  destruct (Hm st Hid) as [Hid1 Hw1].
  destruct (m st) as [[a|e] st1]; cbn [snd] in *.
  - destruct (Hf a st1 Hid1) as [Hid2 Hw2]. split; [exact Hid2|].
    exact (world_kept_trans _ _ _ _ _ _ _ _ _ Hw1 Hw2 Hn Hk).
  - split; [exact Hid1|].
    exact (world_kept_trans _ _ _ _ _ _ _ _ _ Hw1
             (world_kept_refl n2 k2 (world st1)) Hn Hk).
Qed.

Lemma bounded_try {A} n1 k1 n2 k2 n k (m : M A) (h : string -> M A) :
  bounded own n1 k1 m -> (forall e, bounded own n2 k2 (h e)) ->
  (n1 + n2 <= n)%nat -> (k1 + k2 <= k)%nat ->
  bounded own n k (try_except m h).
Proof.
  intros Hm Hh Hn Hk st Hid. unfold try_except.
  destruct (Hm st Hid) as [Hid1 Hw1].
  destruct (m st) as [[a|e] st1]; cbn [snd] in *.
  - split; [exact Hid1|].
    exact (world_kept_trans _ _ _ _ _ _ _ _ _ Hw1
             (world_kept_refl n2 k2 (world st1)) Hn Hk).
  - destruct (Hh e st1 Hid1) as [Hid2 Hw2]. split; [exact Hid2|].
    exact (world_kept_trans _ _ _ _ _ _ _ _ _ Hw1 Hw2 Hn Hk).
Qed.

Lemma bounded_save n k : bounded own n k (Views.save env).
Proof.
  intros st Hid. rewrite save_returns. cbn [snd].
  pose proof (after_save_content env st) as ((Hid' & _) & _).
  split; [congruence|].
  split.
  { intros key Hkey. rewrite after_save_row, Hid', Hid.
    apply lookup_insert_ne. congruence. }
  split; [intros p; apply after_save_files|].
  destruct (after_save_trace env st) as (evs & Ht & Hp & Hq). exists evs.
  split; [exact Ht | lia].
Qed.

Lemma bounded_generate_content length image_style :
  bounded own 3 0 (Views._generate_enhanced_story_content env length image_style).
Proof.
  unfold Views._generate_enhanced_story_content. cbv zeta.
  apply (bounded_try 3 0 0 0); [| |lia|lia].
  - intros st Hid.
    pose proof (generation_try_world env (time_at_start env) length image_style st)
      as H.
    unfold wp in H. rewrite Hid in H. exact H.
  - intros e. unfold Views.generation_except.
    apply (bounded_bind 0 0 0 0); [apply bounded_assign; reflexivity| |lia|lia].
    intros _.
    apply (bounded_bind 0 0 0 0); [apply bounded_assign; reflexivity| |lia|lia].
    intros _. apply bounded_save.
Qed.

End Bounded.

(** Statements made of quiet steps and of transcription attempts: the
    first part of a sequence gets nothing of the budget unless it is a
    transcription event, the handler of a [try] gets nothing. *)
Ltac bnd :=
  lazymatch goal with
  | |- bounded _ _ _ (ret _) => apply bounded_ret
  | |- bounded _ _ _ (raise _) => apply bounded_raise
  | |- bounded _ _ _ get_story => apply bounded_get_story
  | |- bounded _ _ _ get_world => apply bounded_get_world
  | |- bounded _ _ _ (assign _) => apply bounded_assign; reflexivity
  | |- bounded _ _ _ (write_file _ _) => apply bounded_write_file
  | |- bounded _ _ _ (Views.save _) => apply bounded_save
  | |- bounded _ _ _ (message _ _) => apply bounded_emit; count_events; lia
  | |- bounded _ _ _ (emit _) => apply bounded_emit; count_events; lia
  | |- bounded _ _ _ (Views._generate_enhanced_story_content _ _ _) =>
      apply bounded_generate_content
  | |- bounded ?o ?n (S ?k) (bind (emit (EvTranscribe _ _)) _) =>
      apply (bounded_bind o 0 1 n k);
      [apply bounded_emit; count_events; lia | intros; bnd | lia | lia]
  | |- bounded ?o ?n ?k (bind _ _) =>
      apply (bounded_bind o 0 0 n k); [bnd | intros; bnd | lia | lia]
  | |- bounded ?o ?n ?k (try_except _ _) =>
      apply (bounded_try o n k 0 0); [bnd | intros; bnd | lia | lia]
  | |- bounded _ _ _ (if ?b then _ else _) => destruct b; bnd
  | |- bounded _ _ _ (match ?x with _ => _ end) => destruct x; bnd
  end.

Section BoundedViews.

Import Models.

Variable env : Env.
Variable own : string.

Lemma bounded_safe_transcribe audio_file :
  bounded own 0 2 (Views._safe_transcribe_audio env audio_file).
Proof. unfold Views._safe_transcribe_audio. bnd. Qed.

Lemma bounded_handle_audio_input audio_file :
  bounded own 0 2 (Views._handle_audio_input env audio_file).
Proof.
  unfold Views._handle_audio_input.
  apply (bounded_try own 0 2 0 0); [|intros; bnd|lia|lia].
  destruct (10 * 1024 * 1024 <? uf_size audio_file); [bnd|].
  do 4 (apply (bounded_bind own 0 0 0 2); [bnd|intros _|lia|lia]).
  apply (bounded_bind own 0 2 0 0);
    [apply bounded_safe_transcribe|intros; bnd|lia|lia].
Qed.

Lemma bounded_generate_and_respond story_length image_style :
  bounded own 3 0 (Views.generate_and_respond env story_length image_style).
Proof.
  unfold Views.generate_and_respond.
  do 2 (apply (bounded_bind own 0 0 3 0); [bnd|intros _|lia|lia]).
  apply (bounded_bind own 3 0 0 0); [bnd|intros; bnd|lia|lia].
Qed.

Lemma bounded_post_after_create audio_file story_length image_style :
  bounded own 3 2 (Views.post_after_create env audio_file story_length image_style).
Proof.
  unfold Views.post_after_create.
  apply (bounded_bind own 0 2 3 0); [| |lia|lia].
  - destruct audio_file as [f|]; [|bnd].
    destruct (upload_truthy (Some f)); [apply bounded_handle_audio_input | bnd].
  - intros success. destruct (negb success); [bnd|].
    apply bounded_generate_and_respond.
Qed.

End BoundedViews.

(** ** The answer of [post] *)

Section Answer.

Import Models.

Variable env : Env.

Lemma handle_audio_input_answer (audio_file : UploadedFile) st :
  wp (Views._handle_audio_input env audio_file) st
    (fun o st' =>
       o = Return true \/
       o = Return false /\ status (story st') = "error" /\
       exists tr text, trace (world st') = tr ++ [EvMessage "error" text]).
Proof.
  assert (Hhandler : forall e st1,
            wp (bind (assign (set_status "error"))
                  (fun _ => bind (assign (set_error_message
                                    ("Audio transcription failed: " +:+ e)))
                    (fun _ => bind (Views.save env)
                      (fun _ => bind (message "error" "Audio transcription failed")
                        (fun _ => ret false))))) st1
               (fun o st' =>
                  o = Return true \/
                  o = Return false /\ status (story st') = "error" /\
                  exists tr text,
                    trace (world st') = tr ++ [EvMessage "error" text])).
  { intros e st1. wp_steps. apply wp_save_world. norm.
    intros st' _ Hstat _ _ _ _. wp_steps. right.
    split; [reflexivity|]. split; [exact Hstat | eauto]. }
  unfold Views._handle_audio_input. wp_step.
  destruct (10 * 1024 * 1024 <? uf_size audio_file).
  - wp_steps. apply wp_save_world. norm.
    intros st' _ Hstat _ _ _ _. wp_steps. right.
    split; [reflexivity|]. split; [exact Hstat | eauto].
  - wp_steps. apply wp_save_world. norm. intros st1 _ _ _ _ _ _. wp_steps.
    destruct (check_audio_support env); cbn [negb].
    2:{ wp_step. apply Hhandler. }
    wp_steps. unfold Views._safe_transcribe_audio. wp_steps.
    destruct (whisper_transcribe env audio_file) as [text|].
    + wp_steps. apply wp_save_world. norm. intros st2 _ _ _ _ _ _. wp_steps.
      left. reflexivity.
    + wp_steps. destruct (google_transcribe env audio_file) as [text|e].
      * wp_steps. apply wp_save_world. norm. intros st2 _ _ _ _ _ _. wp_steps.
        left. reflexivity.
      * wp_step. apply Hhandler.
Qed.

Lemma generate_and_respond_answer story_length image_style st :
  wp (Views.generate_and_respond env story_length image_style) st answered.
Proof.
  unfold Views.generate_and_respond, answered.
  wp_steps. apply wp_save_world. norm. intros st1 _ _ _ _ _ _. wp_step.
  apply wp_generate_content.
  intros st2 _ _ Hstatus _. wp_steps.
  destruct Hstatus as [Hs|Hs]; rewrite Hs; cbn [String.eqb Ascii.eqb Bool.eqb];
    wp_steps.
  - split; [exact Hs|]. split; [reflexivity | eauto].
  - split; [exact Hs | eauto].
Qed.

Lemma post_after_create_answer audio_file story_length image_style st :
  wp (Views.post_after_create env audio_file story_length image_style) st answered.
Proof.
  unfold Views.post_after_create. wp_step.
  assert (Hskip : wp (ret true) st
            (fun o st' =>
               match o with
               | Return a =>
                   wp (if negb a then ret Views.RedirectIndex
                       else Views.generate_and_respond env story_length
                              image_style)
                     st' answered
               | Raise e => False
               end)).
  { wp_step. cbn [negb]. apply generate_and_respond_answer. }
  destruct audio_file as [f|]; [|exact Hskip].
  destruct (upload_truthy (Some f)); [|exact Hskip]. clear Hskip.
  eapply wp_mono; [apply handle_audio_input_answer|]. cbv beta.
  intros o st1 [->|(-> & Hs & Hmsg)]; cbn [negb].
  - apply generate_and_respond_answer.
  - wp_step. unfold answered. auto.
Qed.

End Answer.

(** ** [GenerateStoryView.post] as a whole *)

Section PostAsAWhole.

Import Models.

Variable env : Env.

Lemma create_world user prompt input_method st_status w :
  world_kept (uuid4 env (trace w)) 0 0 w
    (world (Views.create env user prompt input_method st_status w)).
Proof.
  unfold Views.create. cbv zeta.
  match goal with |- context [Views.save env ?s] =>
    pose proof (bounded_save env (uuid4 env (trace w)) 0 0 s eq_refl) as [_ H] end.
  eapply (world_kept_trans _ 0 0 0 0); [|exact H|lia|lia].
  split; [reflexivity|]. split; [auto|].
  eexists. split; [reflexivity|]. split; apply Nat.le_refl.
Qed.

End PostAsAWhole.


(** X6: one call of [post] leaves the rows of all other records as they
    were, removes no file, and adds to the trace at most three POST
    requests to Ollama and at most two transcription attempts. *)
Theorem post_keeps_the_world (env : Env) (request : Views.Request) (w : World) :
  let r := Views.post env request w in
  (forall key, (forall s, Views.created r = Some s -> Models.id s <> key) ->
     db (Views.world_after r) !! key = db w !! key) /\
  (forall p, is_Some (files w !! p) -> is_Some (files (Views.world_after r) !! p)) /\
  exists evs, trace (Views.world_after r) = trace w ++ evs /\
              (posts evs <= 3)%nat /\ (transcriptions evs <= 2)%nat.
Proof.
  cbv zeta.
  assert (Hquiet : forall level text,
            exists evs, trace (log_event w (EvMessage level text)) = trace w ++ evs /\
                        (posts evs <= 3)%nat /\ (transcriptions evs <= 2)%nat).
  { intros. eexists. split; [reflexivity|]. split; apply Nat.le_0_l. }
  unfold Views.post.
  destruct (negb (table_exists env)).
  { cbn [Views.world_after]. split; [reflexivity|]. split; [auto | apply Hquiet]. }
  match goal with |- context [if ?b then _ else _] => destruct b end.
  { cbn [Views.world_after]. split; [reflexivity|]. split; [auto | apply Hquiet]. }
  match goal with |- context [Views.create env ?u ?p ?m ?t w] =>
    pose proof (create_world env u p m t w) as Hc;
    destruct (create_story env u p m t w) as (Cid & _);
    set (st := Views.create env u p m t w) in * end.
  match goal with |- context [Views.post_after_create env ?a ?l ?y st] =>
    destruct (bounded_post_after_create env (uuid4 env (trace w)) a l y st Cid)
      as [Hid Hw];
    destruct (Views.post_after_create env a l y st) as [[resp|e] st'] end;
    cbn [fst snd] in Hid, Hw;
    cbn [Views.response Views.created Views.world_after].
  - destruct (world_kept_trans _ 0 0 3 2 3 2 _ _ _ Hc Hw) as (D & F & T);
      [lia | lia |].
    split; [|split; assumption].
    intros key Hkey. apply D. intros Heq. subst key. apply (Hkey _ eq_refl). exact Hid.
  - assert (Hm : world_kept (uuid4 env (trace w)) 0 0 (world st')
                   (log_event (world st') (EvMessage "error"
                      "An unexpected error occurred. Please try again."))).
    { split; [reflexivity|]. split; [auto|].
      eexists. split; [reflexivity|]. split; apply Nat.le_refl. }
    pose proof (world_kept_trans _ 0 0 3 2 3 2 _ _ _ Hc Hw
                  ltac:(lia) ltac:(lia)) as H1.
    destruct (world_kept_trans _ 3 2 0 0 3 2 _ _ _ H1 Hm) as (D & F & T);
      [lia | lia |].
    split; [|split; assumption].
    intros key Hkey. apply D. intros Heq. subst key. apply (Hkey _ eq_refl). exact Hid.
Qed.

(** X7: what a user typed is not dropped: for a request whose prompt is
    not blank, the record that [post] creates has an input text, as
    [get_input_text] gives it to the generation, that starts with the
    stripped prompt (and so is not empty), whether or not an audio file
    came with it. *)
Theorem input_text_starts_with_the_prompt (env : Env) (request : Views.Request)
    (w : World) :
  table_exists env = true ->
  let prompt := Py.strip (Views.form_get (Views.POST_prompt request) EmptyString) in
  Py.truthy prompt = true ->
  exists s,
    Views.created (Views.post env request w) = Some s /\
    Py.startswith prompt (Models.get_input_text s) = true /\
    Py.truthy (Models.get_input_text s) = true.
Proof.
  intros Htable prompt Hprompt.
  destruct (post_created env request w Htable) as (s & Hc & Hp & Hm & _).
  { fold prompt. rewrite Hprompt. reflexivity. }
  fold prompt in Hp, Hm. exists s. split; [exact Hc|].
  assert (Hstart : Py.startswith prompt (Models.get_input_text s) = true).
  { unfold Models.get_input_text. rewrite Hm, Hp.
    unfold Views.choose_input_method. rewrite Hprompt. cbn [andb negb].
    destruct (negb (Models.upload_truthy (Views.FILES_audio_file request)));
      cbn [andb].
    - cbn. apply startswith_refl.
    - destruct (Models.upload_truthy (Views.FILES_audio_file request));
        cbn [andb String.eqb Ascii.eqb Bool.eqb];
        apply strip_app_startswith; reflexivity. }
  split; [exact Hstart|]. exact (startswith_truthy _ _ Hstart Hprompt).
Qed.

Lemma input_text_starts_with_the_prompt_witness :
  exists s,
    Views.created (Views.post Sample.offline Sample.text_request Sample.empty_world)
      = Some s /\
    Py.truthy (Models.get_input_text s) = true.
Proof.
  destruct (input_text_starts_with_the_prompt Sample.offline Sample.text_request
              Sample.empty_world eq_refl eq_refl) as (s & Hc & _ & Ht).
  exists s. split; [exact Hc | exact Ht].
Defined.

(** ** Reading a record back *)

Section ReadingBack.

Import Models.

Variable env : Env.

Lemma story_image_path_truthy s u name :
  Py.truthy (story_image_path s u name) = true.
Proof. reflexivity. Qed.

(** A record is created only where the table is and some input came. *)
Lemma post_created_some request w s :
  Views.created (Views.post env request w) = Some s ->
  table_exists env = true /\
  Py.truthy (Py.strip (Views.form_get (Views.POST_prompt request) EmptyString))
  || upload_truthy (Views.FILES_audio_file request) = true.
Proof.
  unfold Views.post. destruct (table_exists env); cbn [negb]; [|discriminate].
  destruct (Py.truthy _), (upload_truthy _); cbn [negb andb orb];
    try discriminate; auto.
Qed.

(** What is known of the record that [post] created. *)
Lemma post_record request w s :
  let r := Views.post env request w in
  let prompt := Py.strip (Views.form_get (Views.POST_prompt request) EmptyString) in
  let audio_file := Views.FILES_audio_file request in
  Views.created r = Some s ->
  Models.prompt s = prompt /\
  input_method s = Views.choose_input_method prompt audio_file /\
  db (Views.world_after r) !! id s = Some s /\
  (Views.response r = Views.RedirectResult (id s) /\ status s = "completed" \/
   Views.response r = Views.RedirectIndex /\ status s = "error") /\
  (status s = "completed" ->
   exists st0 st1,
     generated env (time_at_start env) st0 st1 /\ s = story st1 /\
     files (Views.world_after r) = files (world st1)).
Proof.
  intros r prompt audio_file Hs.
  destruct (post_created_some request w s Hs) as [Htable Hinput].
  destruct (post_created env request w Htable Hinput) as (s' & Hc & Hp & Hm & Hrow & Hdone).
  fold r in Hc, Hrow, Hdone. rewrite Hs in Hc. injection Hc as <-.
  split; [exact Hp|]. split; [exact Hm|]. split; [exact Hrow|].
  split; [|intros Hcompleted; apply Hdone, Hcompleted].
  revert Hs. subst r. unfold Views.post. rewrite Htable. cbn [negb].
  match goal with |- context [if ?b then _ else _] => destruct b end;
    [discriminate|].
  match goal with |- context [Views.post_after_create env ?a ?l ?y ?st] =>
    pose proof (post_after_create_answer env a l y st) as H;
    unfold wp, answered in H;
    destruct (Views.post_after_create env a l y st) as [[resp|e] st'] end;
    cbn [fst snd] in H; [|contradiction].
  cbn [Views.response Views.created]. intros [= <-].
  destruct resp as [|i].
  - right. split; [reflexivity | apply H].
  - left. destruct H as (H1 & -> & _). split; [reflexivity | exact H1].
Qed.

End ReadingBack.

(** X8: the status API, asked about the record that [post] created,
    answers 200 with the status, the word count and the time of that
    record, and its [completed] entry is true exactly when [post] answered
    with the result page. *)
Theorem status_view_after_post (env : Env) (request : Views.Request) (w : World)
    (s story0 : Models.StoryGeneration) :
  let r := Views.post env request w in
  let st := {| story := story0; world := Views.world_after r |} in
  Views.created r = Some s ->
  Api.GenerationStatusView_get (Models.id s) st
  = (Return {| Api.status_code := 200;
               Api.body :=
                 [("status", Api.JString (Models.status s));
                  ("completed",
                   Api.JBool match Views.response r with
                             | Views.RedirectResult _ => true
                             | Views.RedirectIndex => false
                             end);
                  ("generation_time", Api.json_of_time (Models.generation_time s));
                  ("word_count", Api.JInt (Models.story_word_count s))] |},
     st).
Proof.
  intros r st Hs.
  destruct (post_record env request w s Hs) as (_ & _ & Hrow & Hresp & _).
  fold r in Hrow, Hresp.
  unfold Api.GenerationStatusView_get, Api.get_object_or_404, try_except, bind,
    get_world, ret.
  subst st. cbn [world fst snd]. rewrite Hrow.
  destruct Hresp as [[-> Hstat]|[-> Hstat]]; rewrite Hstat; reflexivity.
Qed.

Lemma status_view_after_post_witness :
  exists s,
    Views.created (Views.post Sample.offline Sample.text_request Sample.empty_world)
      = Some s /\
    fst (Api.GenerationStatusView_get (Models.id s)
           {| story := s;
              world := Views.world_after
                         (Views.post Sample.offline Sample.text_request
                            Sample.empty_world) |})
    = Return {| Api.status_code := 200;
                Api.body :=
                  [("status", Api.JString (Models.status s));
                   ("completed",
                    Api.JBool match Views.response
                                      (Views.post Sample.offline Sample.text_request
                                         Sample.empty_world) with
                              | Views.RedirectResult _ => true
                              | Views.RedirectIndex => false
                              end);
                   ("generation_time", Api.json_of_time (Models.generation_time s));
                   ("word_count", Api.JInt (Models.story_word_count s))] |}.
Proof.
  destruct offline_run_completes as (s & Hc & _).
  exists s. split; [exact Hc|].
  exact (f_equal fst
           (status_view_after_post Sample.offline Sample.text_request
              Sample.empty_world s s Hc)).
Defined.

(** X9: after a request that ended ['completed'], each of the three
    images can be downloaded: [DownloadImageView.get] answers with the
    bytes that the storage holds under the name in the field of the
    record, as [image/png], under the file name [<type>_<id>.png], and
    changes nothing. *)
Theorem download_after_post (env : Env) (request : Views.Request) (w : World)
    (s story0 : Models.StoryGeneration) (image_type : string) :
  let r := Views.post env request w in
  let st := {| story := story0; world := Views.world_after r |} in
  Views.created r = Some s ->
  Models.status s = "completed" ->
  In image_type ["character"; "background"; "composed"] ->
  exists name data,
    (if String.eqb image_type "character" then Models.character_image s
     else if String.eqb image_type "background" then Models.background_image s
     else Models.composed_image s) = Some name /\
    files (Views.world_after r) !! Views.media_path env name = Some data /\
    Api.DownloadImageView_get env (Models.id s) image_type st
    = (Return {| Api.content := data;
                 Api.content_type := "image/png";
                 Api.content_disposition :=
                   "attachment; filename=" +:+ Py.dq +:+ image_type +:+ "_"
                   +:+ Models.id s +:+ ".png" +:+ Py.dq |},
       st).
Proof.
  intros r st Hs Hstat Htype.
  destruct (post_record env request w s Hs) as (_ & _ & Hrow & _ & Hdone).
  destruct (Hdone Hstat) as (st0 & st1 & Hgen & Heq & Hfiles).
  fold r in Hrow, Hfiles.
  destruct Hgen as (_ & _ & _ & _ & _ & _ & _ & Hc & Hb & Hm & _).
  rewrite <- Heq in Hc, Hb, Hm. unfold stored_image in Hc, Hb, Hm.
  rewrite <- Hfiles in Hc, Hb, Hm.
  unfold Api.DownloadImageView_get, Api.get_object_or_404, Api.field_read,
    try_except, bind, get_world, ret.
  subst st. cbn [world fst snd]. rewrite Hrow.
  destruct Htype as [<-|[<-|[<-|[]]]]; cbn [String.eqb Ascii.eqb Bool.eqb andb];
    [destruct Hc as (u & Hf & [data Hd]) | destruct Hb as (u & Hf & [data Hd])
     | destruct Hm as (u & Hf & [data Hd])];
    rewrite Hf; cbn [Models.field_truthy]; eexists; exists data;
    (split; [reflexivity|]); (split; [exact Hd|]);
    rewrite !story_image_path_truthy; cbn [andb world fst snd];
    rewrite Hd; reflexivity.
Qed.

Lemma download_after_post_witness :
  exists s resp,
    Views.created (Views.post Sample.offline Sample.text_request Sample.empty_world)
      = Some s /\
    fst (Api.DownloadImageView_get Sample.offline (Models.id s) "composed"
           {| story := s;
              world := Views.world_after
                         (Views.post Sample.offline Sample.text_request
                            Sample.empty_world) |})
    = Return resp.
Proof.
  destruct offline_run_completes as (s & Hc & Hstat & _).
  destruct (download_after_post Sample.offline Sample.text_request
              Sample.empty_world s s "composed" Hc Hstat
              (or_intror (or_intror (or_introl eq_refl))))
    as (name & data & _ & _ & H).
  exists s. eexists. split; [exact Hc|].
  exact (f_equal fst H).
Defined.

(** X10: a story id that has no row: the download view raises [Http404]
    "Download failed", the status API answers 500 (not 404) with the
    message of the [Http404] that it caught, the context of the result page
    has [story] set to [None] and no [story_stats]; none of the three
    changes anything. *)
Theorem missing_record_answers (env : Env) (story_id image_type : string) (st : St) :
  db (world st) !! story_id = None ->
  Api.DownloadImageView_get env story_id image_type st
    = (Raise "Download failed", st) /\
  Api.GenerationStatusView_get story_id st
    = (Return {| Api.status_code := 500;
                 Api.body :=
                   [("error",
                     Api.JString "No StoryGeneration matches the given query.")] |},
       st) /\
  Api.StoryResultView_get_context_data env story_id st
    = (Return {| Api.ctx_story := None; Api.ctx_story_stats := None |}, st).
Proof.
  intros H.
  unfold Api.DownloadImageView_get, Api.GenerationStatusView_get,
    Api.StoryResultView_get_context_data, Api.get_object_or_404,
    try_except, bind, get_world, ret, raise.
  cbn [fst snd]. rewrite H. cbn [fst snd].
  split; [reflexivity|]. split; [reflexivity|].
  destruct (negb (table_exists env)); [reflexivity|]. rewrite H. reflexivity.
Qed.

Lemma missing_record_answers_witness :
  fst (Api.GenerationStatusView_get "no-such-id"
         {| story := story Sample.fresh; world := Sample.empty_world |})
  = Return {| Api.status_code := 500;
              Api.body :=
                [("error",
                  Api.JString "No StoryGeneration matches the given query.")] |}.
Proof.
  exact (f_equal fst
           (proj1 (proj2
              (missing_record_answers Sample.offline "no-such-id" "composed"
                 {| story := story Sample.fresh; world := Sample.empty_world |}
                 eq_refl)))).
Defined.

(** X11: the result page of the record that [post] created shows that
    record, with the word count, the generation time and the model names
    of the record, and the label of the input method that the request
    used: text alone, audio alone, or both. *)
Theorem result_page_after_post (env : Env) (request : Views.Request) (w : World)
    (s story0 : Models.StoryGeneration) :
  let r := Views.post env request w in
  let st := {| story := story0; world := Views.world_after r |} in
  let prompt := Py.strip (Views.form_get (Views.POST_prompt request) EmptyString) in
  Views.created r = Some s ->
  Api.StoryResultView_get_context_data env (Models.id s) st
  = (Return
       {| Api.ctx_story := Some s;
          Api.ctx_story_stats :=
            Some {| Api.word_count := Models.story_word_count s;
                    Api.stats_generation_time := Models.generation_time s;
                    Api.stats_input_method :=
                      if Models.upload_truthy (Views.FILES_audio_file request)
                      then (if Py.truthy prompt then "Text and Audio"
                            else "Audio Input")
                      else "Text Input";
                    Api.ai_model := Models.ai_model_used s;
                    Api.image_model := Models.image_model_used s |} |},
     st).
Proof.
  intros r st prompt Hs.
  destruct (post_created_some env request w s Hs) as [Htable Hinput].
  destruct (post_record env request w s Hs) as (_ & Hm & Hrow & _ & _).
  fold r in Hrow. fold prompt in Hm, Hinput.
  unfold Api.StoryResultView_get_context_data, Api.get_object_or_404,
    try_except, bind, get_world, ret.
  rewrite Htable. subst st. cbn [negb world fst snd]. rewrite Hrow.
  cbn [fst snd]. unfold Display.get_input_method_display. rewrite Hm.
  unfold Views.choose_input_method.
  destruct (Py.truthy prompt),
    (Models.upload_truthy (Views.FILES_audio_file request));
    try discriminate Hinput; reflexivity.
Qed.

Lemma result_page_after_post_witness :
  exists s ctx,
    Views.created (Views.post Sample.offline Sample.text_request Sample.empty_world)
      = Some s /\
    fst (Api.StoryResultView_get_context_data Sample.offline (Models.id s)
           {| story := s;
              world := Views.world_after
                         (Views.post Sample.offline Sample.text_request
                            Sample.empty_world) |})
    = Return ctx /\ Api.ctx_story ctx = Some s.
Proof.
  destruct offline_run_completes as (s & Hc & _).
  exists s. eexists. split; [exact Hc|].
  split; [exact (f_equal fst
                   (result_page_after_post Sample.offline Sample.text_request
                      Sample.empty_world s s Hc)) | reflexivity].
Defined.

(** ** The helper APIs *)

(** X12: [check_and_suggest_ollama_setup] and the constructor of the
    story generator read the same answer of [/api/tags] in the same way:
    the generator is available exactly when the check reports a running
    server and one of the names it lists contains ['llama3.1:8b']; a check
    that fails lists no name. *)
Theorem setup_check_agrees_with_the_generator (env : Env) (st : St) :
  exists g ok names,
    fst (Ollama.__init__ env st) = Return g /\
    fst (Api.check_and_suggest_ollama_setup env st) = Return (ok, names) /\
    (Ollama.available g = true <->
     ok = true /\
     existsb (fun name => Py.contains "llama3.1:8b" name) names = true) /\
    (ok = false -> names = []).
Proof.
  rewrite init_eq.
  unfold Api.check_and_suggest_ollama_setup, Ollama.requests_get_tags,
    Ollama.decoded, tags_available, bind, try_except, ret, raise, get_world, emit.
  cbn [fst snd Ollama.available].
  destruct (http_get_tags env (trace (world st))) as [e|code names];
    cbn [fst snd].
  - eexists; exists false, []. split; [reflexivity|]. split; [reflexivity|].
    split; [|reflexivity]. split; [discriminate | intros [H _]; discriminate H].
  - destruct (code =? 200).
    + destruct names as [names|]; cbn [fst snd].
      * eexists; exists true, names. split; [reflexivity|]. split; [reflexivity|].
        split; [|discriminate]. split; [auto | intros [_ H]; exact H].
      * eexists; exists false, []. split; [reflexivity|]. split; [reflexivity|].
        split; [|reflexivity]. split; [discriminate | intros [H _]; discriminate H].
    + eexists; exists false, []. split; [reflexivity|]. split; [reflexivity|].
      split; [|reflexivity]. split; [discriminate | intros [H _]; discriminate H].
Qed.

(** X13: [AudioTranscribeView.post] never raises and touches neither the
    rows nor the files. Without a file it answers 400 and attempts no
    transcription; with a file it answers 200 with the text of Whisper,
    or of Google's recogniser when Whisper failed (Google is not asked
    otherwise), and 500 with the fixed message ['Transcription failed']
    when both failed. *)
Theorem transcribe_view_answers (env : Env) (audio : option Models.UploadedFile)
    (st : St) :
  let ok text := {| Api.status_code := 200;
                    Api.body := [("success", Api.JBool true);
                                 ("text", Api.JString text)] |} in
  let failed := {| Api.status_code := 500;
                   Api.body := [("error", Api.JString "Transcription failed")] |} in
  let missing := {| Api.status_code := 400;
                    Api.body := [("error", Api.JString "No audio file")] |} in
  exists resp evs,
    Api.AudioTranscribeView_post env audio st = (Return resp, with_events st evs) /\
    match audio with
    | Some f =>
        if Py.truthy (Models.uf_name f)
        then
          match whisper_transcribe env f with
          | Some text => resp = ok text /\ transcriptions evs = 1%nat
          | None =>
              transcriptions evs = 2%nat /\
              match google_transcribe env f with
              | inl text => resp = ok text
              | inr _ => resp = failed
              end
          end
        else resp = missing /\ evs = []
    | None => resp = missing /\ evs = []
    end.
Proof.
  cbv zeta.
  unfold Api.AudioTranscribeView_post, Views._safe_transcribe_audio,
    bind, try_except, ret, raise, emit, with_events.
  destruct audio as [f|]; cbn [Models.upload_truthy].
  2:{ do 2 eexists. split; [|split; reflexivity].
      cbn [fst snd]. rewrite app_nil_r. destruct st as [s [d fs tr]]. reflexivity. }
  destruct (Py.truthy (Models.uf_name f)).
  2:{ do 2 eexists. split; [|split; reflexivity].
      cbn [fst snd]. rewrite app_nil_r. destruct st as [s [d fs tr]]. reflexivity. }
  cbn [fst snd log_event world story db files trace].
  destruct (whisper_transcribe env f) as [text|]; cbn [fst snd].
  - do 2 eexists. split; [reflexivity|]. split; reflexivity.
  - cbn [fst snd log_event world story db files trace].
    destruct (google_transcribe env f) as [text|e]; cbn [fst snd];
      eexists;
      exists [EvTranscribe "whisper" (Models.uf_name f);
              EvTranscribe "google" (Models.uf_name f)];
      (split; [unfold log_event; cbn [db files trace];
               rewrite <- app_assoc; reflexivity|]);
      split; reflexivity.
Qed.

(** X14: [_call_ollama] never raises, sends one POST request, and what it
    returns is stripped: stripping it again changes nothing. It is the
    empty string for every answer that is not a 200 response with a
    content. *)
Theorem call_ollama_answer (env : Env) (self : Ollama.OllamaStoryGenerator)
    (system_prompt user_prompt : string) (st : St) :
  exists text ev,
    Ollama._call_ollama env self system_prompt user_prompt st
      = (Return text, with_events st [ev]) /\
    posts [ev] = 1%nat /\
    Py.strip text = text /\
    (failed_call (http_post env (trace (world st))
                    (chat_payload self system_prompt user_prompt)) = true ->
     text = EmptyString).
Proof.
  rewrite call_ollama_eq. do 2 eexists. split; [reflexivity|].
  split; [reflexivity|]. unfold call_result, failed_call.
  destruct (http_post env (trace (world st)) _) as [e|code content].
  - split; reflexivity.
  - destruct (code =? 200); [|split; reflexivity].
    destruct content as [c|]; [|split; reflexivity].
    split; [apply strip_idem | discriminate].
Qed.

(** ** The image generator *)

Section Prompts.

Lemma dict_get_style (d : list (string * string)) style default :
  ~ In style (map fst d) -> Gpu.dict_get d style default = default.
Proof.
  induction d as [|[k v] d IH]; [reflexivity|]. cbn [map fst In Gpu.dict_get].
  intros H. destruct (String.eqb_spec k style) as [->|_].
  - exfalso. apply H. left. reflexivity.
  - apply IH. intros Hin. apply H. right. exact Hin.
Qed.

Lemma dict_get_in (d : list (string * string)) key default :
  In (Gpu.dict_get d key default) (default :: map snd d).
Proof.
  induction d as [|[k v] d IH]; [left; reflexivity|]. cbn [map snd Gpu.dict_get].
  destruct (String.eqb k key).
  - right. left. reflexivity.
  - destruct IH as [IH|IH]; [left; exact IH | right; right; exact IH].
Qed.

End Prompts.

(** X15: the prompts sent to the diffusion pipeline: the description is
    passed on unchanged, between a base prompt and a style modifier that
    both come from the tables of the generator (the type that is identified
    always has an entry), and a style outside ['realistic'], ['artistic'],
    ['fantasy'] gives the prompt of ['realistic']. *)
Theorem image_prompts_use_the_tables (description style : string) :
  (exists base modifier,
     In base (map snd Gpu.character_base_prompts) /\
     In modifier (map snd Gpu.character_style_modifiers) /\
     Gpu._create_enhanced_character_prompt description style
       = base +:+ ", " +:+ description +:+ ", " +:+ modifier) /\
  (exists base modifier,
     In base (map snd Gpu.background_base_prompts) /\
     In modifier (map snd Gpu.background_style_modifiers) /\
     Gpu._create_enhanced_background_prompt description style
       = base +:+ ", " +:+ description +:+ ", " +:+ modifier) /\
  (~ In style ["realistic"; "artistic"; "fantasy"] ->
   Gpu._create_enhanced_character_prompt description style
     = Gpu._create_enhanced_character_prompt description "realistic" /\
   Gpu._create_enhanced_background_prompt description style
     = Gpu._create_enhanced_background_prompt description "realistic").
Proof.
  split; [|split].
  - unfold Gpu._create_enhanced_character_prompt. cbv zeta.
    do 2 eexists. split; [|split; [|reflexivity]].
    + unfold Gpu._identify_character_type. cbv zeta.
      repeat match goal with |- context [if ?b then _ else _] => destruct b end;
        cbn; auto 10.
    + destruct (dict_get_in Gpu.character_style_modifiers style
                  (Gpu.dict_get Gpu.character_style_modifiers "realistic"
                     EmptyString)) as [<-|H]; [|exact H].
      cbn. auto.
  - unfold Gpu._create_enhanced_background_prompt. cbv zeta.
    do 2 eexists. split; [|split; [|reflexivity]].
    + unfold Gpu._identify_setting_type. cbv zeta.
      repeat match goal with |- context [if ?b then _ else _] => destruct b end;
        cbn; auto 10.
    + destruct (dict_get_in Gpu.background_style_modifiers style
                  (Gpu.dict_get Gpu.background_style_modifiers "realistic"
                     EmptyString)) as [<-|H]; [|exact H].
      cbn. auto.
  - intros H.
    unfold Gpu._create_enhanced_character_prompt,
      Gpu._create_enhanced_background_prompt. cbv zeta.
    rewrite (dict_get_style Gpu.character_style_modifiers style) by exact H.
    rewrite (dict_get_style Gpu.background_style_modifiers style) by exact H.
    split; reflexivity.
Qed.

(** X16: without Ollama the images follow the story: the description that
    the fallback chose for a story is identified, by the image generator,
    as the type of the rule that chose it: knight, wizard or space, else
    adventurer, for the character; forest, castle or space, else
    mountain, for the setting. *)
Theorem fallback_descriptions_keep_the_type (story : string) :
  Gpu._identify_character_type (Ollama._fallback_character_description story)
    = first_match character_type_rules "adventurer" (Py.lower story) /\
  Gpu._identify_setting_type (Ollama._fallback_scene_description story)
    = first_match setting_type_rules "mountain" (Py.lower story).
Proof.
  unfold Ollama._fallback_character_description,
    Ollama._fallback_scene_description, character_type_rules,
    setting_type_rules, first_match, Py.any_in, existsb. cbv zeta.
  rewrite !orb_false_r.
  split;
    repeat match goal with
           | |- context [if ?b || ?c then _ else _] => destruct (b || c)
           end;
    vm_compute; reflexivity.
Qed.

(** X17: [_load_pipeline] loads the model at most once for an object:
    a call adds at most one load to the trace, and none when the pipeline
    is set or the generator is not available; once the pipeline is set,
    every later call returns [True] as it is. This holds also after a
    call that returned [False] because the configuration of the loaded
    pipeline failed: that failure is reported once. *)
Theorem load_pipeline_once (env : Env) (self : Gpu.GPUImageGenerator)
    (style : string) (st : St) :
  exists r self' evs,
    Gpu._load_pipeline env self style st = (Return (r, self'), with_events st evs) /\
    Gpu.available self' = Gpu.available self /\
    (loads evs <= 1)%nat /\
    (Gpu.pipeline self = true \/ Gpu.available self = false -> evs = []) /\
    (r = true -> Gpu.pipeline self' = true) /\
    (Gpu.available self = true -> Gpu.pipeline self' = true ->
     forall style' st',
       Gpu._load_pipeline env self' style' st' = (Return (true, self'), st')) /\
    (Gpu.available self = true -> Gpu.pipeline self = false ->
     from_pretrained env (trace (world st)) = ConfigFails ->
     r = false /\ Gpu.pipeline self' = true).
Proof.
  assert (Hsame : forall s : St, with_events s [] = s).
  { intros [s [d fs tr]]. unfold with_events. cbn. rewrite app_nil_r. reflexivity. }
  assert (Hagain : forall g, Gpu.available g = true -> Gpu.pipeline g = true ->
            forall style' st',
              Gpu._load_pipeline env g style' st' = (Return (true, g), st')).
  { intros g Ha Hp style' st'. unfold Gpu._load_pipeline.
    rewrite Ha, Hp. reflexivity. }
  unfold Gpu._load_pipeline at 1.
  destruct (Gpu.available self) eqn:Ha; cbn [negb].
  2:{ exists false, self, []. rewrite Hsame, Ha.
      split; [reflexivity|]. split; [reflexivity|]. split; [vm_compute; lia|].
      split; [reflexivity|]. split; [discriminate|].
      split; [discriminate|]. discriminate. }
  destruct (Gpu.pipeline self) eqn:Hp.
  { exists true, self, []. rewrite Hsame, Ha.
    split; [reflexivity|]. split; [reflexivity|]. split; [vm_compute; lia|].
    split; [reflexivity|]. split; [auto|].
    split; [intros _ _; apply Hagain; assumption|]. discriminate. }
  unfold bind, get_world, emit, ret. cbn [fst snd].
  destruct (from_pretrained env (trace (world st))) eqn:Hload;
    eexists; eexists; exists [EvLoadModel "stabilityai/stable-diffusion-2-1"];
    (split; [reflexivity|]); cbn [Gpu.set_pipeline Gpu.available Gpu.pipeline];
    (split; [first [exact Ha | reflexivity]|]); (split; [vm_compute; lia|]);
    (split; [intros [H|H]; discriminate H|]).
  all: split; [first [discriminate | reflexivity | auto]|].
  all: split; [intros _ Hp'; apply Hagain; [first [exact Ha | reflexivity] | exact Hp']|].
  all: intros _ _ H; first [discriminate H | split; reflexivity].
Qed.

(** X18: [_create_placeholder], for a width and a height that are both
    positive, returns the PNG encoding of a grey image of that size and
    changes nothing; when the text can be measured it is drawn once, in
    white, in the middle: the margins left and right of it, and above and
    below it, differ by at most one pixel; when measuring raises, the
    image is left plain.  For a negative or zero width or height it
    raises, as Pillow does, and changes nothing. *)
Theorem placeholder_text_is_centred (env : Env) (text : string)
    (width height : Z) (st : St) :
  (0 < width -> 0 < height ->
   forall b0 b1 b2 b3,
     textbbox env text = Some (b0, b1, b2, b3) ->
     exists x y,
       Gpu._create_placeholder env text width height st
       = (Return
            (PIL.PngOf
               (PIL.Draw (PIL.DrawText x y text PIL.DefaultFont (255, 255, 255))
                  (PIL.New "RGB" width height (120, 120, 120)))), st) /\
       0 <= (width - (x + (b2 - b0))) - x <= 1 /\
       0 <= (height - (y + (b3 - b1))) - y <= 1) /\
  (0 < width -> 0 < height ->
   textbbox env text = None ->
   Gpu._create_placeholder env text width height st
   = (Return (PIL.PngOf (PIL.New "RGB" width height (120, 120, 120))), st)) /\
  (width <= 0 \/ height <= 0 ->
   exists e, Gpu._create_placeholder env text width height st = (Raise e, st)).
Proof.
  split; [|split].
  - intros Hw Hh b0 b1 b2 b3 H.
    rewrite create_placeholder_eq by assumption.
    unfold placeholder_png. rewrite H. cbv zeta.
    do 2 eexists. split; [reflexivity|].
    pose proof (Z.div_mod (width - (b2 - b0)) 2 ltac:(lia)).
    pose proof (Z.mod_pos_bound (width - (b2 - b0)) 2 ltac:(lia)).
    pose proof (Z.div_mod (height - (b3 - b1)) 2 ltac:(lia)).
    pose proof (Z.mod_pos_bound (height - (b3 - b1)) 2 ltac:(lia)).
    lia.
  - intros Hw Hh H. rewrite create_placeholder_eq by assumption.
    unfold placeholder_png. rewrite H. reflexivity.
  - intros H. unfold Gpu._create_placeholder, bind, ret, raise.
    destruct ((width <? 0) || (height <? 0)) eqn:E1; [eexists; reflexivity|].
    destruct ((width =? 0) || (height =? 0)) eqn:E2; [eexists; reflexivity|].
    apply orb_false_iff in E1 as [E1 E1'], E2 as [E2 E2'].
    apply Z.ltb_ge in E1, E1'. apply Z.eqb_neq in E2, E2'. lia.
Qed.

Lemma placeholder_text_is_centred_witness :
  (exists x y,
     Gpu._create_placeholder Sample.offline "COMPOSED SCENE" 768 512 Sample.fresh
     = (Return
          (PIL.PngOf
             (PIL.Draw (PIL.DrawText x y "COMPOSED SCENE" PIL.DefaultFont
                          (255, 255, 255))
                (PIL.New "RGB" 768 512 (120, 120, 120)))), Sample.fresh) /\
     0 <= (768 - (x + (84 - 0))) - x <= 1 /\
     0 <= (512 - (y + (11 - 0))) - y <= 1) /\
  (exists e,
     Gpu._create_placeholder Sample.offline "COMPOSED SCENE" 0 512 Sample.fresh
     = (Raise e, Sample.fresh)).
Proof.
  split.
  - exact (proj1 (placeholder_text_is_centred Sample.offline "COMPOSED SCENE"
                    768 512 Sample.fresh)
             eq_refl eq_refl 0 0 84 11 eq_refl).
  - exact (proj2 (proj2 (placeholder_text_is_centred Sample.offline
                           "COMPOSED SCENE" 0 512 Sample.fresh))
             (or_introl (Z.le_refl 0))).
Defined.

(** X19: the gradients of the two artistic placeholders stay inside the
    colour range: for every row [y] of the 512 rows, the three components
    that the character gradient computes, and those of the sky (rows
    0..255) or ground (rows 256..511) gradient of the background, lie
    between 0 and 255. *)
Theorem placeholder_colours_fit_a_byte (y : Z) :
  0 <= y < 512 ->
  is_colour (Gpu.character_gradient_color y) = true /\
  is_colour (if y <? 256 then Gpu.sky_gradient_color y
             else Gpu.ground_gradient_color y) = true.
Proof.
  intros Hy.
  assert (Hall : forallb
            (fun n => is_colour (Gpu.character_gradient_color (Z.of_nat n))
                      && is_colour (if Z.of_nat n <? 256
                                    then Gpu.sky_gradient_color (Z.of_nat n)
                                    else Gpu.ground_gradient_color (Z.of_nat n)))
            (seq 0 512) = true) by (vm_compute; reflexivity).
  rewrite forallb_forall in Hall.
  specialize (Hall (Z.to_nat y)). rewrite Z2Nat.id in Hall by lia.
  apply andb_true_iff. apply Hall. apply in_seq. lia.
Qed.

Lemma placeholder_colours_fit_a_byte_witness :
  is_colour (Gpu.character_gradient_color 511) = true /\
  is_colour (if 511 <? 256 then Gpu.sky_gradient_color 511
             else Gpu.ground_gradient_color 511) = true.
Proof. apply (placeholder_colours_fit_a_byte 511). lia. Defined.

(** ** The audio processor *)

Section Processor.

Import Models.

Variable env : Env.
Variable aenv : AudioEnv.

Lemma with_files_same st : with_files st (files (world st)) = st.
Proof. destruct st as [s [d fs tr]]. reflexivity. Qed.

Lemma temp_path_truthy audio_file : Py.truthy (temp_path_of env audio_file) = true.
Proof. unfold temp_path_of. apply truthy_app_r. reflexivity. Qed.

Lemma wav_path_truthy audio_file : Py.truthy (wav_path_of env audio_file) = true.
Proof. unfold wav_path_of. apply truthy_app_r. reflexivity. Qed.

Lemma save_temp_audio_eq audio_file st :
  AudioProcessing._save_temp_audio env audio_file st
  = (Return (temp_path_of env audio_file),
     with_files st (<[temp_path_of env audio_file := PIL.Raw (uf_data audio_file)]>
                      (files (world st)))).
Proof. reflexivity. Qed.

(** [_convert_to_wav] on a file that is there. *)
Lemma convert_to_wav_eq input_path data st :
  files (world st) !! input_path = Some data ->
  AudioProcessing._convert_to_wav aenv input_path st
  = match export_wav aenv input_path data with
    | Some wav =>
        (Return (Builtins.rsplit_head "."%char input_path +:+ ".wav"),
         with_files st (<[Builtins.rsplit_head "."%char input_path +:+ ".wav" := wav]>
                          (files (world st))))
    | None => (Return input_path, st)
    end.
Proof.
  intros H. unfold AudioProcessing._convert_to_wav, bind, get_world, ret.
  cbn [fst snd]. rewrite H.
  destruct (export_wav aenv input_path data); reflexivity.
Qed.

Lemma cleanup_one_eq file_path st :
  Py.truthy file_path = true ->
  AudioProcessing.cleanup_one file_path st
  = (Return tt, with_files st (delete file_path (files (world st)))).
Proof.
  intros H. unfold AudioProcessing.cleanup_one, bind, get_world, ret.
  cbn [fst snd]. rewrite H.
  destruct (files (world st) !! file_path) eqn:E; [reflexivity|].
  rewrite (delete_id _ _ E), with_files_same. reflexivity.
Qed.

Lemma cleanup_two_eq a b st :
  Py.truthy a = true -> Py.truthy b = true ->
  AudioProcessing._cleanup_temp_files [a; b] st
  = (Return tt, with_files st (delete b (delete a (files (world st))))).
Proof.
  intros Ha Hb. cbn [AudioProcessing._cleanup_temp_files]. unfold bind.
  rewrite (cleanup_one_eq _ _ Ha). cbn [fst snd].
  rewrite (cleanup_one_eq _ _ Hb). cbn [fst snd]. reflexivity.
Qed.

Lemma with_files_files st fs : files (world (with_files st fs)) = fs.
Proof. reflexivity. Qed.

(** What [transcribe_audio] does when the libraries are there: [fs] are
    the files it leaves, [evs] the events it adds. *)
Lemma transcribe_audio_spec self audio_file st :
  AUDIO_LIBS_AVAILABLE aenv = true ->
  let temp := temp_path_of env audio_file in
  let wav := wav_path_of env audio_file in
  exists o fs evs,
    AudioProcessing.transcribe_audio env aenv self audio_file st
      = (o, with_events (with_files st fs) evs) /\
    (forall p, p <> temp -> p <> wav -> fs !! p = files (world st) !! p) /\
    let cleaned := fs !! temp = None /\
                   (fs !! wav = None \/ fs !! wav = files (world st) !! wav) in
    let written :=
      let copied := <[temp := PIL.Raw (uf_data audio_file)]> (files (world st)) in
      match export_wav aenv temp (PIL.Raw (uf_data audio_file)) with
      | Some data => <[wav := data]> copied
      | None => copied
      end in
    let left_behind := is_Some (fs !! temp) /\ fs = written in
    (evs = [] /\ AudioProcessing.whisper_model self = false /\
     AudioProcessing.speech_recognizer self = false /\
     o = Raise "Failed to transcribe audio: No transcription method available" /\
     left_behind) \/
    (exists a, evs = [EvTranscribe "whisper" a] /\
       AudioProcessing.whisper_model self = true /\
       match whisper_model_transcribe aenv a with
       | inl text => o = Return (Py.strip text) /\ cleaned
       | inr e => o = Raise ("Failed to transcribe audio: " +:+ e) /\ left_behind
       end) \/
    (exists a, evs = [EvTranscribe "google" a] /\
       AudioProcessing.whisper_model self = false /\
       AudioProcessing.speech_recognizer self = true /\
       match recognize_google aenv a with
       | Recognized text => o = Return (Py.strip text) /\ cleaned
       | UnknownValueError =>
           o = Raise "Failed to transcribe audio: Could not understand audio" /\
           left_behind
       | RequestError e =>
           o = Raise ("Failed to transcribe audio: "
                      +:+ "Speech recognition service error: " +:+ e) /\
           left_behind
       | OtherError e => o = Raise ("Failed to transcribe audio: " +:+ e) /\
                         left_behind
       end).
Proof.
  intros Hlibs. cbv zeta. unfold wav_path_of.
  set (temp := temp_path_of env audio_file).
  set (wav := Builtins.rsplit_head "."%char temp +:+ ".wav").
  unfold AudioProcessing.transcribe_audio. rewrite Hlibs. cbn [negb].
  unfold try_except, bind at 1. rewrite save_temp_audio_eq. cbn [fst snd].
  fold temp. unfold bind at 1.
  rewrite (convert_to_wav_eq temp (PIL.Raw (uf_data audio_file)))
    by (rewrite with_files_files; apply lookup_insert_eq).
  fold wav.
  assert (Ht : Py.truthy temp = true) by apply temp_path_truthy.
  assert (Hw : Py.truthy wav = true) by apply (wav_path_truthy audio_file).
  assert (Htwice : forall fs0 fs1,
            with_files (with_files st fs0) fs1 = with_files st fs1) by reflexivity.
  assert (Hstate : forall fs0 ev fs1,
            with_files (after_event (with_files st fs0) ev) fs1
            = with_events (with_files st fs1) [ev]) by reflexivity.
  assert (Hstate' : forall fs0 ev,
            after_event (with_files st fs0) ev
            = with_events (with_files st fs0) [ev]) by reflexivity.
  assert (Hnil : forall fs0, with_files st fs0 = with_events (with_files st fs0) []).
  { intros fs0. unfold with_events, with_files. cbn. rewrite app_nil_r.
    reflexivity. }
  destruct (export_wav aenv temp (PIL.Raw (uf_data audio_file))) as [wavdata|];
    cbn [fst snd]; rewrite ?with_files_files, ?Htwice.
  - (* the WAV file was written *)
    set (fs1 := <[wav := wavdata]> (<[temp := PIL.Raw (uf_data audio_file)]>
                                      (files (world st)))).
    assert (Hleft : is_Some (fs1 !! temp) /\ fs1 = fs1).
    { split; [|reflexivity].
      subst fs1. destruct (decide (wav = temp)) as [->|Hne].
      - rewrite lookup_insert_eq. eauto.
      - rewrite lookup_insert_ne, lookup_insert_eq by exact Hne. eauto. }
    assert (Hother1 : forall p, p <> temp -> p <> wav ->
              fs1 !! p = files (world st) !! p).
    { intros p H1 H2. subst fs1.
      rewrite !lookup_insert_ne by congruence. reflexivity. }
    assert (Hclean : forall p, p <> temp -> p <> wav ->
              delete wav (delete temp fs1) !! p = files (world st) !! p).
    { intros p H1 H2. rewrite !lookup_delete_ne by congruence.
      apply Hother1; assumption. }
    assert (Hgone : delete wav (delete temp fs1) !! temp = None /\
                    (delete wav (delete temp fs1) !! wav = None \/
                     delete wav (delete temp fs1) !! wav = files (world st) !! wav)).
    { split; [|left; apply lookup_delete_eq].
      destruct (decide (wav = temp)) as [->|Hne]; [apply lookup_delete_eq|].
      rewrite lookup_delete_ne by exact Hne. apply lookup_delete_eq. }
    unfold bind.
    destruct (AudioProcessing.whisper_model self) eqn:Hwm;
      [|destruct (AudioProcessing.speech_recognizer self) eqn:Hsr].
    + unfold AudioProcessing._transcribe_with_whisper, bind, emit. cbn [fst snd].
      fold (after_event (with_files st fs1) (EvTranscribe "whisper" wav)).
      destruct (whisper_model_transcribe aenv wav) as [text|e] eqn:Etr;
        cbn [fst snd ret raise].
      * rewrite (cleanup_two_eq _ _ _ Ht Hw). cbn [fst snd]. rewrite Hstate.
        do 3 eexists. split; [reflexivity|]. split; [exact Hclean|].
        right. left. exists wav. split; [reflexivity|]. split; [reflexivity|].
        rewrite Etr. split; [reflexivity | exact Hgone].
      * rewrite Hstate'. do 3 eexists. split; [reflexivity|].
        split; [exact Hother1|].
        right. left. exists wav. split; [reflexivity|]. split; [reflexivity|].
        rewrite Etr. split; [reflexivity | exact Hleft].
    + unfold AudioProcessing._transcribe_with_speech_recognition, bind, emit.
      cbn [fst snd].
      fold (after_event (with_files st fs1) (EvTranscribe "google" wav)).
      destruct (recognize_google aenv wav) as [text| |e|e] eqn:Etr;
        cbn [fst snd ret raise].
      * rewrite (cleanup_two_eq _ _ _ Ht Hw). cbn [fst snd]. rewrite Hstate.
        do 3 eexists. split; [reflexivity|]. split; [exact Hclean|].
        right. right. exists wav. split; [reflexivity|]. split; [reflexivity|].
        split; [reflexivity|]. rewrite Etr. split; [reflexivity | exact Hgone].
      * rewrite Hstate'. do 3 eexists. split; [reflexivity|].
        split; [exact Hother1|].
        right. right. exists wav. split; [reflexivity|]. split; [reflexivity|].
        split; [reflexivity|]. rewrite Etr. split; [reflexivity | exact Hleft].
      * rewrite Hstate'. do 3 eexists. split; [reflexivity|].
        split; [exact Hother1|].
        right. right. exists wav. split; [reflexivity|]. split; [reflexivity|].
        split; [reflexivity|]. rewrite Etr. split; [reflexivity | exact Hleft].
      * rewrite Hstate'. do 3 eexists. split; [reflexivity|].
        split; [exact Hother1|].
        right. right. exists wav. split; [reflexivity|]. split; [reflexivity|].
        split; [reflexivity|]. rewrite Etr. split; [reflexivity | exact Hleft].
    + cbn [fst snd raise]. rewrite (Hnil fs1). do 3 eexists.
      split; [reflexivity|]. split; [exact Hother1|].
      left. split; [reflexivity|]. split; [reflexivity|]. split; [reflexivity|].
      split; [reflexivity | exact Hleft].
  - (* the conversion failed: the copy of the upload is transcribed *)
    set (fs1 := <[temp := PIL.Raw (uf_data audio_file)]> (files (world st))).
    assert (Hleft : is_Some (fs1 !! temp) /\ fs1 = fs1).
    { split; [|reflexivity]. subst fs1. rewrite lookup_insert_eq. eauto. }
    assert (Hother1 : forall p, p <> temp -> p <> wav ->
              fs1 !! p = files (world st) !! p).
    { intros p H1 H2. subst fs1.
      rewrite !lookup_insert_ne by congruence. reflexivity. }
    assert (Hclean : forall p, p <> temp -> p <> wav ->
              delete temp (delete temp fs1) !! p = files (world st) !! p).
    { intros p H1 H2. rewrite !lookup_delete_ne by congruence.
      apply Hother1; assumption. }
    assert (Hgone : delete temp (delete temp fs1) !! temp = None /\
                    (delete temp (delete temp fs1) !! wav = None \/
                     delete temp (delete temp fs1) !! wav = files (world st) !! wav)).
    { split; [apply lookup_delete_eq|].
      destruct (decide (wav = temp)) as [->|Hne]; [left; apply lookup_delete_eq|].
      right. rewrite !lookup_delete_ne by congruence. subst fs1.
      rewrite lookup_insert_ne by congruence. reflexivity. }
    unfold bind.
    destruct (AudioProcessing.whisper_model self) eqn:Hwm;
      [|destruct (AudioProcessing.speech_recognizer self) eqn:Hsr].
    + unfold AudioProcessing._transcribe_with_whisper, bind, emit. cbn [fst snd].
      fold (after_event (with_files st fs1) (EvTranscribe "whisper" temp)).
      destruct (whisper_model_transcribe aenv temp) as [text|e] eqn:Etr;
        cbn [fst snd ret raise].
      * rewrite (cleanup_two_eq _ _ _ Ht Ht). cbn [fst snd]. rewrite Hstate.
        do 3 eexists. split; [reflexivity|]. split; [exact Hclean|].
        right. left. exists temp. split; [reflexivity|]. split; [reflexivity|].
        rewrite Etr. split; [reflexivity | exact Hgone].
      * rewrite Hstate'. do 3 eexists. split; [reflexivity|].
        split; [exact Hother1|].
        right. left. exists temp. split; [reflexivity|]. split; [reflexivity|].
        rewrite Etr. split; [reflexivity | exact Hleft].
    + unfold AudioProcessing._transcribe_with_speech_recognition, bind, emit.
      cbn [fst snd].
      fold (after_event (with_files st fs1) (EvTranscribe "google" temp)).
      destruct (recognize_google aenv temp) as [text| |e|e] eqn:Etr;
        cbn [fst snd ret raise].
      * rewrite (cleanup_two_eq _ _ _ Ht Ht). cbn [fst snd]. rewrite Hstate.
        do 3 eexists. split; [reflexivity|]. split; [exact Hclean|].
        right. right. exists temp. split; [reflexivity|]. split; [reflexivity|].
        split; [reflexivity|]. rewrite Etr. split; [reflexivity | exact Hgone].
      * rewrite Hstate'. do 3 eexists. split; [reflexivity|].
        split; [exact Hother1|].
        right. right. exists temp. split; [reflexivity|]. split; [reflexivity|].
        split; [reflexivity|]. rewrite Etr. split; [reflexivity | exact Hleft].
      * rewrite Hstate'. do 3 eexists. split; [reflexivity|].
        split; [exact Hother1|].
        right. right. exists temp. split; [reflexivity|]. split; [reflexivity|].
        split; [reflexivity|]. rewrite Etr. split; [reflexivity | exact Hleft].
      * rewrite Hstate'. do 3 eexists. split; [reflexivity|].
        split; [exact Hother1|].
        right. right. exists temp. split; [reflexivity|]. split; [reflexivity|].
        split; [reflexivity|]. rewrite Etr. split; [reflexivity | exact Hleft].
    + cbn [fst snd raise]. rewrite (Hnil fs1). do 3 eexists.
      split; [reflexivity|]. split; [exact Hother1|].
      left. split; [reflexivity|]. split; [reflexivity|]. split; [reflexivity|].
      split; [reflexivity | exact Hleft].
Qed.

End Processor.

(** X20: a transcription that succeeds leaves no temporary file: the
    text that [transcribe_audio] returns is stripped, the copy of the
    upload is gone, the WAV file made of it is gone (when the conversion
    failed, nothing was written there), every other file is as it was,
    and the record and the rows are not touched. *)
Theorem transcribe_audio_cleans_up (env : Env) (aenv : AudioEnv)
    (self : AudioProcessing.AudioProcessor) (audio_file : Models.UploadedFile)
    (st : St) (text : string) :
  fst (AudioProcessing.transcribe_audio env aenv self audio_file st) = Return text ->
  let st' := snd (AudioProcessing.transcribe_audio env aenv self audio_file st) in
  let temp := temp_path_of env audio_file in
  let wav := wav_path_of env audio_file in
  Py.strip text = text /\
  files (world st') !! temp = None /\
  (files (world st') !! wav = None \/
   files (world st') !! wav = files (world st) !! wav) /\
  (forall p, p <> temp -> p <> wav ->
     files (world st') !! p = files (world st) !! p) /\
  story st' = story st /\ db (world st') = db (world st).
Proof.
  intros H. cbv zeta.
  destruct (AUDIO_LIBS_AVAILABLE aenv) eqn:Hlibs.
  2:{ unfold AudioProcessing.transcribe_audio in H. rewrite Hlibs in H.
      discriminate H. }
  destruct (transcribe_audio_spec env aenv self audio_file st Hlibs)
    as (o & fs & evs & Heq & Hother & Hcases).
  cbv zeta in Hcases. rewrite Heq in *. cbn [fst snd] in *. subst o.
  cbn [with_events with_files world story files db].
  assert (Hmain : Py.strip text = text /\ fs !! temp_path_of env audio_file = None /\
            (fs !! wav_path_of env audio_file = None \/
             fs !! wav_path_of env audio_file
             = files (world st) !! wav_path_of env audio_file)).
  { destruct Hcases as [(_ & _ & _ & Ho & _)|[(a & _ & _ & Hc)|(a & _ & _ & _ & Hc)]].
    - discriminate Ho.
    - destruct (whisper_model_transcribe aenv a) as [t|e];
        destruct Hc as [Ho Hc]; [|discriminate Ho].
      injection Ho as ->. split; [apply strip_idem | exact Hc].
    - destruct (recognize_google aenv a) as [t| |e|e];
        destruct Hc as [Ho Hc]; try discriminate Ho.
      injection Ho as ->. split; [apply strip_idem | exact Hc]. }
  destruct Hmain as (H1 & H2 & H3).
  split; [exact H1|]. split; [exact H2|]. split; [exact H3|].
  split; [exact Hother|]. split; reflexivity.
Qed.

Lemma transcribe_audio_cleans_up_witness :
  files (world (snd (AudioProcessing.transcribe_audio Sample.offline
                       AudioSample.whisper_machine
                       (AudioProcessing.__init__ AudioSample.whisper_machine)
                       AudioSample.speech
                       {| story := story Sample.fresh;
                          world := Sample.empty_world |})))
  !! temp_path_of Sample.offline AudioSample.speech = None.
Proof.
  exact (proj1 (proj2
    (transcribe_audio_cleans_up Sample.offline AudioSample.whisper_machine
       (AudioProcessing.__init__ AudioSample.whisper_machine)
       AudioSample.speech
       {| story := story Sample.fresh; world := Sample.empty_world |}
       "once upon a time" ltac:(vm_compute; reflexivity)))).
Defined.

(** X21: a transcription that fails. Without the libraries the message is
    ['Audio processing libraries not installed'] and nothing has happened.
    With them, the message starts with ['Failed to transcribe audio: '],
    and the cleanup is skipped: the files are those found, the copy of the
    upload in the temporary directory and, when the conversion succeeded,
    the WAV file made of it, so both temporary files are left behind; the
    record and the rows are not touched. *)
Theorem transcribe_audio_failure (env : Env) (aenv : AudioEnv)
    (self : AudioProcessing.AudioProcessor) (audio_file : Models.UploadedFile)
    (st : St) (e : string) :
  fst (AudioProcessing.transcribe_audio env aenv self audio_file st) = Raise e ->
  let st' := snd (AudioProcessing.transcribe_audio env aenv self audio_file st) in
  let temp := temp_path_of env audio_file in
  let wav := wav_path_of env audio_file in
  let copy := PIL.Raw (Models.uf_data audio_file) in
  if AUDIO_LIBS_AVAILABLE aenv
  then
    Py.startswith "Failed to transcribe audio: " e = true /\
    files (world st')
    = match export_wav aenv temp copy with
      | Some data => <[wav := data]> (<[temp := copy]> (files (world st)))
      | None => <[temp := copy]> (files (world st))
      end /\
    is_Some (files (world st') !! temp) /\
    (forall data, export_wav aenv temp copy = Some data ->
       files (world st') !! wav = Some data) /\
    (forall p, p <> temp -> p <> wav ->
       files (world st') !! p = files (world st) !! p) /\
    story st' = story st /\ db (world st') = db (world st)
  else e = "Audio processing libraries not installed" /\ st' = st.
Proof.
  intros H. cbv zeta.
  destruct (AUDIO_LIBS_AVAILABLE aenv) eqn:Hlibs.
  2:{ unfold AudioProcessing.transcribe_audio in *. rewrite Hlibs in *.
      cbn in H. injection H as <-. split; reflexivity. }
  destruct (transcribe_audio_spec env aenv self audio_file st Hlibs)
    as (o & fs & evs & Heq & Hother & Hcases).
  cbv zeta in Hcases. rewrite Heq in *. cbn [fst snd] in *. subst o.
  cbn [with_events with_files world story files db].
  assert (Hmain : Py.startswith "Failed to transcribe audio: " e = true /\
                  is_Some (fs !! temp_path_of env audio_file) /\
                  fs = match export_wav aenv (temp_path_of env audio_file)
                               (PIL.Raw (Models.uf_data audio_file)) with
                       | Some data =>
                           <[wav_path_of env audio_file := data]>
                             (<[temp_path_of env audio_file
                                := PIL.Raw (Models.uf_data audio_file)]>
                                (files (world st)))
                       | None =>
                           <[temp_path_of env audio_file
                             := PIL.Raw (Models.uf_data audio_file)]>
                             (files (world st))
                       end).
  { destruct Hcases as [(_ & _ & _ & Ho & Hl)|[(a & _ & _ & Hc)|(a & _ & _ & _ & Hc)]].
    - injection Ho as ->. split; [reflexivity | exact Hl].
    - destruct (whisper_model_transcribe aenv a) as [t|e'];
        destruct Hc as [Ho Hc]; [discriminate Ho|].
      injection Ho as ->. split; [apply startswith_app | exact Hc].
    - destruct (recognize_google aenv a) as [t| |e'|e'];
        destruct Hc as [Ho Hc]; try discriminate Ho;
        injection Ho as ->; (split; [|exact Hc]);
        first [reflexivity | apply startswith_app]. }
  destruct Hmain as (H1 & H2 & H3).
  split; [exact H1|]. split; [exact H3|]. split; [exact H2|].
  split; [|split; [exact Hother | split; reflexivity]].
  intros data Hdata. rewrite H3, Hdata. apply lookup_insert_eq.
Qed.

Lemma transcribe_audio_failure_witness :
  Py.startswith "Failed to transcribe audio: " "Failed to transcribe audio: model failed"
  = true /\
  files (world (snd (AudioProcessing.transcribe_audio Sample.offline
                       AudioSample.failing_whisper
                       (AudioProcessing.__init__ AudioSample.failing_whisper)
                       AudioSample.speech
                       {| story := story Sample.fresh;
                          world := Sample.empty_world |})))
  = <[ "/srv/media/temp_audio/temp_audio_speech.wav"%string := PIL.Raw "abc" ]>
      (<[ "/srv/media/temp_audio/temp_audio_speech.mp3"%string := PIL.Raw "abc" ]> ∅).
Proof.
  pose proof (transcribe_audio_failure Sample.offline AudioSample.failing_whisper
                (AudioProcessing.__init__ AudioSample.failing_whisper)
                AudioSample.speech
                {| story := story Sample.fresh; world := Sample.empty_world |}
                "Failed to transcribe audio: model failed"
                ltac:(vm_compute; reflexivity)) as H.
  exact (conj (proj1 H) (proj1 (proj2 H))).
Defined.

(** X22: the processor has no second try: when the Whisper model is
    loaded, [transcribe_audio] makes one transcription attempt, with
    Whisper, and a failure of Whisper is the failure of the call;
    Google's recogniser is not asked (unlike in
    [GenerateStoryView._safe_transcribe_audio]). *)
Theorem whisper_has_no_fallback (env : Env) (aenv : AudioEnv)
    (self : AudioProcessing.AudioProcessor) (audio_file : Models.UploadedFile)
    (st : St) :
  AUDIO_LIBS_AVAILABLE aenv = true ->
  AudioProcessing.whisper_model self = true ->
  exists a,
    trace (world (snd (AudioProcessing.transcribe_audio env aenv self audio_file st)))
    = trace (world st) ++ [EvTranscribe "whisper" a] /\
    fst (AudioProcessing.transcribe_audio env aenv self audio_file st)
    = match whisper_model_transcribe aenv a with
      | inl text => Return (Py.strip text)
      | inr e => Raise ("Failed to transcribe audio: " +:+ e)
      end.
Proof.
  intros Hlibs Hwm.
  destruct (transcribe_audio_spec env aenv self audio_file st Hlibs)
    as (o & fs & evs & Heq & _ & Hcases).
  cbv zeta in Hcases. rewrite Heq. cbn [fst snd].
  destruct Hcases as [(_ & Hf & _)|[(a & -> & _ & Hc)|(a & _ & Hf & _)]];
    [congruence | | congruence].
  exists a. split; [reflexivity|].
  destruct (whisper_model_transcribe aenv a); apply Hc.
Qed.

Lemma whisper_has_no_fallback_witness :
  exists a,
    trace (world (snd (AudioProcessing.transcribe_audio Sample.offline
                         AudioSample.failing_whisper
                         (AudioProcessing.__init__ AudioSample.failing_whisper)
                         AudioSample.speech
                         {| story := story Sample.fresh;
                            world := Sample.empty_world |})))
    = [] ++ [EvTranscribe "whisper" a] /\
    fst (AudioProcessing.transcribe_audio Sample.offline
           AudioSample.failing_whisper
           (AudioProcessing.__init__ AudioSample.failing_whisper)
           AudioSample.speech
           {| story := story Sample.fresh; world := Sample.empty_world |})
    = Raise "Failed to transcribe audio: model failed".
Proof.
  exact (whisper_has_no_fallback Sample.offline AudioSample.failing_whisper
           (AudioProcessing.__init__ AudioSample.failing_whisper)
           AudioSample.speech
           {| story := story Sample.fresh; world := Sample.empty_world |}
           eq_refl eq_refl).
Defined.

(** X23: a processor that [is_audio_supported] does not support never
    returns a text: [transcribe_audio] raises, and no transcription is
    attempted. The processor that [AudioProcessor()] builds when the
    libraries are missing is such a one. *)
Theorem unsupported_processor_never_transcribes (env : Env) (aenv : AudioEnv)
    (self : AudioProcessing.AudioProcessor) (audio_file : Models.UploadedFile)
    (st : St) :
  AudioProcessing.is_audio_supported aenv self = false ->
  (exists e,
     fst (AudioProcessing.transcribe_audio env aenv self audio_file st) = Raise e) /\
  trace (world (snd (AudioProcessing.transcribe_audio env aenv self audio_file st)))
  = trace (world st) /\
  (AUDIO_LIBS_AVAILABLE aenv = false ->
   AudioProcessing.is_audio_supported aenv (AudioProcessing.__init__ aenv) = false).
Proof.
  intros H. unfold AudioProcessing.is_audio_supported in *.
  destruct (AUDIO_LIBS_AVAILABLE aenv) eqn:Hlibs.
  2:{ unfold AudioProcessing.transcribe_audio. rewrite Hlibs. cbn.
      split; [eauto|]. split; reflexivity. }
  cbn [andb] in H. apply orb_false_iff in H. destruct H as [Hwm Hsr].
  destruct (transcribe_audio_spec env aenv self audio_file st Hlibs)
    as (o & fs & evs & Heq & _ & Hcases).
  cbv zeta in Hcases. rewrite Heq. cbn [fst snd].
  destruct Hcases as [(-> & _ & _ & -> & _)|[(a & _ & Hf & _)|(a & _ & _ & Hf & _)]];
    [|congruence|congruence].
  split; [eauto|]. split; [|discriminate].
  cbn. apply app_nil_r.
Qed.

Lemma unsupported_processor_never_transcribes_witness :
  exists e,
    fst (AudioProcessing.transcribe_audio Sample.offline AudioSample.no_libraries
           (AudioProcessing.__init__ AudioSample.no_libraries)
           AudioSample.speech
           {| story := story Sample.fresh; world := Sample.empty_world |})
    = Raise e.
Proof.
  exact (proj1
    (unsupported_processor_never_transcribes Sample.offline
       AudioSample.no_libraries
       (AudioProcessing.__init__ AudioSample.no_libraries)
       AudioSample.speech
       {| story := story Sample.fresh; world := Sample.empty_world |}
       eq_refl)).
Defined.

(** X24: the two image functions never raise, whatever the libraries do:
    they return PNG bytes, either the enhanced image of the pipeline or
    the placeholder of their kind, after at most one load of the model and
    at most one run of the pipeline, without any request to Ollama. *)
Theorem image_generation_never_fails (env : Env) (g : Gpu.GPUImageGenerator)
    (description style : string) (st : St) :
  (exists blob g' evs,
     Gpu.generate_character_image env g description style st
       = (Return (blob, g'), with_events st evs) /\
     (blob = Gpu._create_artistic_character_placeholder env description \/
      exists image, blob = PIL.PngOf (Gpu._enhance_image image)) /\
     (loads evs <= 1)%nat /\ (diffusions evs <= 1)%nat /\ posts evs = 0%nat) /\
  (exists blob g' evs,
     Gpu.generate_background_image env g description style st
       = (Return (blob, g'), with_events st evs) /\
     (blob = Gpu._create_artistic_background_placeholder env description \/
      exists image, blob = PIL.PngOf (Gpu._enhance_image image)) /\
     (loads evs <= 1)%nat /\ (diffusions evs <= 1)%nat /\ posts evs = 0%nat).
Proof.
  assert (Hsame : with_events st [] = st).
  { destruct st as [s [d fs tr]]. unfold with_events. cbn. rewrite app_nil_r.
    reflexivity. }
  assert (Hone : forall ev, after_event st ev = with_events st [ev]) by reflexivity.
  assert (Htwo : forall ev ev',
            after_event (after_event st ev) ev' = with_events st [ev; ev']).
  { intros. unfold after_event, with_events, log_event. cbn.
    rewrite <- app_assoc. reflexivity. }
  split.
  - unfold Gpu.generate_character_image, Gpu.ready, Gpu._load_pipeline,
      Gpu.run_pipeline, try_except, bind, ret, raise, get_world, emit.
    destruct (Gpu.available g); cbn [negb fst snd].
    2:{ exists (Gpu._create_artistic_character_placeholder env description), g, [].
        rewrite Hsame. split; [reflexivity|]. split; [left; reflexivity|].
        vm_compute. repeat split; lia. }
    destruct (Gpu.pipeline g); cbn [fst snd].
    + fold (after_event st).
      match goal with |- context [diffuse env ?t ?c] =>
        destruct (diffuse env t c) as [image|] end; cbn [fst snd];
        do 2 eexists; eexists [_]; rewrite <- Hone;
        (split; [reflexivity|]); (split; [eauto|]); vm_compute; repeat split; lia.
    + fold (after_event st).
      destruct (from_pretrained env (trace (world st))); cbn [fst snd].
      * do 2 eexists; eexists [_]; rewrite <- Hone.
        split; [reflexivity|]. split; [eauto|]. vm_compute; repeat split; lia.
      * do 2 eexists; eexists [_]; rewrite <- Hone.
        split; [reflexivity|]. split; [eauto|]. vm_compute; repeat split; lia.
      * match goal with |- context [diffuse env ?t ?c] =>
          destruct (diffuse env t c) as [image|] end; cbn [fst snd];
          do 2 eexists; eexists [_; _]; rewrite <- Htwo;
          (split; [reflexivity|]); (split; [eauto|]); vm_compute; repeat split; lia.
  - unfold Gpu.generate_background_image, Gpu.ready, Gpu._load_pipeline,
      Gpu.run_pipeline, try_except, bind, ret, raise, get_world, emit.
    destruct (Gpu.available g); cbn [negb fst snd].
    2:{ exists (Gpu._create_artistic_background_placeholder env description), g, [].
        rewrite Hsame. split; [reflexivity|]. split; [left; reflexivity|].
        vm_compute. repeat split; lia. }
    destruct (Gpu.pipeline g); cbn [fst snd].
    + fold (after_event st).
      match goal with |- context [diffuse env ?t ?c] =>
        destruct (diffuse env t c) as [image|] end; cbn [fst snd];
        do 2 eexists; eexists [_]; rewrite <- Hone;
        (split; [reflexivity|]); (split; [eauto|]); vm_compute; repeat split; lia.
    + fold (after_event st).
      destruct (from_pretrained env (trace (world st))); cbn [fst snd].
      * do 2 eexists; eexists [_]; rewrite <- Hone.
        split; [reflexivity|]. split; [eauto|]. vm_compute; repeat split; lia.
      * do 2 eexists; eexists [_]; rewrite <- Hone.
        split; [reflexivity|]. split; [eauto|]. vm_compute; repeat split; lia.
      * match goal with |- context [diffuse env ?t ?c] =>
          destruct (diffuse env t c) as [image|] end; cbn [fst snd];
          do 2 eexists; eexists [_; _]; rewrite <- Htwo;
          (split; [reflexivity|]); (split; [eauto|]); vm_compute; repeat split; lia.
Qed.

(** ** The error message of a record *)

Section ErrorMessage.

Import Models.

Variable env : Env.

Lemma content_kept_message s s' :
  content_kept s s' -> error_message s' = error_message s /\ status s' = status s.
Proof.
  intros (_ & _ & _ & _ & _ & _ & _ & _ & _ & _ & Hs & He). split; assumption.
Qed.

(** The [try] block does not write the error message. *)
Lemma generation_try_message start_time length image_style st :
  wp (Views.generation_try env start_time length image_style) st
    (fun o st' =>
       match o with
       | Return _ => error_message (story st') = error_message (story st)
       | Raise _ => True
       end).
Proof.
  unfold Views.generation_try, Views.generation_try_with.
  wp_step. unfold Views.fault at 1.
  destruct (gen_fault env StepImport) as [e|].
  { wp_step. exact I. }
  wp_steps.
  destruct (Py.truthy (get_input_text (story st))); cbn [negb].
  2:{ wp_step. exact I. }
  wp_steps.
  destruct (init_events env st) as (self & evs & Heq & Hq0 & Hq0').
  eapply wp_eq; [exact Heq|]; clear Heq; cbv beta iota; norm.
  wp_step.
  match goal with |- wp (Ollama.generate_story _ _ ?p ?l) ?s _ =>
    destruct (generate_story_events env self p l s)
      as (text & evs0 & Heq & Hp0 & Ht0) end.
  eapply wp_eq; [exact Heq|]; clear Heq; cbv beta iota; norm.
  wp_steps.
  match goal with |- wp (Ollama.generate_character_description _ _ ?t) ?s _ =>
    destruct (generate_character_description_events env self t s)
      as (cd & evs1 & Heq & Hp1 & Ht1) end.
  eapply wp_eq; [exact Heq|]; clear Heq; cbv beta iota; norm.
  wp_steps.
  match goal with |- wp (Ollama.generate_scene_description _ _ ?t) ?s _ =>
    destruct (generate_scene_description_events env self t s)
      as (bd & evs2 & Heq & Hp2 & Ht2) end.
  eapply wp_eq; [exact Heq|]; clear Heq; cbv beta iota; norm.
  wp_steps.
  match goal with |- wp (Gpu.generate_character_image _ ?g ?d ?y) ?s _ =>
    destruct (generate_character_image_events env g d y s)
      as (blob1 & g1 & evs3 & Heq & Hp3 & Ht3) end.
  eapply wp_eq; [exact Heq|]; clear Heq; cbv beta iota; norm.
  wp_step.
  eapply wp_rw; [apply field_save_eq|].
  destruct (gen_fault env StepSaveCharacter) as [e|]; norm.
  { exact I. }
  unfold after_field_save; cbv zeta; norm.
  match goal with |- context [uuid4 env ?t] =>
    generalize (uuid4 env t); intros u1 end.
  match goal with |- context [story_image_path ?s u1 ?n] =>
    generalize (story_image_path s u1 n); intros name1 end.
  wp_steps.
  match goal with |- wp (Gpu.generate_background_image _ ?g ?d ?y) ?s _ =>
    destruct (generate_background_image_events env g d y s)
      as (blob2 & g2 & evs4 & Heq & Hp4 & Ht4) end.
  eapply wp_eq; [exact Heq|]; clear Heq; cbv beta iota; norm.
  wp_step.
  eapply wp_rw; [apply field_save_eq|].
  destruct (gen_fault env StepSaveBackground) as [e|]; norm.
  { exact I. }
  unfold after_field_save; cbv zeta; norm.
  match goal with |- context [uuid4 env ?t] =>
    generalize (uuid4 env t); intros u2 end.
  match goal with |- context [story_image_path ?s u2 ?n] =>
    generalize (story_image_path s u2 n); intros name2 end.
  wp_steps.
  assert (Hend : forall stN,
            error_message (story stN) = error_message (story st) ->
            wp (bind (assign (set_image_model_used
                                ("Stable Diffusion (" +:+ image_style +:+ ")")))
                  (fun _ => bind (Views.cleanup env g2)
                    (fun _ => bind (assign (set_status "completed"))
                      (fun _ => bind (assign (set_generation_time
                                        (Some (time_at_end env - start_time)%float)))
                        (fun _ => Views.save env)))))
               stN
               (fun o st' =>
                  match o with
                  | Return _ => error_message (story st') = error_message (story st)
                  | Raise _ => True
                  end)).
  { intros stN Hmsg. wp_steps. unfold Views.cleanup, Views.fault.
    assert (Hgo : forall s0,
              error_message (story s0) = error_message (story st) ->
              wp (bind (assign (set_status "completed"))
                    (fun _ => bind (assign (set_generation_time
                                      (Some (time_at_end env - start_time)%float)))
                      (fun _ => Views.save env)))
                 s0
                 (fun o st' =>
                    match o with
                    | Return _ =>
                        error_message (story st') = error_message (story st)
                    | Raise _ => True
                    end)).
    { intros s0 H0. wp_steps. apply wp_save. norm. intros st' Hkept _ _ _.
      apply content_kept_message in Hkept. norm_all.
      destruct Hkept as [-> _]. exact H0. }
    destruct (Gpu.available g2).
    - destruct (gen_fault env StepCleanup) as [e|].
      + wp_step. exact I.
      + wp_step. apply Hgo. norm. exact Hmsg.
    - wp_step. apply Hgo. norm. exact Hmsg. }
  destruct (field_truthy (Some name1) && field_truthy (Some name2)).
  - unfold Views.field_path. wp_steps.
    set (composed := compose_result env _ _). clearbody composed.
    eapply wp_rw; [apply field_save_eq|].
    destruct (gen_fault env StepSaveComposed) as [e|]; norm.
    { exact I. }
    unfold after_field_save; cbv zeta; norm.
    apply Hend; norm. reflexivity.
  - wp_step. apply Hend; norm. reflexivity.
Qed.

(** After [_generate_enhanced_story_content] the error message is the one
    of before, or the text of the exception. *)
Lemma generate_content_message length image_style st :
  wp (Views._generate_enhanced_story_content env length image_style) st
    (fun o st' =>
       o = Return tt /\
       (status (story st') = "completed" /\
        error_message (story st') = error_message (story st) \/
        status (story st') = "error")).
Proof.
  unfold Views._generate_enhanced_story_content. cbv zeta. wp_step.
  pose proof (generation_try_message (time_at_start env) length image_style st) as Hm.
  pose proof (generation_try_spec env (time_at_start env) length image_style st) as Hg.
  unfold wp in Hm, Hg |- *.
  destruct (Views.generation_try env (time_at_start env) length image_style st)
    as [[[]|e] st1]; cbn [fst snd] in *.
  - split; [reflexivity|]. left. split; [|exact Hm].
    destruct Hg as [_ Hg]. apply (Hg eq_refl).
  - fold (wp (Views.generation_except env e) st1
            (fun o st' =>
               o = Return tt /\
               (status (story st') = "completed" /\
                error_message (story st') = error_message (story st) \/
                status (story st') = "error"))).
    unfold Views.generation_except. wp_steps. apply wp_save. norm.
    intros st' Hkept _ _ _. apply content_kept_message in Hkept. norm_all.
    split; [reflexivity|]. right. apply Hkept.
Qed.

End ErrorMessage.

Section ErrorMessageOfPost.

Import Models.

Variable env : Env.

Lemma handle_audio_input_message (audio_file : UploadedFile) st :
  wp (Views._handle_audio_input env audio_file) st
    (fun o st' =>
       match o with
       | Return true => error_message (story st') = error_message (story st)
       | Return false => status (story st') = "error"
       | Raise _ => False
       end).
Proof.
  assert (Hhandler : forall e st1,
            wp (bind (assign (set_status "error"))
                  (fun _ => bind (assign (set_error_message
                                    ("Audio transcription failed: " +:+ e)))
                    (fun _ => bind (Views.save env)
                      (fun _ => bind (message "error" "Audio transcription failed")
                        (fun _ => ret false))))) st1
               (fun o st' =>
                  match o with
                  | Return true => error_message (story st') = error_message (story st)
                  | Return false => status (story st') = "error"
                  | Raise _ => False
                  end)).
  { intros e st1. wp_steps. apply wp_save. norm.
    intros st' Hkept _ _ _. apply content_kept_message in Hkept. norm_all.
    wp_steps. apply Hkept. }
  unfold Views._handle_audio_input. wp_step.
  destruct (10 * 1024 * 1024 <? uf_size audio_file).
  - wp_steps. apply wp_save. norm.
    intros st' Hkept _ _ _. apply content_kept_message in Hkept. norm_all.
    wp_steps. apply Hkept.
  - wp_steps. apply wp_save. norm.
    intros st1 Hkept1 _ _ _. apply content_kept_message in Hkept1. norm_all.
    destruct Hkept1 as [Hm1 _]. wp_steps.
    destruct (check_audio_support env); cbn [negb].
    2:{ wp_step. apply Hhandler. }
    wp_steps. unfold Views._safe_transcribe_audio. wp_steps.
    destruct (whisper_transcribe env audio_file) as [text|].
    + wp_steps. apply wp_save. norm.
      intros st2 Hkept2 _ _ _. apply content_kept_message in Hkept2. norm_all.
      destruct Hkept2 as [Hm2 _]. wp_steps. congruence.
    + wp_steps. destruct (google_transcribe env audio_file) as [text|e].
      * wp_steps. apply wp_save. norm.
        intros st2 Hkept2 _ _ _. apply content_kept_message in Hkept2. norm_all.
        destruct Hkept2 as [Hm2 _]. wp_steps. congruence.
      * wp_step. apply Hhandler.
Qed.

Lemma generate_and_respond_message story_length image_style st :
  wp (Views.generate_and_respond env story_length image_style) st
    (fun o st' =>
       status (story st') = "completed" ->
       error_message (story st') = error_message (story st)).
Proof.
  unfold Views.generate_and_respond.
  wp_steps. apply wp_save. norm.
  intros st1 Hkept _ _ _. apply content_kept_message in Hkept. norm_all.
  destruct Hkept as [Hm1 _]. wp_step.
  eapply wp_mono; [apply generate_content_message|]. cbv beta.
  intros o st2 [-> Hcases]. wp_steps.
  assert (Hgoal : status (story st2) = "completed" ->
                  error_message (story st2) = error_message (story st)).
  { intros Hc. destruct Hcases as [[_ Hm]|He]; [congruence|].
    rewrite He in Hc. discriminate Hc. }
  destruct (String.eqb (status (story st2)) "error"); wp_steps; exact Hgoal.
Qed.

Lemma post_after_create_message audio_file story_length image_style st :
  wp (Views.post_after_create env audio_file story_length image_style) st
    (fun o st' =>
       status (story st') = "completed" ->
       error_message (story st') = error_message (story st)).
Proof.
  unfold Views.post_after_create. wp_step.
  assert (Hskip : wp (ret true) st
            (fun o st' =>
               match o with
               | Return a =>
                   wp (if negb a then ret Views.RedirectIndex
                       else Views.generate_and_respond env story_length
                              image_style)
                     st'
                     (fun o st'' =>
                        status (story st'') = "completed" ->
                        error_message (story st'') = error_message (story st))
               | Raise e =>
                   status (story st') = "completed" ->
                   error_message (story st') = error_message (story st)
               end)).
  { wp_step. cbn [negb]. apply generate_and_respond_message. }
  destruct audio_file as [f|]; [|exact Hskip].
  destruct (upload_truthy (Some f)); [|exact Hskip]. clear Hskip.
  eapply wp_mono; [apply handle_audio_input_message|]. cbv beta.
  intros [[|]|e] st1 H; cbn [negb]; [| |contradiction].
  - eapply wp_mono; [apply generate_and_respond_message|]. cbv beta.
    intros o st2 H2 Hc. rewrite (H2 Hc). exact H.
  - wp_step. intros Hc. rewrite H in Hc. discriminate Hc.
Qed.

Lemma create_message user prompt input_method st_status w :
  error_message (story (Views.create env user prompt input_method st_status w))
  = EmptyString.
Proof.
  unfold Views.create. cbv zeta.
  match goal with |- context [Views.save env ?s] =>
    pose proof (after_save_content env s) as Hkept end.
  apply content_kept_message in Hkept. unfold after_save in Hkept.
  norm_all. apply Hkept.
Qed.

End ErrorMessageOfPost.

(** X25: a record that [post] leaves ['completed'] carries no error
    message: the field is written only on the ways that end with the
    status ['error']. *)
Theorem completed_record_has_no_error_message (env : Env)
    (request : Views.Request) (w : World) (s : Models.StoryGeneration) :
  Views.created (Views.post env request w) = Some s ->
  Models.status s = "completed" ->
  Models.error_message s = EmptyString.
Proof.
  unfold Views.post.
  destruct (negb (table_exists env)); [discriminate|].
  match goal with |- context [if ?b then _ else _] => destruct b end;
    [discriminate|].
  match goal with |- context [Views.create env ?u ?p ?m ?t w] =>
    pose proof (create_message env u p m t w) as Hc;
    set (st := Views.create env u p m t w) in * end.
  match goal with |- context [Views.post_after_create env ?a ?l ?y st] =>
    pose proof (post_after_create_message env a l y st) as H;
    pose proof (post_after_create_answer env a l y st) as Ha;
    unfold wp, answered in H, Ha;
    destruct (Views.post_after_create env a l y st) as [[resp|e] st'] end;
    cbn [fst snd] in H, Ha; [|contradiction].
  cbn [Views.created]. intros [= <-] Hstat. rewrite (H Hstat). exact Hc.
Qed.

Lemma completed_record_has_no_error_message_witness :
  exists s,
    Views.created (Views.post Sample.offline Sample.text_request Sample.empty_world)
      = Some s /\
    Models.error_message s = EmptyString.
Proof.
  destruct offline_run_completes as (s & Hc & Hstat & _).
  exists s. split; [exact Hc|].
  exact (completed_record_has_no_error_message Sample.offline Sample.text_request
           Sample.empty_world s Hc Hstat).
Defined.
